(** * TripGPT route endpoint: a shallow embedding of [api/views.py]

    The development follows the source file top to bottom:
    - Python text ([str]) as sequences of Unicode code points;
    - Python values as produced by [json.loads] ([pyval]);
    - the binary64 arithmetic behind [/], [round], [int] and [repr];
    - the helper [tmap_geocode];
    - the handler [TravelAPIView.get], written in a small monad that
      threads the network (the replies the providers give) and the list of
      requests sent. *)

From Stdlib Require Import String Ascii.
From Stdlib Require Import ZArith NArith List Bool Lia.
From Stdlib Require Import Floats.SpecFloat.
Import ListNotations.

Local Open Scope Z_scope.

(* ===================================================================== *)
(** ** Text *)
(* ===================================================================== *)

(** A Python [str] is a sequence of code points. *)
Definition str := list N.

(** Source literals are written as UTF-8 byte strings and decoded once. *)
Fixpoint utf8_decode (bs : list N) (need : nat) (acc : N) : str :=
  match bs with
  | [] => []
  | b :: rest =>
      match need with
      | O =>
          if (b <? 128)%N then b :: utf8_decode rest 0 0%N
          else if (b <? 224)%N then utf8_decode rest 1 (b - 192)%N
          else if (b <? 240)%N then utf8_decode rest 2 (b - 224)%N
          else utf8_decode rest 3 (b - 240)%N
      | S O => (acc * 64 + (b - 128))%N :: utf8_decode rest 0 0%N
      | S k => utf8_decode rest k (acc * 64 + (b - 128))%N
      end
  end.

Fixpoint bytes_of_string (s : string) : list N :=
  match s with
  | EmptyString => []
  | String c s' => N_of_ascii c :: bytes_of_string s'
  end.

Definition u (s : string) : str := utf8_decode (bytes_of_string s) 0 0%N.
Arguments u s%_string.

Fixpoint str_eqb (a b : str) : bool :=
  match a, b with
  | [], [] => true
  | x :: a', y :: b' => (x =? y)%N && str_eqb a' b'
  | _, _ => false
  end.

(** [Py_UNICODE_ISSPACE]: what [str.strip()] removes. *)
Definition is_space (c : N) : bool :=
  ((9 <=? c) && (c <=? 13) || (28 <=? c) && (c <=? 32) || (c =? 133)
   || (c =? 160) || (c =? 5760) || (8192 <=? c) && (c <=? 8202)
   || (c =? 8232) || (c =? 8233) || (c =? 8239) || (c =? 8287)
   || (c =? 12288))%N.

Fixpoint lstrip (s : str) : str :=
  match s with
  | c :: s' => if is_space c then lstrip s' else s
  | [] => []
  end.

Definition rstrip (s : str) : str := rev (lstrip (rev s)).

(** [s.strip()] *)
Definition strip (s : str) : str := rstrip (lstrip s).

(** Truth value of a text: non-empty. *)
Definition nonempty (s : str) : bool :=
  match s with [] => false | _ :: _ => true end.

(** Decimal digits of a natural number, most significant first. *)
Fixpoint digits_fuel (fuel : nat) (n : Z) (acc : str) : str :=
  match fuel with
  | O => acc
  | S f =>
      let acc' := Z.to_N (48 + n mod 10) :: acc in
      if n <? 10 then acc' else digits_fuel f (n / 10) acc'
  end.

Definition digits_of (n : Z) : str :=
  digits_fuel (S (Z.to_nat (Z.log2 n))) n [].

(** [str(n)] for an integer. *)
Definition str_of_Z (n : Z) : str :=
  if n <? 0 then 45%N :: digits_of (- n) else digits_of n.

Definition join (sep : str) (parts : list str) : str :=
  match parts with
  | [] => []
  | p :: ps => p ++ concat (map (fun q => sep ++ q) ps)
  end.

(* ===================================================================== *)
(** ** Binary64 arithmetic *)
(* ===================================================================== *)

(** A Python [float] is an IEEE 754 binary64 number; the representation and
    the float-by-float operations are the ones of the standard library's
    specification of hardware floats. *)
Definition prec : Z := 53.
Definition emax : Z := 1024.

Definition fmul : spec_float -> spec_float -> spec_float := SFmul prec emax.
Definition fdiv : spec_float -> spec_float -> spec_float := SFdiv prec emax.
Definition fsub : spec_float -> spec_float -> spec_float := SFsub prec emax.
Definition fadd : spec_float -> spec_float -> spec_float := SFadd prec emax.

(** Nearest integer to [a / b], ties to even ([0 < b]). *)
Definition rne_div (a b : Z) : Z :=
  let q := a / b in
  let r := a mod b in
  match 2 * r ?= b with
  | Lt => q
  | Gt => q + 1
  | Eq => if Z.even q then q else q + 1
  end.

(** [floor (log2 (a / b))] for [0 < a] and [0 < b]. *)
Definition binade (a b : Z) : Z :=
  let l := Z.log2 a - Z.log2 b in
  if a * 2 ^ Z.max 0 (- l) <? b * 2 ^ Z.max 0 l then l - 1 else l.

(** Nearest integer to [a / (b * 2^e)], ties to even. *)
Definition scaled_rne (a b e : Z) : Z :=
  if 0 <=? e then rne_div a (b * 2 ^ e) else rne_div (a * 2 ^ (- e)) b.

(** The same ratio [a / (b * 2^e)] as a fraction of integers. *)
Definition scaled (a b e : Z) : Z * Z :=
  if 0 <=? e then (a, b * 2 ^ e) else (a * 2 ^ (- e), b).

(** The binary64 number nearest to the rational [a / b] ([0 <= a], [0 < b]),
    ties to even, with sign [s]; an infinity when the rounded magnitude
    exceeds the largest finite number. *)
Definition round_ratio (s : bool) (a b : Z) : spec_float :=
  if a <=? 0 then S754_zero s
  else
    let e := Z.max (binade a b - 52) (-1074) in
    let m := scaled_rne a b e in
    let '(m', e') := if m =? 2 ^ 53 then (2 ^ 52, e + 1) else (m, e) in
    match m' with
    | Zpos p => if e' >? 971 then S754_infinity s else S754_finite s p e'
    | _ => S754_zero s
    end.

(** [float(n)] for an integer that fits (the caller checks the range). *)
Definition float_of_Z (n : Z) : spec_float :=
  round_ratio (n <? 0) (Z.abs n) 1.

Definition is_finite (x : spec_float) : bool :=
  match x with
  | S754_zero _ | S754_finite _ _ _ => true
  | _ => false
  end.

(** The exact value of a finite float as a fraction [(numerator, denominator)]
    of its magnitude. *)
Definition magnitude (x : spec_float) : Z * Z :=
  match x with
  | S754_finite _ m e =>
      if 0 <=? e then (Zpos m * 2 ^ e, 1) else (Zpos m, 2 ^ (- e))
  | _ => (0, 1)
  end.

Definition sign_of (x : spec_float) : bool :=
  match x with
  | S754_zero s | S754_infinity s | S754_finite s _ _ => s
  | S754_nan => false
  end.

(** [round(x, 1)]: the decimal with one fractional digit nearest to the exact
    value of [x] (ties to even), read back as a float.  Zeros, infinities
    and NaN round to themselves. *)
Definition py_round1 (x : spec_float) : spec_float :=
  match x with
  | S754_finite s _ _ =>
      let '(n, d) := magnitude x in
      round_ratio s (rne_div (10 * n) d) 10
  | _ => x
  end.

(** [math.floor] as a float-to-float map (the C [floor]). *)
Definition float_floor (x : spec_float) : spec_float :=
  match x with
  | S754_finite s _ _ =>
      let '(n, d) := magnitude x in
      if s then round_ratio true ((n + d - 1) / d) 1
      else round_ratio false (n / d) 1
  | _ => x
  end.

(** The C [fmod]: exact remainder with the sign of the dividend. *)
Definition float_fmod (vx wx : spec_float) : spec_float :=
  match vx, wx with
  | S754_nan, _ | _, S754_nan | S754_infinity _, _ | _, S754_zero _ => S754_nan
  | _, S754_infinity _ => vx
  | _, _ =>
      let '(n, d) := magnitude vx in
      let '(n2, d2) := magnitude wx in
      round_ratio (sign_of vx) ((n * d2) mod (n2 * d)) (d * d2)
  end.

Definition float_is_zero (x : spec_float) : bool :=
  match x with S754_zero _ => true | _ => false end.

Definition float_one : spec_float := float_of_Z 1.
Definition float_half : spec_float := round_ratio false 1 2.

(** [vx // wx] on floats, after CPython's [_float_div_mod] ([wx] non-zero). *)
Definition float_floordiv (vx wx : spec_float) : spec_float :=
  let md := float_fmod vx wx in
  let div := fdiv (fsub vx md) wx in
  let div :=
    if negb (float_is_zero md)
       && negb (Bool.eqb (SFltb wx (S754_zero false)) (SFltb md (S754_zero false)))
    then fsub div float_one else div in
  if negb (float_is_zero div) then
    let fl := float_floor div in
    if SFltb float_half (fsub div fl) then fadd fl float_one else fl
  else S754_zero (xorb (sign_of vx) (sign_of wx)).

(** *** [repr] of a float: the shortest decimal that reads back *)

(** Position of the decimal point: [10^(k-1) <= n/d < 10^k]. *)
Fixpoint decpt_below (fuel : nat) (n d : Z) (j : Z) : Z :=
  match fuel with
  | O => j
  | S f => if d <=? n then j else decpt_below f (n * 10) d (j - 1)
  end.

Definition decpt_of (n d : Z) : Z :=
  if d <=? n then Z.of_nat (length (digits_of (n / d)))
  else decpt_below 400 (n * 10) d 0.

(** [n/d] scaled by [10^(p-k)] as a fraction. *)
Definition scale10 (n d : Z) (sh : Z) : Z * Z :=
  if 0 <=? sh then (n * 10 ^ sh, d) else (n, d * 10 ^ (- sh)).

(** Does the decimal [c * 10^(k-p)] read back as the magnitude of [x]? *)
Definition reads_back (x : spec_float) (c : Z) (sh : Z) : bool :=
  let '(a, b) := scale10 c 1 (- sh) in
  match round_ratio false a b, SFabs x with
  | S754_finite _ m1 e1, S754_finite _ m2 e2 => (Zpos m1 =? Zpos m2) && (e1 =? e2)
  | _, _ => false
  end.

(** The [p]-digit decimals just below and above [n/d]: the first [p] (from
    1 to 17) for which one of them reads back gives the digits; when both
    do, the nearer one (ties to even). *)
Fixpoint shortest_digits (fuel : nat) (x : spec_float) (n d k : Z) (p : Z) : Z * Z :=
  let '(a, b) := scale10 n d (p - k) in
  let lo := a / b in
  let hi := lo + 1 in
  match fuel with
  | O => (rne_div a b, p)
  | S f =>
      match reads_back x lo (p - k), reads_back x hi (p - k) with
      | true, true => (rne_div a b, p)
      | true, false => (lo, p)
      | false, true => (hi, p)
      | false, false => shortest_digits f x n d k (p + 1)
      end
  end.

Fixpoint strip_zeros_rev (ds : str) : str :=
  match ds with
  | 48%N :: ds' => strip_zeros_rev ds'
  | _ => ds
  end.

Definition zeros (n : Z) : str := repeat 48%N (Z.to_nat n).

Definition pad2 (ds : str) : str :=
  match ds with [_] => 48%N :: ds | _ => ds end.

Definition py_repr_float (x : spec_float) : str :=
  match x with
  | S754_nan => u "nan"
  | S754_infinity s => if s then u "-inf" else u "inf"
  | S754_zero s => if s then u "-0.0" else u "0.0"
  | S754_finite s _ _ =>
      let '(n, d) := magnitude x in
      let k := decpt_of n d in
      let '(c, p) := shortest_digits 16 x n d k 1 in
      let all := digits_of c in
      let decpt := k + (Z.of_nat (length all) - p) in
      let ds := rev (strip_zeros_rev (rev all)) in
      let len := Z.of_nat (length ds) in
      let body :=
        if (-4 <? decpt) && (decpt <=? 16) then
          if decpt <=? 0 then u "0." ++ zeros (- decpt) ++ ds
          else if len <=? decpt then ds ++ zeros (decpt - len) ++ u ".0"
          else firstn (Z.to_nat decpt) ds ++ u "." ++ skipn (Z.to_nat decpt) ds
        else
          firstn 1 ds
          ++ (if 1 <? len then u "." ++ skipn 1 ds else [])
          ++ u "e" ++ (if decpt - 1 <? 0 then u "-" else u "+")
          ++ pad2 (digits_of (Z.abs (decpt - 1))) in
      if s then u "-" ++ body else body
  end.

(* ===================================================================== *)
(** ** Exceptions and values *)
(* ===================================================================== *)

(** The exceptions the modelled code can meet; every one of them derives
    from [Exception], which is what the source's handlers catch. *)
Inductive exn : Type :=
| TypeError | ValueError | KeyError | IndexError | AttributeError
| OverflowError | ConnectionError | HTTPError | JSONDecodeError.

Inductive result (A : Type) : Type :=
| Ok (a : A)
| Raise (e : exn).
Arguments Ok {A} a.
Arguments Raise {A} e.

Definition rbind {A B : Type} (r : result A) (k : A -> result B) : result B :=
  match r with
  | Ok a => k a
  | Raise e => Raise e
  end.

Declare Scope py_scope.
Delimit Scope py_scope with py.
Notation "'let*' x ':=' c 'in' k" := (rbind c (fun x => k))
  (at level 10, x pattern, c at level 100, k at level 200) : py_scope.
Local Open Scope py_scope.

Set Warnings "-register-all".

(** What [json.loads] can return ([NaN] and [Infinity] literals included);
    a [dict] keeps its items in insertion order, with distinct keys. *)
Inductive pyval : Type :=
| VNone
| VBool (b : bool)
| VInt (n : Z)
| VFloat (x : spec_float)
| VStr (s : str)
| VList (l : list pyval)
| VDict (d : list (str * pyval)).

(** Truth value, as tested by [if], [not], [and], [or]. *)
Definition truthy (v : pyval) : bool :=
  match v with
  | VNone => false
  | VBool b => b
  | VInt n => negb (n =? 0)
  | VFloat x => negb (float_is_zero x)
  | VStr s => nonempty s
  | VList l => match l with [] => false | _ => true end
  | VDict d => match d with [] => false | _ => true end
  end.

(** [a or b] *)
Definition py_or (a b : pyval) : pyval := if truthy a then a else b.

Fixpoint assoc (k : str) (d : list (str * pyval)) : option pyval :=
  match d with
  | [] => None
  | (k', v) :: d' => if str_eqb k k' then Some v else assoc k d'
  end.

(** [v.get(k, default)]: only a [dict] has the method. *)
Definition dict_get (v : pyval) (k : str) (default : pyval) : result pyval :=
  match v with
  | VDict d => Ok (match assoc k d with Some x => x | None => default end)
  | _ => Raise AttributeError
  end.

(** [v[k]] for a text key. *)
Definition getitem_key (v : pyval) (k : str) : result pyval :=
  match v with
  | VDict d => match assoc k d with Some x => Ok x | None => Raise KeyError end
  | VList _ | VStr _ => Raise TypeError
  | _ => Raise TypeError
  end.

(** [v[0]] *)
Definition getitem_0 (v : pyval) : result pyval :=
  match v with
  | VList (x :: _) => Ok x
  | VList [] => Raise IndexError
  | VStr (c :: _) => Ok (VStr [c])
  | VStr [] => Raise IndexError
  | VDict _ => Raise KeyError
  | _ => Raise TypeError
  end.

(** Iteration ([for x in v], unpacking): lists give their items, texts
    their characters, dicts their keys. *)
Definition py_iter (v : pyval) : result (list pyval) :=
  match v with
  | VList l => Ok l
  | VStr s => Ok (map (fun c => VStr [c]) s)
  | VDict d => Ok (map (fun kv => VStr (fst kv)) d)
  | _ => Raise TypeError
  end.

(** [a, b = v] *)
Definition unpack2 (v : pyval) : result (pyval * pyval) :=
  let* items := py_iter v in
  match items with
  | [a; b] => Ok (a, b)
  | _ => Raise ValueError
  end.

(** [v == "..."] against a text literal. *)
Definition eq_str (v : pyval) (s : str) : bool :=
  match v with
  | VStr t => str_eqb t s
  | _ => false
  end.

(** The part of the Unicode character database that [int], [float] and
    [repr] consult outside ASCII. *)
Class UnicodeData : Type := {
  ucd_decimal : N -> option Z;
  ucd_printable : N -> bool
}.

Section Builtins.
Context {ucd : UnicodeData}.

(** *** Reading numbers from text *)

(** [Py_ISSPACE], the blanks [int] and [float] skip around a literal. *)
Definition is_ascii_space (c : N) : bool :=
  ((9 <=? c) && (c <=? 13) || (c =? 32))%N.

Definition is_digit (c : N) : bool := ((48 <=? c) && (c <=? 57))%N.

(** Non-ASCII blanks become a space, non-ASCII decimal digits their ASCII
    digit, anything else outside ASCII a question mark. *)
Definition to_ascii (c : N) : N :=
  if (c <? 127)%N then c
  else if is_space c then 32%N
  else match ucd_decimal c with
       | Some d => if (0 <=? d) && (d <=? 9) then Z.to_N (48 + d) else 63%N
       | None => 63%N
       end.

Fixpoint lstrip_ascii (s : str) : str :=
  match s with
  | c :: s' => if is_ascii_space c then lstrip_ascii s' else s
  | [] => []
  end.

Definition strip_ascii (s : str) : str :=
  rev (lstrip_ascii (rev (lstrip_ascii s))).

(** Underscores may only sit between two digits; they are dropped. *)
Fixpoint drop_underscores (prev : N) (s : str) : option str :=
  match s with
  | [] => if (prev =? 95)%N then None else Some []
  | c :: s' =>
      if (c =? 95)%N then
        if is_digit prev then drop_underscores c s' else None
      else if (prev =? 95)%N && negb (is_digit c) then None
      else option_map (cons c) (drop_underscores c s')
  end.

Fixpoint span_digits (s : str) : str * str :=
  match s with
  | c :: s' =>
      if is_digit c then let '(ds, r) := span_digits s' in (c :: ds, r)
      else ([], s)
  | [] => ([], [])
  end.

Definition number_of (ds : str) : Z :=
  fold_left (fun acc c => acc * 10 + (Z.of_N c - 48)) ds 0.

(** An optional sign: [(negative, rest)]. *)
Definition take_sign (s : str) : bool * str :=
  match s with
  | 45%N :: r => (true, r)
  | 43%N :: r => (false, r)
  | _ => (false, s)
  end.

Definition lower (c : N) : N :=
  if ((65 <=? c) && (c <=? 90))%N then (c + 32)%N else c.

(** [sys.int_info.default_max_str_digits]: the longest run of digits that
    [int] converts. *)
Definition max_str_digits : Z := 4300.

(** [int(s)] for a text, base ten: a text of more than [max_str_digits]
    digits is refused like one that is no number. *)
Definition int_of_str (s : str) : result Z :=
  match drop_underscores 0%N (strip_ascii (map to_ascii s)) with
  | None => Raise ValueError
  | Some t =>
      let '(neg, body) := take_sign t in
      match span_digits body with
      | ((_ :: _) as ds, []) =>
          if max_str_digits <? Z.of_nat (length ds) then Raise ValueError
          else Ok (if neg then - number_of ds else number_of ds)
      | _ => Raise ValueError
      end
  end.

(** [float(s)] for a text. *)
Definition float_of_str (s : str) : result spec_float :=
  match drop_underscores 0%N (strip_ascii (map to_ascii s)) with
  | None => Raise ValueError
  | Some t =>
      let '(neg, body) := take_sign t in
      let word := map lower body in
      if str_eqb word (u "inf") || str_eqb word (u "infinity")
      then Ok (S754_infinity neg)
      else if str_eqb word (u "nan") then Ok S754_nan
      else
        let '(ip, r1) := span_digits body in
        let '(fp, r2) :=
          match r1 with
          | 46%N :: r => span_digits r
          | _ => ([], r1)
          end in
        let '(ex, r3) :=
          match r2 with
          | c :: r =>
              if (lower c =? 101)%N then
                let '(eneg, r') := take_sign r in
                match span_digits r' with
                | ((_ :: _) as es, r'') =>
                    (if eneg then - number_of es else number_of es, r'')
                | _ => (0, r2)
                end
              else (0, r2)
          | [] => (0, [])
          end in
        match ip ++ fp, r3 with
        | (_ :: _) as ds, [] =>
            let '(a, b) := scale10 (number_of ds) 1 (ex - Z.of_nat (length fp)) in
            Ok (round_ratio neg a b)
        | _, _ => Raise ValueError
        end
  end.

(** *** [int(v)], [float(v)] *)

Definition int_of_float (x : spec_float) : result Z :=
  match x with
  | S754_nan => Raise ValueError
  | S754_infinity _ => Raise OverflowError
  | S754_zero _ => Ok 0
  | S754_finite s _ _ =>
      let '(n, d) := magnitude x in
      Ok (if s then - (n / d) else n / d)
  end.

Definition py_int (v : pyval) : result Z :=
  match v with
  | VInt n => Ok n
  | VBool b => Ok (if b then 1 else 0)
  | VFloat x => int_of_float x
  | VStr s => int_of_str s
  | _ => Raise TypeError
  end.

(** [n / d] on integers ([d] non-zero): correctly rounded, or
    [OverflowError] when the quotient is out of range. *)
Definition int_truediv (n d : Z) : result spec_float :=
  let x := round_ratio (xorb (n <? 0) (d <? 0)) (Z.abs n) (Z.abs d) in
  if is_finite x then Ok x else Raise OverflowError.

(** [float(n)] on an integer. *)
Definition float_of_int (n : Z) : result spec_float := int_truediv n 1.

Definition py_float (v : pyval) : result spec_float :=
  match v with
  | VFloat x => Ok x
  | VInt n => float_of_int n
  | VBool b => Ok (float_of_Z (if b then 1 else 0))
  | VStr s => float_of_str s
  | _ => Raise TypeError
  end.

(** [v / d] and [v // d] for a positive integer constant [d]. *)
Definition py_truediv (v : pyval) (d : Z) : result spec_float :=
  match v with
  | VInt n => int_truediv n d
  | VBool b => int_truediv (if b then 1 else 0) d
  | VFloat x => Ok (fdiv x (float_of_Z d))
  | _ => Raise TypeError
  end.

Definition py_floordiv (v : pyval) (d : Z) : result pyval :=
  match v with
  | VInt n => Ok (VInt (n / d))
  | VBool b => Ok (VInt ((if b then 1 else 0) / d))
  | VFloat x => Ok (VFloat (float_floordiv x (float_of_Z d)))
  | _ => Raise TypeError
  end.

(** *** [repr] and [str] *)

Definition hex_digit (n : N) : N :=
  if (n <? 10)%N then (48 + n)%N else (87 + n)%N.

Fixpoint hex_fixed (width : nat) (n : N) (acc : str) : str :=
  match width with
  | O => acc
  | S w => hex_fixed w (n / 16)%N (hex_digit (n mod 16)%N :: acc)
  end.

Definition is_printable (c : N) : bool :=
  if (c <? 127)%N then (32 <=? c)%N else ucd_printable c.

Definition escape_char (quote c : N) : str :=
  if (c =? quote)%N || (c =? 92)%N then [92%N; c]
  else if (c =? 9)%N then u "\t"
  else if (c =? 10)%N then u "\n"
  else if (c =? 13)%N then u "\r"
  else if is_printable c then [c]
  else if (c <? 256)%N then u "\x" ++ hex_fixed 2 c []
  else if (c <? 65536)%N then u "\u" ++ hex_fixed 4 c []
  else u "\U" ++ hex_fixed 8 c [].

Definition has_char (c : N) (s : str) : bool := existsb (N.eqb c) s.

(** [repr(s)] for a text: single quotes unless the text has a single and
    no double quote. *)
Definition repr_str (s : str) : str :=
  let quote := if has_char 39%N s && negb (has_char 34%N s) then 34%N else 39%N in
  quote :: concat (map (escape_char quote) s) ++ [quote].

Fixpoint py_repr (v : pyval) : str :=
  match v with
  | VNone => u "None"
  | VBool b => if b then u "True" else u "False"
  | VInt n => str_of_Z n
  | VFloat x => py_repr_float x
  | VStr s => repr_str s
  | VList l => u "[" ++ join (u ", ") (map py_repr l) ++ u "]"
  | VDict d =>
      u "{"
      ++ join (u ", ")
           (map (fun kv => match kv with
                           | (k, x) => repr_str k ++ u ": " ++ py_repr x
                           end) d)
      ++ u "}"
  end.

(** [str(v)], which is what an f-string field without format
    specification shows. *)
Definition py_str (v : pyval) : str :=
  match v with
  | VStr s => s
  | _ => py_repr v
  end.

End Builtins.

(* ===================================================================== *)
(** ** The network *)
(* ===================================================================== *)

(** What one upstream request comes back with: nothing (connection error,
    timeout: [requests] raises), or a reply with a status code and a text
    that is JSON ([Some]) or not ([None]).  A text with an integer literal
    of more than 4300 digits is one that [json] does not read: it counts
    as [None]. *)
Inductive reply : Type :=
| NoReply
| Reply (status_code : Z) (body : option pyval).

(** The requests the code sends, with the contents it puts in them. *)
Inductive call : Type :=
| PoiSearch (appKey searchKeyword : str)
| Weather (lat lon : spec_float) (appid : str)
| CarRoute (appKey startX startY endX endY : str)
| TransitRoute (appKey startX startY endX endY : str).

(** The world of one run: the replies the providers are going to give, in
    the order the requests are made, and the requests made so far. *)
Record world : Type := { inbox : list reply; sent : list call }.

Definition IO (A : Type) : Type := world -> A * world.

Definition ret {A : Type} (a : A) : IO A := fun w => (a, w).

Definition bind {A B : Type} (m : IO A) (k : A -> IO B) : IO B :=
  fun w => let '(a, w') := m w in k a w'.

Notation "x <- c ;; k" := (bind c (fun x => k))
  (at level 61, c at next level, right associativity) : py_scope.

(** [requests.get] / [requests.post]: one request, one reply (none when the
    providers have nothing more to say). *)
Definition send (c : call) : IO reply :=
  fun w =>
    match inbox w with
    | [] => (NoReply, {| inbox := []; sent := sent w ++ [c] |})
    | r :: rs => (r, {| inbox := rs; sent := sent w ++ [c] |})
    end.

(** [resp.raise_for_status()] followed by [resp.json()], after a request
    that may itself have raised. *)
Definition fetch_json (r : reply) : result pyval :=
  match r with
  | NoReply => Raise ConnectionError
  | Reply st body =>
      if (400 <=? st) && (st <? 600) then Raise HTTPError
      else match body with
           | Some v => Ok v
           | None => Raise JSONDecodeError
           end
  end.

(* ===================================================================== *)
(** ** [tmap_geocode] *)
(* ===================================================================== *)

Section Geocode.
Context {ucd : UnicodeData}.

(** [a or <next>], where evaluating [next] may raise. *)
Definition or_else (a : pyval) (next : result pyval) : result pyval :=
  if truthy a then Ok a else next.

Definition is_none (v : pyval) : bool :=
  match v with VNone => true | _ => false end.

(** The chain [poi0.get(k1) or poi0.get(k2) or poi0.get(k3) or poi0.get(k4)]. *)
Definition get_chain (poi0 : pyval) (k1 k2 k3 k4 : str) : result pyval :=
  let* a := dict_get poi0 k1 VNone in
  or_else a (
    let* b := dict_get poi0 k2 VNone in
    or_else b (
      let* c := dict_get poi0 k3 VNone in
      or_else c (dict_get poi0 k4 VNone))).

(** The body of the [try] block once the reply is in: [Ok None] is an
    early [return None], [Raise] an exception. *)
Definition poi_coord (r : reply) : result (option (spec_float * spec_float)) :=
  let* data := fetch_json r in
  let* spi := dict_get data (u "searchPoiInfo") VNone in
  if negb (truthy spi) then Ok None
  else
    let* pois_obj := dict_get spi (u "pois") (VDict []) in
    let* pois := dict_get pois_obj (u "poi") VNone in
    if negb (truthy pois) then Ok None
    else
      let* poi0 :=
        match pois with
        | VList _ => getitem_0 pois
        | _ => Ok pois
        end in
      let* lat := get_chain poi0 (u "frontLat") (u "frontlat") (u "noorLat") (u "lat") in
      let* lon := get_chain poi0 (u "frontLon") (u "frontlon") (u "noorLon") (u "lon") in
      if is_none lat || is_none lon then Ok None
      else
        let* la := py_float lat in
        let* lo := py_float lon in
        Ok (Some (la, lo)).

Definition tmap_geocode (keyword app_key : str)
  : IO (option (spec_float * spec_float)) :=
  if negb (nonempty keyword) || negb (nonempty app_key) then ret None
  else
    r <- send (PoiSearch app_key keyword) ;;
    ret (match poi_coord r with
         | Ok c => c
         | Raise _ => None
         end).

End Geocode.

(* ===================================================================== *)
(** ** [TravelAPIView] *)
(* ===================================================================== *)

(** [os.environ]: the three keys the handler reads. *)
Record environ : Type := {
  TMAP_APP_KEY : option str;
  KAKAO_JS_KEY : option str;
  OPENWEATHER_API_KEY : option str
}.

(** [os.environ.get(name, default)] *)
Definition environ_get (v : option str) (default : str) : str :=
  match v with Some s => s | None => default end.

(** [request.GET]: the query string's pairs in order; [get] yields the last
    value given for a key, or [None]. *)
Definition querydict := list (str * str).

Fixpoint querydict_get (q : querydict) (k : str) : option str :=
  match q with
  | [] => None
  | (k', v) :: q' =>
      match querydict_get q' k with
      | Some x => Some x
      | None => if str_eqb k k' then Some v else None
      end
  end.

(** [a or b] on optional texts ([None] and the empty text are false). *)
Definition opt_or (a b : option str) : option str :=
  match a with
  | Some (_ :: _) => a
  | _ => b
  end.

(** [a or "literal"] *)
Definition or_text (a : option str) (b : str) : str :=
  match a with
  | Some ((_ :: _) as s) => s
  | _ => b
  end.

(** [car_info]: [{"time_min": ..., "distance_km": ...}] *)
Record car_info_t : Type := { time_min : Z; distance_km : spec_float }.

(** [transit_info] *)
Record transit_info_t : Type := {
  total_time_min : pyval;
  total_distance_km : spec_float;
  transfer_count : pyval;
  path_type : pyval
}.

(** One entry of [transit_steps]. *)
Record transit_step : Type := {
  ts_order : Z;
  ts_mode : pyval;
  ts_mode_ko : pyval;
  ts_summary : str
}.

(** The [response] dict (the body's ["raw"]), one field per key. *)
Record bundle : Type := {
  raw_kakao_js_key : str;
  raw_departure : str;
  raw_destination : str;
  raw_mode : str;
  raw_weather : pyval;
  raw_car_info : option car_info_t;
  raw_transit_info : option transit_info_t;
  raw_car_path : list pyval;
  raw_transit_steps : list transit_step;
  raw_errors : list str
}.

(** [response["errors"].append(note)] *)
Definition add_error (b : bundle) (note : str) : bundle :=
  {| raw_kakao_js_key := raw_kakao_js_key b;
     raw_departure := raw_departure b;
     raw_destination := raw_destination b;
     raw_mode := raw_mode b;
     raw_weather := raw_weather b;
     raw_car_info := raw_car_info b;
     raw_transit_info := raw_transit_info b;
     raw_car_path := raw_car_path b;
     raw_transit_steps := raw_transit_steps b;
     raw_errors := raw_errors b ++ [note] |}.

(** [response["weather"] = weather] *)
Definition set_weather (b : bundle) (weather : pyval) : bundle :=
  {| raw_kakao_js_key := raw_kakao_js_key b;
     raw_departure := raw_departure b;
     raw_destination := raw_destination b;
     raw_mode := raw_mode b;
     raw_weather := weather;
     raw_car_info := raw_car_info b;
     raw_transit_info := raw_transit_info b;
     raw_car_path := raw_car_path b;
     raw_transit_steps := raw_transit_steps b;
     raw_errors := raw_errors b |}.

(** [response["car_info"] = car_info; response["car_path"] = car_path] *)
Definition set_car (b : bundle) (ci : option car_info_t) (path : list pyval)
  : bundle :=
  {| raw_kakao_js_key := raw_kakao_js_key b;
     raw_departure := raw_departure b;
     raw_destination := raw_destination b;
     raw_mode := raw_mode b;
     raw_weather := raw_weather b;
     raw_car_info := ci;
     raw_transit_info := raw_transit_info b;
     raw_car_path := path;
     raw_transit_steps := raw_transit_steps b;
     raw_errors := raw_errors b |}.

(** [response["transit_info"] = ...; response["transit_steps"] = ...] *)
Definition set_transit (b : bundle) (ti : option transit_info_t)
  (steps : list transit_step) : bundle :=
  {| raw_kakao_js_key := raw_kakao_js_key b;
     raw_departure := raw_departure b;
     raw_destination := raw_destination b;
     raw_mode := raw_mode b;
     raw_weather := raw_weather b;
     raw_car_info := raw_car_info b;
     raw_transit_info := ti;
     raw_car_path := raw_car_path b;
     raw_transit_steps := steps;
     raw_errors := raw_errors b |}.

Definition opt_text (o : option str) : pyval :=
  match o with Some s => VStr s | None => VNone end.

Definition car_info_value (ci : car_info_t) : pyval :=
  VDict [(u "time_min", VInt (time_min ci));
         (u "distance_km", VFloat (distance_km ci))].

Definition transit_info_value (ti : transit_info_t) : pyval :=
  VDict [(u "total_time_min", total_time_min ti);
         (u "total_distance_km", VFloat (total_distance_km ti));
         (u "transfer_count", transfer_count ti);
         (u "path_type", path_type ti)].

Definition transit_step_value (s : transit_step) : pyval :=
  VDict [(u "order", VInt (ts_order s));
         (u "mode", ts_mode s);
         (u "mode_ko", ts_mode_ko s);
         (u "summary", VStr (ts_summary s))].

(** The [response] dict as the value placed under ["raw"]. *)
Definition bundle_value (b : bundle) : pyval :=
  VDict [(u "kakao_js_key", VStr (raw_kakao_js_key b));
         (u "departure", VStr (raw_departure b));
         (u "destination", VStr (raw_destination b));
         (u "mode", VStr (raw_mode b));
         (u "weather", raw_weather b);
         (u "car_info",
           match raw_car_info b with
           | Some ci => car_info_value ci
           | None => VNone
           end);
         (u "transit_info",
           match raw_transit_info b with
           | Some ti => transit_info_value ti
           | None => VNone
           end);
         (u "car_path", VList (raw_car_path b));
         (u "transit_steps", VList (map transit_step_value (raw_transit_steps b)));
         (u "errors", VList (map VStr (raw_errors b)))].

(** A DRF [Response(data, status=...)]. *)
Record Response : Type := { data : pyval; status : Z }.

Definition HTTP_200_OK : Z := 200.

(** The body every [return] builds:
    [{"duration": ..., "distance": ..., "steps": ..., "raw": response}]. *)
Definition route_body (duration distance : option str) (steps : list str)
  (response : bundle) : pyval :=
  VDict [(u "duration", opt_text duration);
         (u "distance", opt_text distance);
         (u "steps", VList (map VStr steps));
         (u "raw", bundle_value response)].

(** The notes the handler leaves in [response["errors"]]. *)
Definition note_endpoints : str := u "출발지와 도착지가 필요합니다.".
Definition note_no_key : str := u "TMAP_APP_KEY가 서버 환경변수에 설정되지 않았습니다.".
Definition note_weather : str := u "날씨 정보 조회 실패".
Definition note_car : str := u "자동차 경로 조회 실패".
Definition note_transit : str := u "대중교통 경로 조회 실패".
Definition note_no_route : str := u "적절한 경로를 찾지 못했습니다.".

(** [f"'{name}' 좌표 변환 실패"] *)
Definition note_geocode (name : str) : str :=
  u "'" ++ name ++ u "' 좌표 변환 실패".

Definition key_guidance : list str :=
  [ u "TMAP_APP_KEY가 서버 환경변수에 설정되지 않았습니다.";
    u "settings.py 또는 .env에서 TMAP_APP_KEY를 설정해 주세요.";
    u "API 키가 설정되면 실제 Tmap 경로가 표시됩니다." ].

Module TravelAPIView.
Section Handler.
Context {ucd : UnicodeData}.

(** *** Weather *)

(** The [try] block of the weather lookup, from the reply on. *)
Definition weather_try (r : reply) : result pyval :=
  let* w_data := fetch_json r in
  let* name := dict_get w_data (u "name") VNone in
  let* main := getitem_key w_data (u "main") in
  let* temp := getitem_key main (u "temp") in
  let* wlist := getitem_key w_data (u "weather") in
  let* w0 := getitem_0 wlist in
  let* desc := getitem_key w0 (u "description") in
  Ok (VDict [(u "name", name); (u "temp", temp); (u "desc", desc)]).

Definition weather_step (openweather_key : str)
  (dest_lat dest_lng : spec_float) (response : bundle) : IO bundle :=
  if nonempty openweather_key then
    r <- send (Weather dest_lat dest_lng openweather_key) ;;
    match weather_try r with
    | Ok weather => ret (set_weather response weather)
    | Raise _ => ret (set_weather (add_error response note_weather) VNone)
    end
  else ret (set_weather response VNone).

(** *** Driving route *)

(** [if features: ...]: the totals of the first feature. *)
Definition car_info_of (features : pyval) : result (option car_info_t) :=
  if truthy features then
    let* f0 := getitem_0 features in
    let* props0 := dict_get f0 (u "properties") (VDict []) in
    let* t := dict_get props0 (u "totalTime") (VInt 0) in
    let* total_time := py_int t in
    let* d := dict_get props0 (u "totalDistance") (VInt 0) in
    let* total_distance := py_int d in
    let* km := int_truediv total_distance 1000 in
    Ok (Some {| time_min := total_time / 60; distance_km := py_round1 km |})
  else Ok None.

(** [for lng, lat in ...: car_path.append({"lat": lat, "lng": lng})]; the
    points appended before an exception stay in [car_path]. *)
Fixpoint collect_points (coords : list pyval) (car_path : list pyval)
  : list pyval * option exn :=
  match coords with
  | [] => (car_path, None)
  | c :: rest =>
      match unpack2 c with
      | Ok (lng, lat) =>
          collect_points rest
            (car_path ++ [VDict [(u "lat", lat); (u "lng", lng)]])
      | Raise e => (car_path, Some e)
      end
  end.

(** The coordinates one feature contributes. *)
Definition line_coordinates (f : pyval) : result (list pyval) :=
  let* geom := dict_get f (u "geometry") (VDict []) in
  let* ty := dict_get geom (u "type") VNone in
  if eq_str ty (u "LineString") then
    let* coords := dict_get geom (u "coordinates") (VList []) in
    py_iter coords
  else Ok [].

(** [for f in features: ...] *)
Fixpoint collect_path (features : list pyval) (car_path : list pyval)
  : list pyval * option exn :=
  match features with
  | [] => (car_path, None)
  | f :: rest =>
      match line_coordinates f with
      | Raise e => (car_path, Some e)
      | Ok coords =>
          match collect_points coords car_path with
          | (p, None) => collect_path rest p
          | (p, Some e) => (p, Some e)
          end
      end
  end.

(** The [try] block of the driving query from the reply on: the values of
    [car_info] and [car_path] when the block is left, and the exception
    that ended it, if any. *)
Definition car_try (r : reply)
  : option car_info_t * list pyval * option exn :=
  match (let* data := fetch_json r in dict_get data (u "features") (VList [])) with
  | Raise e => (None, [], Some e)
  | Ok features =>
      match car_info_of features with
      | Raise e => (None, [], Some e)
      | Ok car_info =>
          match py_iter features with
          | Raise e => (car_info, [], Some e)
          | Ok fs =>
              let '(car_path, e) := collect_path fs [] in
              (car_info, car_path, e)
          end
      end
  end.

Definition car_step (tmap_app_key : str)
  (dep_lat dep_lng dest_lat dest_lng : spec_float) (response : bundle)
  : IO bundle :=
  r <- send (CarRoute tmap_app_key (py_repr_float dep_lng)
               (py_repr_float dep_lat) (py_repr_float dest_lng)
               (py_repr_float dest_lat)) ;;
  let '(car_info, car_path, e) := car_try r in
  let response :=
    match e with
    | Some _ => add_error response note_car
    | None => response
    end in
  ret (set_car response car_info car_path).

(** *** Transit route *)

Definition mode_ko_map : list (str * pyval) :=
  [ (u "WALK", VStr (u "도보"));
    (u "BUS", VStr (u "버스"));
    (u "SUBWAY", VStr (u "지하철"));
    (u "EXPRESSBUS", VStr (u "고속버스"));
    (u "TRAIN", VStr (u "기차"));
    (u "FERRY", VStr (u "해운")) ].

(** [mode_ko_map.get(mode_leg, mode_leg)]: the key must be hashable. *)
Definition mode_ko_of (mode_leg : pyval) : result pyval :=
  match mode_leg with
  | VList _ | VDict _ => Raise TypeError
  | VStr s =>
      Ok (match assoc s mode_ko_map with
          | Some label => label
          | None => mode_leg
          end)
  | _ => Ok mode_leg
  end.

(** [(leg.get(side) or {}).get("name") or ""] *)
Definition leg_name (leg : pyval) (side : str) : result pyval :=
  let* p := dict_get leg side VNone in
  let* name := dict_get (py_or p (VDict [])) (u "name") VNone in
  Ok (py_or name (VStr [])).

(** [f"{start_name} → {end_name} ({mode_ko}) 약 {time_min}분"] *)
Definition leg_summary (start_name end_name mode_ko : pyval) (time_min : Z)
  : str :=
  py_str start_name ++ u " → " ++ py_str end_name ++ u " ("
  ++ py_str mode_ko ++ u ") 약 " ++ str_of_Z time_min ++ u "분".

(** The body of the loop over the legs. *)
Definition leg_step (idx : Z) (leg : pyval) : result transit_step :=
  let* mode_leg := dict_get leg (u "mode") VNone in
  let* mode_ko := mode_ko_of mode_leg in
  let* s := dict_get leg (u "sectionTime") (VInt 0) in
  let* sec := py_int s in
  let time_min := sec / 60 in
  let* start_name := leg_name leg (u "start") in
  let* end_name := leg_name leg (u "end") in
  Ok {| ts_order := idx;
        ts_mode := mode_leg;
        ts_mode_ko := mode_ko;
        ts_summary := leg_summary start_name end_name mode_ko time_min |}.

(** [for idx, leg in enumerate(legs, start=1): ...] *)
Fixpoint transit_legs (legs : list pyval) (idx : Z)
  (transit_steps : list transit_step) : list transit_step * option exn :=
  match legs with
  | [] => (transit_steps, None)
  | leg :: rest =>
      match leg_step idx leg with
      | Ok s => transit_legs rest (idx + 1) (transit_steps ++ [s])
      | Raise e => (transit_steps, Some e)
      end
  end.

(** The first itinerary and the [transit_info] built from it. *)
Definition transit_info_of (itineraries : pyval)
  : result (pyval * transit_info_t) :=
  let* it0 := getitem_0 itineraries in
  let* total_time := dict_get it0 (u "totalTime") (VInt 0) in
  let* total_distance := dict_get it0 (u "totalDistance") (VInt 0) in
  let* transfers := dict_get it0 (u "transferCount") (VInt 0) in
  let* minutes := py_floordiv total_time 60 in
  let* km := py_truediv total_distance 1000 in
  let* ptype := dict_get it0 (u "pathType") VNone in
  Ok (it0, {| total_time_min := minutes;
              total_distance_km := py_round1 km;
              transfer_count := transfers;
              path_type := ptype |}).

(** The [try] block of the transit query from the reply on. *)
Definition transit_try (r : reply)
  : option transit_info_t * list transit_step * option exn :=
  match (let* data := fetch_json r in
         let* meta := dict_get data (u "metaData") (VDict []) in
         let* plan := dict_get meta (u "plan") (VDict []) in
         dict_get plan (u "itineraries") (VList [])) with
  | Raise e => (None, [], Some e)
  | Ok itineraries =>
      if truthy itineraries then
        match transit_info_of itineraries with
        | Raise e => (None, [], Some e)
        | Ok (it0, transit_info) =>
            match (let* legs := dict_get it0 (u "legs") (VList []) in
                   py_iter legs) with
            | Raise e => (Some transit_info, [], Some e)
            | Ok legs =>
                let '(transit_steps, e) := transit_legs legs 1 [] in
                (Some transit_info, transit_steps, e)
            end
        end
      else (None, [], None)
  end.

Definition transit_route_step (tmap_app_key : str)
  (dep_lat dep_lng dest_lat dest_lng : spec_float) (response : bundle)
  : IO bundle :=
  r <- send (TransitRoute tmap_app_key (py_repr_float dep_lng)
               (py_repr_float dep_lat) (py_repr_float dest_lng)
               (py_repr_float dest_lat)) ;;
  let '(transit_info, transit_steps, e) := transit_try r in
  let response :=
    match e with
    | Some _ => add_error response note_transit
    | None => response
    end in
  ret (set_transit response transit_info transit_steps).

(** *** Shaping for the front end *)

(** [int(car_info["distance_km"] / 4 * 60)] *)
Definition walk_minutes_of (car_info : car_info_t) : result Z :=
  int_of_float (fmul (fdiv (distance_km car_info) (float_of_Z 4)) (float_of_Z 60)).

(** The [if mode == ... / elif ... / elif ...] that sets [duration],
    [distance] and [steps]. *)
Definition shape (mode departure destination : str)
  (car_info : option car_info_t) (transit_info : option transit_info_t)
  (transit_steps : list transit_step)
  : result (option str * option str * list str) :=
  match (if str_eqb mode (u "car") then car_info else None) with
  | Some ci =>
      Ok (Some (u "약 " ++ str_of_Z (time_min ci) ++ u "분"),
          Some (py_repr_float (distance_km ci) ++ u " km"),
          [ departure ++ u "에서 출발";
            u "Tmap 자동차 경로를 따라 이동 (약 "
              ++ py_repr_float (distance_km ci) ++ u "km)";
            destination ++ u " 도착" ])
  | None =>
  match (if str_eqb mode (u "transit") then transit_info else None) with
  | Some ti =>
      Ok (Some (u "약 " ++ py_str (total_time_min ti) ++ u "분"),
          Some (py_repr_float (total_distance_km ti) ++ u " km"),
          map ts_summary transit_steps)
  | None =>
  match (if str_eqb mode (u "walk") then car_info else None) with
  | Some ci =>
      let* walk_minutes := walk_minutes_of ci in
      Ok (Some (u "약 " ++ str_of_Z walk_minutes ++ u "분"),
          Some (py_repr_float (distance_km ci) ++ u " km"),
          [ departure ++ u "에서 도보 출발";
            u "약 " ++ py_repr_float (distance_km ci) ++ u "km 도보 이동";
            destination ++ u " 도착" ])
  | None => Ok (None, None, [])
  end end end.

(** *** [get] *)

Definition get (os : environ) (GET : querydict) : IO (result Response) :=
  let tmap_app_key := environ_get (TMAP_APP_KEY os) [] in
  let kakao_js_key := environ_get (KAKAO_JS_KEY os) [] in
  let openweather_key := environ_get (OPENWEATHER_API_KEY os) [] in
  let departure :=
    strip (or_text (opt_or (querydict_get GET (u "origin"))
                           (querydict_get GET (u "departure"))) []) in
  let destination := strip (or_text (querydict_get GET (u "destination")) []) in
  let mode := strip (or_text (querydict_get GET (u "mode")) (u "car")) in
  let response :=
    {| raw_kakao_js_key := kakao_js_key;
       raw_departure := departure;
       raw_destination := destination;
       raw_mode := mode;
       raw_weather := VNone;
       raw_car_info := None;
       raw_transit_info := None;
       raw_car_path := [];
       raw_transit_steps := [];
       raw_errors := [] |} in
  if negb (nonempty departure && nonempty destination) then
    let response := add_error response note_endpoints in
    ret (Ok {| data := route_body None None [] response;
               status := HTTP_200_OK |})
  else if negb (nonempty tmap_app_key) then
    let response := add_error response note_no_key in
    ret (Ok {| data := route_body None None key_guidance response;
               status := HTTP_200_OK |})
  else
    dep_coord <- tmap_geocode departure tmap_app_key ;;
    dest_coord <- tmap_geocode destination tmap_app_key ;;
    let response :=
      match dep_coord with
      | Some _ => response
      | None => add_error response (note_geocode departure)
      end in
    let response :=
      match dest_coord with
      | Some _ => response
      | None => add_error response (note_geocode destination)
      end in
    match dep_coord, dest_coord with
    | Some (dep_lat, dep_lng), Some (dest_lat, dest_lng) =>
        response <- weather_step openweather_key dest_lat dest_lng response ;;
        response <- car_step tmap_app_key dep_lat dep_lng dest_lat dest_lng
                      response ;;
        response <- transit_route_step tmap_app_key dep_lat dep_lng dest_lat
                      dest_lng response ;;
        match shape mode departure destination (raw_car_info response)
                (raw_transit_info response) (raw_transit_steps response) with
        | Raise e => ret (Raise e)
        | Ok (None, _, _) =>
            let response := add_error response note_no_route in
            ret (Ok {| data := route_body None None [] response;
                       status := HTTP_200_OK |})
        | Ok (Some duration, distance, steps) =>
            ret (Ok {| data := route_body (Some duration) distance steps response;
                       status := HTTP_200_OK |})
        end
    | _, _ =>
        ret (Ok {| data := route_body None None [] response;
                   status := HTTP_200_OK |})
    end.

End Handler.
End TravelAPIView.

(* ===================================================================== *)
(** ** Reading a response, and the statements of the specification *)
(* ===================================================================== *)

(** [v[k]] when present. *)
Definition field (k : str) (v : pyval) : option pyval :=
  match v with
  | VDict d => assoc k d
  | _ => None
  end.

Definition keys (v : pyval) : list str :=
  match v with
  | VDict d => map fst d
  | _ => []
  end.

(** The float the walking estimate truncates: [distance_km / 4 * 60]. *)
Definition walk_product (km : spec_float) : spec_float :=
  fmul (fdiv km (float_of_Z 4)) (float_of_Z 60).

(** The value a returned response carries under a key of its body. *)
Definition answer (k : str) (r : result Response) : option pyval :=
  match r with
  | Ok resp => field k (data resp)
  | Raise _ => None
  end.

(** The request parameters as the handler resolves them. *)
Definition resolved_origin (GET : querydict) : str :=
  strip (or_text (opt_or (querydict_get GET (u "origin"))
                         (querydict_get GET (u "departure"))) []).

Definition resolved_destination (GET : querydict) : str :=
  strip (or_text (querydict_get GET (u "destination")) []).

Definition resolved_mode (GET : querydict) : str :=
  strip (or_text (querydict_get GET (u "mode")) (u "car")).

(** The three modes the interface documents. *)
Definition known_mode (m : str) : bool :=
  str_eqb m (u "car") || str_eqb m (u "transit") || str_eqb m (u "walk").

(** Does the reply make the [try] block raise before any payload is read
    (no reply, a 4xx/5xx status, a text that is not JSON)? *)
Definition transport_fails (r : reply) : bool :=
  match fetch_json r with
  | Raise _ => true
  | Ok _ => false
  end.

(** A successful reply whose feature list is empty or missing. *)
Definition no_features (r : reply) : bool :=
  match fetch_json r with
  | Ok (VDict d) =>
      match assoc (u "features") d with
      | None | Some (VList []) => true
      | _ => false
      end
  | _ => false
  end.

(** Following the specification's words: the value of the first field, in
    the given order, that is present in the record. *)
Fixpoint first_present (d : list (str * pyval)) (ks : list str) : option pyval :=
  match ks with
  | [] => None
  | k :: ks' =>
      match assoc k d with
      | Some v => Some v
      | None => first_present d ks'
      end
  end.

(** What the code does instead: the first field whose value is true wins;
    when none is, the last field's value (or [None]) is what is left. *)
Fixpoint first_truthy (d : list (str * pyval)) (ks : list str) : pyval :=
  match ks with
  | [] => VNone
  | [k] => match assoc k d with Some v => v | None => VNone end
  | k :: ks' =>
      match assoc k d with
      | Some v => if truthy v then v else first_truthy d ks'
      | None => first_truthy d ks'
      end
  end.

Definition lat_fields : list str :=
  [u "frontLat"; u "frontlat"; u "noorLat"; u "lat"].
Definition lon_fields : list str :=
  [u "frontLon"; u "frontlon"; u "noorLon"; u "lon"].


(** Following the specification's words: the name of one end of a leg, the
    empty text when it is missing.  [None] marks a leg whose end is neither
    a record nor missing, about which the specification says nothing. *)
Definition end_name (d : list (str * pyval)) (side : str) : option str :=
  match assoc side d with
  | None | Some VNone => Some []
  | Some (VDict p) =>
      match assoc (u "name") p with
      | None | Some VNone => Some []
      | Some (VStr s) => Some s
      | _ => None
      end
  | _ => None
  end.

(** *** Sample data *)

(** A character table that knows no digit and no unprintable character
    outside ASCII; it serves to run the model on the samples below, whose
    texts are ASCII and Hangul. *)
#[global] Instance plain_tables : UnicodeData :=
  {| ucd_decimal := fun _ => None; ucd_printable := fun _ => true |}.

Definition sample_environ : environ :=
  {| TMAP_APP_KEY := Some (u "tmap-key");
     KAKAO_JS_KEY := Some (u "kakao-key");
     OPENWEATHER_API_KEY := Some (u "weather-key") |}.

Definition sample_query (mode : string) : querydict :=
  [ (u "origin", u "한신대"); (u "destination", u "경복궁"); (u "mode", u mode) ].

(** A point of interest that has only [noorLat] and [noorLon]. *)
Definition noor_poi (lat lon : string) : pyval :=
  VDict [(u "name", VStr (u "경복궁"));
         (u "noorLat", VStr (u lat)); (u "noorLon", VStr (u lon))].

(** A successful point-of-interest reply; [poi] is the list of matches, or
    a single match. *)
Definition poi_reply (poi : pyval) : reply :=
  Reply 200 (Some (VDict [(u "searchPoiInfo",
    VDict [(u "pois", VDict [(u "poi", poi)])])])).

Definition sample_feature (props : list (str * pyval)) : pyval :=
  VDict [(u "type", VStr (u "Feature"));
         (u "geometry",
           VDict [(u "type", VStr (u "LineString"));
                  (u "coordinates",
                    VList [VList [VFloat (float_of_Z 127); VFloat (float_of_Z 37)];
                           VList [VFloat (float_of_Z 128); VFloat (float_of_Z 38)]])]);
         (u "properties", VDict props)].

Definition car_reply (total_time total_distance : Z) : reply :=
  Reply 200 (Some (VDict [(u "type", VStr (u "FeatureCollection"));
    (u "features",
      VList [sample_feature [(u "totalDistance", VInt total_distance);
                             (u "totalTime", VInt total_time)]])])).

Definition subway_leg : pyval :=
  VDict [(u "mode", VStr (u "SUBWAY"));
         (u "sectionTime", VInt 300);
         (u "start", VDict [(u "name", VStr (u "A역"))]);
         (u "end", VDict [(u "name", VStr (u "B역"))])].

Definition transit_reply : reply :=
  Reply 200 (Some (VDict [(u "metaData", VDict [(u "plan",
    VDict [(u "itineraries",
      VList [VDict [(u "totalTime", VInt 3000);
                    (u "totalDistance", VInt 15200);
                    (u "transferCount", VInt 1);
                    (u "pathType", VInt 1);
                    (u "legs", VList [subway_leg])]])])])])).

Definition weather_reply : reply :=
  Reply 200 (Some (VDict [(u "name", VStr (u "Seoul"));
    (u "main", VDict [(u "temp", VFloat (round_ratio false 123 10))]);
    (u "weather", VList [VDict [(u "description", VStr (u "맑음"))]])])).

(** A world in which both places are found and the three further requests
    get the given replies. *)
Definition sample_world (weather car transit : reply) : world :=
  {| inbox := [ poi_reply (VList [noor_poi "37.1937" "127.0227"]);
                poi_reply (VList [noor_poi "37.5796" "126.9770"]);
                weather; car; transit ];
     sent := [] |}.

(** *** The run after geocoding, reply by reply *)

(** The [n]-th reply the world holds (none when it has fewer). *)
Definition nth_reply (n : nat) (w : world) : reply := nth n (inbox w) NoReply.

(** The weather request is only sent with a key, so the driving reply is
    the fourth or the third one. *)
Definition car_index (os : environ) : nat :=
  if nonempty (environ_get (OPENWEATHER_API_KEY os) []) then 3%nat else 2%nat.

Definition raised {A : Type} (r : result A) : bool :=
  match r with Raise _ => true | Ok _ => false end.

Definition is_some {A : Type} (o : option A) : bool :=
  match o with Some _ => true | None => false end.

Section Outcome.
Context {ucd : UnicodeData}.

(** The [response] dict when the three upstream steps are over, given the
    replies to the weather ([wr]), driving ([cr]) and transit ([tr])
    requests. *)
Definition final_bundle (os : environ) (GET : querydict) (wr cr tr : reply)
  : bundle :=
  let with_weather := nonempty (environ_get (OPENWEATHER_API_KEY os) []) in
  {| raw_kakao_js_key := environ_get (KAKAO_JS_KEY os) [];
     raw_departure := resolved_origin GET;
     raw_destination := resolved_destination GET;
     raw_mode := resolved_mode GET;
     raw_weather :=
       if with_weather then
         match TravelAPIView.weather_try wr with
         | Ok weather => weather
         | Raise _ => VNone
         end
       else VNone;
     raw_car_info := fst (fst (TravelAPIView.car_try cr));
     raw_transit_info := fst (fst (TravelAPIView.transit_try tr));
     raw_car_path := snd (fst (TravelAPIView.car_try cr));
     raw_transit_steps := snd (fst (TravelAPIView.transit_try tr));
     raw_errors :=
       (if with_weather && raised (TravelAPIView.weather_try wr)
        then [note_weather] else [])
       ++ (if is_some (snd (TravelAPIView.car_try cr)) then [note_car] else [])
       ++ (if is_some (snd (TravelAPIView.transit_try tr))
           then [note_transit] else []) |}.

(** What the handler returns from that [response] dict. *)
Definition final_response (b : bundle) : result Response :=
  match TravelAPIView.shape (raw_mode b) (raw_departure b) (raw_destination b)
          (raw_car_info b) (raw_transit_info b) (raw_transit_steps b) with
  | Raise e => Raise e
  | Ok (None, _, _) =>
      Ok {| data := route_body None None [] (add_error b note_no_route);
            status := HTTP_200_OK |}
  | Ok (Some duration, distance, steps) =>
      Ok {| data := route_body (Some duration) distance steps b;
            status := HTTP_200_OK |}
  end.

(** What [tmap_geocode] makes of a reply. *)
Definition geocoded (r : reply) : option (spec_float * spec_float) :=
  match poi_coord r with
  | Ok c => c
  | Raise _ => None
  end.

(** The [response] dict as first built. *)
Definition blank_bundle (os : environ) (GET : querydict) : bundle :=
  {| raw_kakao_js_key := environ_get (KAKAO_JS_KEY os) [];
     raw_departure := resolved_origin GET;
     raw_destination := resolved_destination GET;
     raw_mode := resolved_mode GET;
     raw_weather := VNone;
     raw_car_info := None;
     raw_transit_info := None;
     raw_car_path := [];
     raw_transit_steps := [];
     raw_errors := [] |}.

(** The [response] dict when geocoding is over. *)
Definition geocoding_bundle (os : environ) (GET : querydict) (g1 g2 : reply)
  : bundle :=
  let b1 :=
    if is_some (geocoded g1) then blank_bundle os GET
    else add_error (blank_bundle os GET) (note_geocode (resolved_origin GET)) in
  if is_some (geocoded g2) then b1
  else add_error b1 (note_geocode (resolved_destination GET)).

(** The handler's result as a function of the replies in the world: the
    five ways out of [get], in the order of the source. *)
Definition get_outcome (os : environ) (GET : querydict) (w : world)
  : result Response :=
  let blank := blank_bundle os GET in
  if negb (nonempty (resolved_origin GET) && nonempty (resolved_destination GET))
  then Ok {| data := route_body None None [] (add_error blank note_endpoints);
             status := HTTP_200_OK |}
  else if negb (nonempty (environ_get (TMAP_APP_KEY os) []))
  then Ok {| data := route_body None None key_guidance (add_error blank note_no_key);
             status := HTTP_200_OK |}
  else if is_some (geocoded (nth_reply 0 w)) && is_some (geocoded (nth_reply 1 w))
  then final_response (final_bundle os GET (nth_reply 2 w)
                         (nth_reply (car_index os) w)
                         (nth_reply (S (car_index os)) w))
  else Ok {| data := route_body None None []
                       (geocoding_bundle os GET (nth_reply 0 w) (nth_reply 1 w));
             status := HTTP_200_OK |}.

End Outcome.

(** *** The requests of a run *)

(** The two place lookups. *)
Definition poi_requests (os : environ) (GET : querydict) : list call :=
  [ PoiSearch (environ_get (TMAP_APP_KEY os) []) (resolved_origin GET);
    PoiSearch (environ_get (TMAP_APP_KEY os) []) (resolved_destination GET) ].

(** The requests that follow when both places are found at [dep] and
    [dest] (latitude, longitude). *)
Definition route_requests (os : environ) (dep dest : spec_float * spec_float)
  : list call :=
  let key := environ_get (TMAP_APP_KEY os) [] in
  let openweather_key := environ_get (OPENWEATHER_API_KEY os) [] in
  (if nonempty openweather_key
   then [Weather (fst dest) (snd dest) openweather_key] else [])
  ++ [ CarRoute key (py_repr_float (snd dep)) (py_repr_float (fst dep))
         (py_repr_float (snd dest)) (py_repr_float (fst dest));
       TransitRoute key (py_repr_float (snd dep)) (py_repr_float (fst dep))
         (py_repr_float (snd dest)) (py_repr_float (fst dest)) ].

Section World.
Context {ucd : UnicodeData}.

(** The network when the handler is done: which replies are left and which
    requests have been sent. *)
Definition get_world (os : environ) (GET : querydict) (w : world) : world :=
  if negb (nonempty (resolved_origin GET) && nonempty (resolved_destination GET))
  then w
  else if negb (nonempty (environ_get (TMAP_APP_KEY os) []))
  then w
  else
    match geocoded (nth_reply 0 w), geocoded (nth_reply 1 w) with
    | Some dep, Some dest =>
        {| inbox := skipn (S (S (car_index os))) (inbox w);
           sent := sent w ++ poi_requests os GET ++ route_requests os dep dest |}
    | _, _ =>
        {| inbox := skipn 2 (inbox w);
           sent := sent w ++ poi_requests os GET |}
    end.

End World.

(** A key of the debug bundle (the body's ["raw"]) of a response. *)
Definition raw_field (k : str) (r : Response) : option pyval :=
  match field (u "raw") (data r) with
  | Some raw => field k raw
  | None => None
  end.

(** [s'] is [s] with blanks added before and after. *)
Definition padded (s s' : str) : Prop :=
  exists a b : str,
    forallb is_space a = true /\ forallb is_space b = true /\ s' = a ++ s ++ b.

(* ===================================================================== *)
(** ** Facts about text and rounding *)
(* ===================================================================== *)

Lemma str_eqb_eq (a b : str) : str_eqb a b = true <-> a = b.
Proof.
  revert b; induction a as [|x a IH]; intros [|y b]; simpl;
    try (split; congruence).
  rewrite andb_true_iff, N.eqb_eq, IH. split.
  - intros [-> ->]; reflexivity.
  - intros E; injection E; auto.
Qed.

Lemma str_eqb_refl (a : str) : str_eqb a a = true.
Proof. apply str_eqb_eq; reflexivity. Qed.

(** [round_ratio] against the standard library's division of floats. *)
Example round_ratio_matches_SFdiv :
  round_ratio false 23456 1000 = fdiv (float_of_Z 23456) (float_of_Z 1000)
  /\ round_ratio false 1 3 = fdiv (float_of_Z 1) (float_of_Z 3)
  /\ round_ratio false 82 10 = fdiv (float_of_Z 82) (float_of_Z 10)
  /\ round_ratio true 1 (10 ^ 320)
     = fdiv (S754_finite true 1 0) (S754_finite false (Z.to_pos (10 ^ 320)) 0)
  /\ round_ratio false (10 ^ 312) 1000
     = fdiv (S754_finite false (Z.to_pos (10 ^ 312)) 0) (float_of_Z 1000).
Proof. repeat split; vm_compute; reflexivity. Qed.

(** A few values of [repr], [round] and [//] as CPython prints them. *)
Example float_builtins_samples :
  py_repr_float (round_ratio false 1 3) = u "0.3333333333333333"
  /\ py_repr_float (float_of_Z (10 ^ 16)) = u "1e+16"
  /\ py_repr_float (round_ratio false 1 100000) = u "1e-05"
  /\ py_repr_float (py_round1 (round_ratio false 250 1000)) = u "0.2"
  /\ py_repr_float (py_round1 (round_ratio false 150 1000)) = u "0.1"
  /\ py_repr_float (py_round1 (round_ratio false 50 1000)) = u "0.1"
  /\ py_repr_float (py_round1 (round_ratio true 40 1000)) = u "-0.0"
  /\ py_repr_float (float_floordiv (round_ratio true 1205 10) (float_of_Z 60)) = u "-3.0".
Proof. repeat split; vm_compute; reflexivity. Qed.

Lemma rne_div_bound (a b : Z) : 0 < b -> - b <= 2 * (b * rne_div a b - a) <= b.
Proof.
  intros Hb. unfold rne_div.
  pose proof (Z.div_mod a b ltac:(lia)) as E.
  pose proof (Z.mod_pos_bound a b Hb) as R.
  destruct (Z.compare_spec (2 * (a mod b)) b); [destruct (Z.even (a / b))|..]; nia.
Qed.

Lemma rne_div_pos (a b : Z) : 0 < b -> b < 2 * a -> 1 <= rne_div a b.
Proof.
  intros Hb Ha. pose proof (rne_div_bound a b Hb). nia.
Qed.

Ltac max_cases :=
  repeat match goal with
         | |- context [Z.max ?x ?y] =>
             first [ rewrite (Z.max_l x y) by lia | rewrite (Z.max_r x y) by lia ]
         end.

Lemma pow2_step (n : Z) : 0 <= n -> 2 ^ (n + 1) = 2 * 2 ^ n.
Proof. intros H. rewrite Z.pow_add_r by lia. change (2 ^ 1) with 2. lia. Qed.

(** [binade a b] is the exponent of the power of two at or just below
    [a / b]. *)
Lemma binade_spec (a b : Z) :
  0 < a -> 0 < b ->
  let f := binade a b in
  b * 2 ^ Z.max 0 f <= a * 2 ^ Z.max 0 (- f)
  /\ a * 2 ^ Z.max 0 (- (f + 1)) < b * 2 ^ Z.max 0 (f + 1).
Proof.
  intros Ha Hb. cbv zeta. unfold binade.
  destruct (Z.log2_spec a Ha) as [A1 A2].
  destruct (Z.log2_spec b Hb) as [B1 B2].
  pose proof (Z.log2_nonneg a) as La. pose proof (Z.log2_nonneg b) as Lb.
  set (la := Z.log2 a) in *. set (lb := Z.log2 b) in *.
  rewrite Z.pow_succ_r in A2, B2 by lia.
  assert (PA : 0 < 2 ^ la) by (apply Z.pow_pos_nonneg; lia).
  assert (PB : 0 < 2 ^ lb) by (apply Z.pow_pos_nonneg; lia).
  destruct (Z.le_gt_cases 0 (la - lb)) as [Hl|Hl].
  - assert (E : 2 ^ la = 2 ^ (la - lb) * 2 ^ lb).
    { rewrite <- Z.pow_add_r by lia. f_equal. lia. }
    assert (PL : 0 < 2 ^ (la - lb)) by (apply Z.pow_pos_nonneg; lia).
    destruct (Z.ltb_spec (a * 2 ^ Z.max 0 (- (la - lb))) (b * 2 ^ Z.max 0 (la - lb)))
      as [T|T]; revert T; max_cases; rewrite ?Z.pow_0_r; intros T.
    + replace (la - lb - 1 + 1) with (la - lb) by lia.
      max_cases. rewrite ?Z.pow_0_r. split; [|lia].
      destruct (Z.eq_dec (la - lb) 0) as [Z0|NZ].
      * rewrite Z0 in *. change (2 ^ Z.max 0 (0 - 1)) with 1.
        change (2 ^ Z.max 0 (- (0 - 1))) with 2. change (2 ^ 0) with 1 in *. nia.
      * max_cases. rewrite ?Z.pow_0_r.
        pose proof (pow2_step (la - lb - 1) ltac:(lia)) as E2.
        replace (la - lb - 1 + 1) with (la - lb) in E2 by lia.
        assert (0 < 2 ^ (la - lb - 1)) by (apply Z.pow_pos_nonneg; lia).
        nia.
    + split; [lia|]. max_cases. rewrite ?Z.pow_0_r.
      rewrite (pow2_step (la - lb)) by lia. nia.
  - assert (E : 2 ^ lb = 2 ^ (lb - la) * 2 ^ la).
    { rewrite <- Z.pow_add_r by lia. f_equal. lia. }
    assert (PL : 0 < 2 ^ (lb - la)) by (apply Z.pow_pos_nonneg; lia).
    replace (- (la - lb)) with (lb - la) by lia.
    destruct (Z.ltb_spec (a * 2 ^ Z.max 0 (lb - la)) (b * 2 ^ Z.max 0 (la - lb)))
      as [T|T]; revert T; max_cases; rewrite ?Z.pow_0_r; intros T.
    + replace (la - lb - 1 + 1) with (la - lb) by lia.
      replace (- (la - lb)) with (lb - la) by lia.
      replace (- (la - lb - 1)) with (lb - la + 1) by lia.
      max_cases. rewrite ?Z.pow_0_r. split; [|lia].
      rewrite (pow2_step (lb - la)) by lia. nia.
    + replace (- (la - lb)) with (lb - la) by lia.
      replace (- (la - lb + 1)) with (lb - la - 1) by lia.
      max_cases. rewrite ?Z.pow_0_r. split; [lia|].
      destruct (Z.eq_dec (lb - la) 1) as [Z0|NZ].
      * rewrite Z0 in *. replace (la - lb + 1) with 0 by lia.
        change (2 ^ Z.max 0 (1 - 1)) with 1. change (2 ^ Z.max 0 0) with 1.
        change (2 ^ 1) with 2 in *. nia.
      * max_cases. rewrite ?Z.pow_0_r.
        pose proof (pow2_step (lb - la - 1) ltac:(lia)) as E2.
        replace (lb - la - 1 + 1) with (lb - la) in E2 by lia.
        assert (0 < 2 ^ (lb - la - 1)) by (apply Z.pow_pos_nonneg; lia).
        nia.
Qed.

(** A finite result of [round_ratio] lies within half a unit in the last
    place of [a / b]. *)
Lemma round_ratio_half_ulp (s s' : bool) (a b : Z) (p : positive) (e : Z) :
  0 < b ->
  round_ratio s a b = S754_finite s' p e ->
  (0 <= e -> - (b * 2 ^ e) <= 2 * (b * 2 ^ e * Zpos p - a) <= b * 2 ^ e)
  /\ (e < 0 -> - b <= 2 * (b * Zpos p - a * 2 ^ (- e)) <= b).
Proof.
  intros Hb. unfold round_ratio.
  destruct (a <=? 0); [discriminate|].
  set (e0 := Z.max (binade a b - 52) (-1074)).
  unfold scaled_rne.
  destruct (Z.leb_spec 0 e0) as [He0|He0].
  - assert (P0 : 0 < 2 ^ e0) by (apply Z.pow_pos_nonneg; lia).
    pose proof (rne_div_bound a (b * 2 ^ e0) ltac:(nia)) as Hm.
    set (m := rne_div a (b * 2 ^ e0)) in *.
    destruct (Z.eqb_spec m (2 ^ 53)) as [E|E].
    + change (2 ^ 52) with (Zpos 4503599627370496).
      destruct (e0 + 1 >? 971); [discriminate|].
      intros [= <- <- <-]. split; [intros _|lia].
      rewrite (pow2_step e0 He0).
      rewrite E in Hm. change (2 ^ 53) with 9007199254740992 in Hm. nia.
    + destruct m as [|q|q]; try discriminate.
      destruct (e0 >? 971); [discriminate|].
      intros [= <- <- <-]. split; [intros _; lia|lia].
  - assert (P0 : 0 < 2 ^ (- e0)) by (apply Z.pow_pos_nonneg; lia).
    pose proof (rne_div_bound (a * 2 ^ (- e0)) b Hb) as Hm.
    set (m := rne_div (a * 2 ^ (- e0)) b) in *.
    destruct (Z.eqb_spec m (2 ^ 53)) as [E|E].
    + change (2 ^ 52) with (Zpos 4503599627370496).
      destruct (e0 + 1 >? 971); [discriminate|].
      intros [= <- <- <-].
      rewrite E in Hm. change (2 ^ 53) with 9007199254740992 in Hm.
      pose proof (pow2_step (- (e0 + 1)) ltac:(lia)) as S.
      replace (- (e0 + 1) + 1) with (- e0) in S by lia.
      split; intros H.
      * assert (e0 = -1) as -> by lia.
        change (2 ^ (-1 + 1)) with 1. change (2 ^ (- -1)) with 2 in Hm. lia.
      * rewrite S in Hm. lia.
    + destruct m as [|q|q]; try discriminate.
      destruct (e0 >? 971); [discriminate|].
      intros [= <- <- <-]. split; [lia|intros _; lia].
Qed.

Lemma pow2_pos (n : Z) : 0 < 2 ^ Z.max 0 n.
Proof. apply Z.pow_pos_nonneg; lia. Qed.

Lemma pow2_sum (n k : Z) : 0 <= n -> 0 <= k -> 2 ^ (n + k) = 2 ^ n * 2 ^ k.
Proof. intros. apply Z.pow_add_r; lia. Qed.

Lemma scaled_rne_eq (a b e : Z) :
  scaled_rne a b e = rne_div (fst (scaled a b e)) (snd (scaled a b e)).
Proof. unfold scaled_rne, scaled. destruct (0 <=? e); reflexivity. Qed.

Lemma scaled_below (a b e : Z) :
  0 < a -> 0 < b -> binade a b + 1 <= e + 53 ->
  fst (scaled a b e) < 2 ^ 53 * snd (scaled a b e).
Proof.
  intros Ha Hb Hf. destruct (binade_spec a b Ha Hb) as [_ U].
  set (g := binade a b + 1) in *. unfold scaled.
  change (2 ^ 53) with 9007199254740992.
  destruct (Z.leb_spec 0 e) as [He|He]; cbn [fst snd].
  - assert (0 < 2 ^ e) by (apply Z.pow_pos_nonneg; lia).
    destruct (Z.le_gt_cases 0 g) as [Hg|Hg]; revert U; max_cases;
      rewrite ?Z.pow_0_r; intros U.
    + assert (2 ^ g <= 2 ^ (e + 53)) by (apply Z.pow_le_mono_r; lia).
      rewrite (pow2_sum e 53) in * by lia.
      change (2 ^ 53) with 9007199254740992 in *. nia.
    + assert (0 < 2 ^ (- g)) by (apply Z.pow_pos_nonneg; lia). nia.
  - assert (0 < 2 ^ (- e)) by (apply Z.pow_pos_nonneg; lia).
    destruct (Z.le_gt_cases 0 g) as [Hg|Hg]; revert U; max_cases;
      rewrite ?Z.pow_0_r; intros U.
    + assert (2 ^ g <= 2 ^ (e + 53)) by (apply Z.pow_le_mono_r; lia).
      assert (E : 2 ^ (e + 53) * 2 ^ (- e) = 2 ^ 53).
      { rewrite <- Z.pow_add_r by lia. f_equal. lia. }
      change (2 ^ 53) with 9007199254740992 in E. nia.
    + destruct (Z.le_gt_cases 0 (e + 53)) as [Hh|Hh].
      * assert (E : 2 ^ (e + 53) * 2 ^ (- e) = 2 ^ 53).
        { rewrite <- Z.pow_add_r by lia. f_equal. lia. }
        change (2 ^ 53) with 9007199254740992 in E.
        assert (0 < 2 ^ (e + 53)) by (apply Z.pow_pos_nonneg; lia).
        assert (0 < 2 ^ (- g)) by (apply Z.pow_pos_nonneg; lia). nia.
      * assert (E : 2 ^ (- e) = 2 ^ (- (e + 53)) * 2 ^ 53).
        { rewrite <- Z.pow_add_r by lia. f_equal. lia. }
        change (2 ^ 53) with 9007199254740992 in E.
        assert (2 ^ (- (e + 53)) <= 2 ^ (- g)) by (apply Z.pow_le_mono_r; lia).
        assert (0 < 2 ^ (- (e + 53))) by (apply Z.pow_pos_nonneg; lia). nia.
Qed.

Lemma scaled_above (a b e : Z) :
  0 < a -> 0 < b -> e = binade a b - 52 ->
  2 ^ 52 * snd (scaled a b e) <= fst (scaled a b e).
Proof.
  intros Ha Hb Hf. destruct (binade_spec a b Ha Hb) as [L _].
  set (f := binade a b) in *. unfold scaled.
  change (2 ^ 52) with 4503599627370496.
  destruct (Z.leb_spec 0 e) as [He|He]; cbn [fst snd].
  - revert L; max_cases; rewrite ?Z.pow_0_r; intros L.
    replace f with (e + 52) in L by lia.
    rewrite (pow2_sum e 52) in L by lia.
    change (2 ^ 52) with 4503599627370496 in L. lia.
  - destruct (Z.le_gt_cases 0 f) as [Hg|Hg]; revert L; max_cases;
      rewrite ?Z.pow_0_r; intros L.
    + assert (E : 2 ^ f * 2 ^ (- e) = 2 ^ 52).
      { rewrite <- Z.pow_add_r by lia. f_equal. lia. }
      change (2 ^ 52) with 4503599627370496 in E.
      assert (0 < 2 ^ (- e)) by (apply Z.pow_pos_nonneg; lia). nia.
    + assert (E : 2 ^ (- e) = 2 ^ (- f) * 2 ^ 52).
      { rewrite <- Z.pow_add_r by lia. f_equal. lia. }
      change (2 ^ 52) with 4503599627370496 in E. nia.
Qed.

(** A finite result of [round_ratio] is a canonical binary64 number: a
    mantissa below [2^53], at least [2^52] unless subnormal, an exponent
    between -1074 and 971. *)
Lemma round_ratio_canonical (s s' : bool) (a b : Z) (p : positive) (e : Z) :
  0 < b ->
  round_ratio s a b = S754_finite s' p e ->
  Zpos p < 2 ^ 53 /\ -1074 <= e <= 971 /\ (-1074 < e -> 2 ^ 52 <= Zpos p).
Proof.
  intros Hb. unfold round_ratio.
  destruct (Z.leb_spec a 0) as [?|Ha]; [discriminate|].
  set (e0 := Z.max (binade a b - 52) (-1074)).
  rewrite scaled_rne_eq.
  pose proof (scaled_below a b e0 Ha Hb ltac:(unfold e0; lia)) as U.
  assert (B : 0 < snd (scaled a b e0)).
  { unfold scaled. destruct (Z.leb_spec 0 e0); cbn [snd]; [|lia].
    apply Z.mul_pos_pos; [lia|]. apply Z.pow_pos_nonneg; lia. }
  pose proof (rne_div_bound (fst (scaled a b e0)) (snd (scaled a b e0)) B) as Hm.
  set (m := rne_div _ _) in *.
  change (2 ^ 53) with 9007199254740992 in *.
  change (2 ^ 52) with 4503599627370496 in *.
  destruct (Z.eqb_spec m 9007199254740992) as [E|E].
  - destruct (Z.gtb_spec (e0 + 1) 971); [discriminate|].
    intros [= <- <- <-]. unfold e0 in *. lia.
  - destruct m as [|q|q]; try discriminate.
    destruct (Z.gtb_spec e0 971); [discriminate|].
    intros [= <- <- <-]. split; [nia|]. split; [unfold e0; lia|].
    intros He.
    pose proof (scaled_above a b e0 Ha Hb ltac:(unfold e0 in *; lia)) as L.
    change (2 ^ 52) with 4503599627370496 in L. nia.
Qed.

Lemma binade_kilometres (d : Z) : 0 < d < 10 ^ 16 -> binade d 1000 <= 43.
Proof.
  intros Hd. unfold binade.
  assert (L : Z.log2 d <= 53).
  { assert (Z.log2 d < 54); [|lia]. apply Z.log2_lt_pow2; [lia|].
    change (2 ^ 54) with 18014398509481984.
    change (10 ^ 16) with 10000000000000000 in Hd. lia. }
  change (Z.log2 1000) with 9.
  destruct (Z.ltb_spec (d * 2 ^ Z.max 0 (- (Z.log2 d - 9)))
              (1000 * 2 ^ Z.max 0 (Z.log2 d - 9))) as [H|H]; [lia|].
  destruct (Z.eq_dec (Z.log2 d) 53) as [E|E]; [|lia].
  exfalso. rewrite E in H.
  change (10 ^ 16) with 10000000000000000 in Hd.
  replace (2 ^ Z.max 0 (- (53 - 9))) with 1 in H by reflexivity.
  replace (2 ^ Z.max 0 (53 - 9)) with 17592186044416 in H by reflexivity.
  lia.
Qed.

Lemma pow2_neg_exp (e : Z) : e <= -9 -> 512 <= 2 ^ (- e).
Proof.
  intros He. change 512 with (2 ^ 9). apply Z.pow_le_mono_r; lia.
Qed.

Lemma pow2_split (e : Z) : e <= -9 -> 2 ^ (- e) = 2 * 2 ^ (- (e + 1)).
Proof.
  intros He. replace (- e) with (Z.succ (- (e + 1))) by lia.
  rewrite Z.pow_succ_r by lia. reflexivity.
Qed.

(** The float of [d / 1000], for distances below [10^16] metres: a finite
    number [p * 2^e] with [e < 0], within [2^e * 500/512] of [d / 1000]. *)
Lemma round_ratio_kilometres (s : bool) (d : Z) :
  0 < d < 10 ^ 16 ->
  exists (p : positive) (e : Z),
    round_ratio s d 1000 = S754_finite s p e
    /\ e < 0
    /\ - (500 * 2 ^ (- e)) <= 512 * (1000 * Zpos p - d * 2 ^ (- e)) <= 500 * 2 ^ (- e).
Proof.
  intros Hpos.
  pose proof (binade_kilometres d Hpos) as Hb.
  unfold round_ratio.
  destruct (Z.leb_spec d 0) as [?|_]; [lia|].
  set (e := Z.max (binade d 1000 - 52) (-1074)).
  assert (He : e <= -9) by (unfold e; lia).
  assert (HP : 512 <= 2 ^ (- e)) by (apply pow2_neg_exp; exact He).
  unfold scaled_rne.
  destruct (Z.leb_spec 0 e) as [?|_]; [lia|].
  set (m := rne_div (d * 2 ^ (- e)) 1000).
  pose proof (rne_div_bound (d * 2 ^ (- e)) 1000 ltac:(lia)) as Hm. fold m in Hm.
  assert (Hm1 : 1 <= m) by (apply rne_div_pos; nia).
  destruct (Z.eqb_spec m (2 ^ 53)) as [E|E].
  - change (2 ^ 52) with (Zpos (4503599627370496)).
    destruct (Z.gtb_spec (e + 1) 971) as [?|_]; [lia|].
    exists 4503599627370496%positive, (e + 1).
    split; [reflexivity|]. split; [lia|].
    rewrite E in Hm. change (2 ^ 53) with 9007199254740992 in Hm.
    rewrite (pow2_split e He) in Hm, HP. lia.
  - destruct m as [|p|p]; try lia.
    destruct (Z.gtb_spec e 971) as [?|_]; [lia|].
    exists p, e. split; [reflexivity|]. split; [lia|]. lia.
Qed.

Lemma round_ratio_kilometres_finite (s : bool) (d : Z) :
  0 <= d < 10 ^ 16 -> is_finite (round_ratio s d 1000) = true.
Proof.
  intros Hd. destruct (Z.eq_dec d 0) as [->|Hnz]; [reflexivity|].
  destruct (round_ratio_kilometres s d ltac:(lia)) as (p & e & -> & _). reflexivity.
Qed.

(** Rounding [d / 1000] to a float and that float to one decimal gives the
    float of [k / 10] for a [k] with [|k/10 - d/1000| <= 1/20]. *)
Lemma round1_kilometres (s : bool) (d : Z) :
  0 <= d < 10 ^ 16 ->
  exists k : Z,
    py_round1 (round_ratio s d 1000) = round_ratio s k 10
    /\ -50 <= 100 * k - d <= 50.
Proof.
  intros Hd.
  destruct (Z.eq_dec d 0) as [->|Hnz].
  { exists 0. split; [reflexivity|lia]. }
  destruct (round_ratio_kilometres s d ltac:(lia)) as (p & e & -> & He & Hp).
  unfold py_round1, magnitude.
  destruct (Z.leb_spec 0 e) as [?|_]; [lia|].
  assert (HP : 0 < 2 ^ (- e)) by (apply Z.pow_pos_nonneg; lia).
  set (P := 2 ^ (- e)) in *.
  exists (rne_div (10 * Z.pos p) P). split; [reflexivity|].
  pose proof (rne_div_bound (10 * Z.pos p) P HP) as Hk.
  nia.
Qed.

(** *** Signs and integer parts *)

Lemma binary_round_aux_nonneg (m e : Z) (l : location) :
  sign_of (binary_round_aux prec emax false m e l) = false.
Proof.
  unfold binary_round_aux.
  destruct (shr_fexp prec emax m e l) as [mrs' e'].
  destruct (shr_fexp prec emax _ e' loc_Exact) as [mrs'' e''].
  destruct (shr_m mrs'') as [|p|p]; [reflexivity| |reflexivity].
  destruct (e'' <=? emax - prec); reflexivity.
Qed.

Lemma fdiv_nonneg (x y : spec_float) :
  sign_of x = false -> sign_of y = false -> sign_of (fdiv x y) = false.
Proof.
  unfold fdiv, SFdiv.
  destruct x as [sx|sx| |sx mx ex], y as [sy|sy| |sy my ey]; cbn [sign_of];
    intros Hx Hy; subst; try reflexivity.
  destruct (SFdiv_core_binary prec emax (Z.pos mx) ex (Z.pos my) ey) as [[mz ez] lz].
  apply binary_round_aux_nonneg.
Qed.

Lemma fmul_nonneg (x y : spec_float) :
  sign_of x = false -> sign_of y = false -> sign_of (fmul x y) = false.
Proof.
  unfold fmul, SFmul.
  destruct x as [sx|sx| |sx mx ex], y as [sy|sy| |sy my ey]; cbn [sign_of];
    intros Hx Hy; subst; try reflexivity.
  apply binary_round_aux_nonneg.
Qed.

Lemma shr_1_nonneg (mrs : shr_record) :
  0 <= shr_m mrs -> 0 <= shr_m (shr_1 mrs).
Proof.
  destruct mrs as [m r s]. cbn [shr_m]. unfold shr_1.
  destruct m as [|[p|p|]|p]; cbn [shr_m]; lia.
Qed.

Lemma iter_shr_1_nonneg (p : positive) (mrs : shr_record) :
  0 <= shr_m mrs -> 0 <= shr_m (iter_pos shr_1 p mrs).
Proof.
  revert mrs. induction p as [p IH|p IH|]; intros mrs H; cbn [iter_pos].
  - apply IH, IH, shr_1_nonneg, H.
  - apply IH, IH, H.
  - apply shr_1_nonneg, H.
Qed.

Lemma shr_fexp_nonneg (m e : Z) (l : location) :
  0 <= m -> 0 <= shr_m (fst (shr_fexp prec emax m e l)).
Proof.
  intros H. unfold shr_fexp, shr.
  assert (R : 0 <= shr_m (shr_record_of_loc m l)).
  { destruct l as [|[| |]]; exact H. }
  destruct (fexp prec emax (Zdigits2 m + e) - e) as [|p|p]; cbn [fst];
    [exact R| |exact R].
  apply iter_shr_1_nonneg, R.
Qed.

Lemma round_nearest_even_nonneg (m : Z) (l : location) :
  0 <= m -> 0 <= round_nearest_even m l.
Proof.
  intros H. unfold round_nearest_even.
  destruct l as [|[| |]]; try lia. destruct (Z.even m); lia.
Qed.

(** Rounding a non-negative mantissa never gives NaN. *)
Lemma binary_round_aux_not_nan (s : bool) (m e : Z) (l : location) :
  0 <= m -> binary_round_aux prec emax s m e l <> S754_nan.
Proof.
  intros H. unfold binary_round_aux.
  pose proof (shr_fexp_nonneg m e l H) as H1.
  destruct (shr_fexp prec emax m e l) as [mrs' e']. cbn [fst] in H1.
  pose proof (shr_fexp_nonneg _ e' loc_Exact
                (round_nearest_even_nonneg _ (loc_of_shr_record mrs') H1)) as H2.
  destruct (shr_fexp prec emax _ e' loc_Exact) as [mrs'' e'']. cbn [fst] in H2.
  destruct (shr_m mrs'') as [|p|p]; [discriminate| |lia].
  destruct (e'' <=? emax - prec); discriminate.
Qed.

Lemma SFdiv_core_binary_nonneg (m1 m2 : positive) (e1 e2 : Z) :
  0 <= fst (fst (SFdiv_core_binary prec emax (Z.pos m1) e1 (Z.pos m2) e2)).
Proof.
  unfold SFdiv_core_binary.
  set (s := _ - _ - Z.min _ _).
  set (m' := match s with Z.pos _ => Z.shiftl (Z.pos m1) s | 0 => Z.pos m1
                        | Z.neg _ => 0 end).
  assert (Hm : 0 <= m').
  { subst m'. destruct s; try lia. apply Z.shiftl_nonneg. lia. }
  pose proof (Z.div_pos m' (Z.pos m2) Hm ltac:(lia)) as Q.
  unfold Z.div in Q. destruct (Z.div_eucl m' (Z.pos m2)) as [q r].
  exact Q.
Qed.

(** Rounding a non-negative mantissa keeps the sign it is given. *)
Lemma binary_round_aux_sign (s : bool) (m e : Z) (l : location) :
  0 <= m -> sign_of (binary_round_aux prec emax s m e l) = s.
Proof.
  intros H. unfold binary_round_aux.
  pose proof (shr_fexp_nonneg m e l H) as H1.
  destruct (shr_fexp prec emax m e l) as [mrs' e']. cbn [fst] in H1.
  pose proof (shr_fexp_nonneg _ e' loc_Exact
                (round_nearest_even_nonneg _ (loc_of_shr_record mrs') H1)) as H2.
  destruct (shr_fexp prec emax _ e' loc_Exact) as [mrs'' e'']. cbn [fst] in H2.
  destruct (shr_m mrs'') as [|p|p]; [reflexivity| |lia].
  destruct (e'' <=? emax - prec); reflexivity.
Qed.

(** Dividing or multiplying by a positive finite number keeps the sign. *)
Lemma fdiv_sign (x : spec_float) (p : positive) (e : Z) :
  sign_of (fdiv x (S754_finite false p e)) = sign_of x.
Proof.
  unfold fdiv, SFdiv. destruct x as [s|s| |s m ex]; cbn [sign_of];
    try apply xorb_false_r; [reflexivity|].
  pose proof (SFdiv_core_binary_nonneg m p ex e) as N.
  destruct (SFdiv_core_binary _ _ _ _ _ _) as [[mz ez] lz]. cbn [fst] in N.
  rewrite (binary_round_aux_sign _ _ _ _ N). apply xorb_false_r.
Qed.

Lemma fmul_sign (x : spec_float) (p : positive) (e : Z) :
  sign_of (fmul x (S754_finite false p e)) = sign_of x.
Proof.
  unfold fmul, SFmul. destruct x as [s|s| |s m ex]; cbn [sign_of];
    try apply xorb_false_r; [reflexivity|].
  rewrite binary_round_aux_sign by lia. apply xorb_false_r.
Qed.

(** [int(x)], exactly: the floor of the magnitude, with the sign of [x]. *)
Lemma int_of_float_value (x : spec_float) (m : Z) :
  int_of_float x = Ok m ->
  0 <= fst (magnitude x)
  /\ 0 < snd (magnitude x)
  /\ m = if sign_of x
         then - (fst (magnitude x) / snd (magnitude x))
         else fst (magnitude x) / snd (magnitude x).
Proof.
  destruct x as [s|s| |s p e]; cbn [int_of_float]; try discriminate.
  - intros [= <-]. cbn. destruct s; repeat split; lia.
  - unfold magnitude.
    assert (D : 0 < (if 0 <=? e then 1 else 2 ^ (- e))).
    { destruct (Z.leb_spec 0 e); [lia|]. apply Z.pow_pos_nonneg; lia. }
    assert (N : 0 <= (if 0 <=? e then Z.pos p * 2 ^ e else Z.pos p)).
    { destruct (Z.leb_spec 0 e); [|lia]. apply Z.mul_nonneg_nonneg; [lia|].
      apply Z.pow_nonneg. lia. }
    destruct (0 <=? e); cbn [sign_of fst snd] in *; intros [= <-];
      repeat split; try assumption; reflexivity.
Qed.

(** [int(x)] drops the fraction: the result has the magnitude [floor |x|]
    and, for a non-negative [x], is the floor of [x]. *)
Lemma int_of_float_trunc (x : spec_float) (m : Z) :
  int_of_float x = Ok m ->
  Z.abs m = fst (magnitude x) / snd (magnitude x)
  /\ (m < 0 -> sign_of x = true)
  /\ (sign_of x = false ->
      snd (magnitude x) * m <= fst (magnitude x) < snd (magnitude x) * (m + 1)).
Proof.
  destruct x as [s|s| |s p e]; cbn [int_of_float]; try discriminate.
  - intros [= <-]. cbn. repeat split; lia.
  - unfold magnitude.
    assert (D : 0 < (if 0 <=? e then 1 else 2 ^ (- e))).
    { destruct (Z.leb_spec 0 e); [lia|]. apply Z.pow_pos_nonneg; lia. }
    assert (N : 0 <= (if 0 <=? e then Z.pos p * 2 ^ e else Z.pos p)).
    { destruct (Z.leb_spec 0 e); [|lia]. apply Z.mul_nonneg_nonneg; [lia|].
      apply Z.pow_nonneg. lia. }
    destruct (0 <=? e); cbn [sign_of fst snd].
    + set (n := Z.pos p * 2 ^ e) in *.
      pose proof (Z.div_pos n 1 N D) as Q.
      pose proof (Z.div_mod n 1 ltac:(lia)).
      pose proof (Z.mod_pos_bound n 1 D).
      destruct s; intros [= <-]; repeat split; try lia; try discriminate.
    + set (d := 2 ^ (- e)) in *.
      pose proof (Z.div_pos (Z.pos p) d ltac:(lia) D) as Q.
      pose proof (Z.div_mod (Z.pos p) d ltac:(lia)).
      pose proof (Z.mod_pos_bound (Z.pos p) d D).
      destruct s; intros [= <-]; repeat split; try lia; try discriminate.
Qed.

Lemma int_of_float_finite (x : spec_float) :
  is_finite x = true -> exists m : Z, int_of_float x = Ok m.
Proof.
  destruct x as [s|s| |s p e]; cbn [is_finite]; try discriminate; intros _.
  - exists 0. reflexivity.
  - cbn [int_of_float]. destruct (magnitude (S754_finite s p e)) as [n d].
    eexists. reflexivity.
Qed.

Lemma walk_product_nonneg (km : spec_float) :
  sign_of km = false -> sign_of (walk_product km) = false.
Proof.
  intros H. unfold walk_product.
  apply fmul_nonneg; [apply fdiv_nonneg|]; [exact H|reflexivity|reflexivity].
Qed.

Lemma walk_product_sign (km : spec_float) :
  sign_of (walk_product km) = sign_of km.
Proof.
  unfold walk_product.
  change (float_of_Z 4) with (S754_finite false 4503599627370496 (-50)).
  change (float_of_Z 60) with (S754_finite false 8444249301319680 (-47)).
  rewrite fmul_sign. apply fdiv_sign.
Qed.

(* ===================================================================== *)
(** ** The handler, step by step *)
(* ===================================================================== *)

Section Run.
Context {ucd : UnicodeData}.

Lemma send_eq (c : call) (w : world) :
  send c w =
    (hd NoReply (inbox w), {| inbox := tl (inbox w); sent := sent w ++ [c] |}).
Proof. unfold send. destruct (inbox w); reflexivity. Qed.

Lemma bind_eq {A B : Type} (m : IO A) (k : A -> IO B) (w w' : world) (a : A) :
  m w = (a, w') -> bind m k w = k a w'.
Proof. intros E. unfold bind. rewrite E. reflexivity. Qed.

Lemma hd_tl_nth {A : Type} (n : nat) (l : list A) (d : A) :
  hd d (Nat.iter n (@tl A) l) = nth n l d.
Proof.
  revert l; induction n as [|n IH]; intros l.
  - destruct l; reflexivity.
  - rewrite Nat.iter_succ_r. destruct l as [|x l]; [|apply IH].
    simpl. clear IH. induction n as [|n IHn]; [reflexivity|].
    rewrite Nat.iter_succ_r. exact IHn.
Qed.

Lemma tmap_geocode_eq (keyword app_key : str) (w : world) :
  nonempty keyword = true -> nonempty app_key = true ->
  tmap_geocode keyword app_key w =
    (geocoded (hd NoReply (inbox w)),
     {| inbox := tl (inbox w); sent := sent w ++ [PoiSearch app_key keyword] |}).
Proof.
  intros Hk Ha. unfold tmap_geocode. rewrite Hk, Ha. cbn [negb orb].
  unfold bind, ret. rewrite send_eq. reflexivity.
Qed.

Lemma weather_step_eq (key : str) (la lo : spec_float) (b : bundle) (w : world) :
  TravelAPIView.weather_step key la lo b w =
    if nonempty key then
      (match TravelAPIView.weather_try (hd NoReply (inbox w)) with
       | Ok weather => set_weather b weather
       | Raise _ => set_weather (add_error b note_weather) VNone
       end,
       {| inbox := tl (inbox w); sent := sent w ++ [Weather la lo key] |})
    else (set_weather b VNone, w).
Proof.
  unfold TravelAPIView.weather_step. destruct (nonempty key); [|reflexivity].
  erewrite bind_eq by apply send_eq.
  destruct (TravelAPIView.weather_try _); reflexivity.
Qed.

Lemma car_step_eq (key : str) (a b c d : spec_float) (resp : bundle) (w : world) :
  let t := TravelAPIView.car_try (hd NoReply (inbox w)) in
  TravelAPIView.car_step key a b c d resp w =
    (set_car (if is_some (snd t) then add_error resp note_car else resp)
       (fst (fst t)) (snd (fst t)),
     {| inbox := tl (inbox w);
        sent := sent w ++ [CarRoute key (py_repr_float b) (py_repr_float a)
                             (py_repr_float d) (py_repr_float c)] |}).
Proof.
  unfold TravelAPIView.car_step. erewrite bind_eq by apply send_eq.
  destruct (TravelAPIView.car_try _) as [[ci cp] [e|]]; reflexivity.
Qed.

Lemma transit_step_eq (key : str) (a b c d : spec_float) (resp : bundle)
  (w : world) :
  let t := TravelAPIView.transit_try (hd NoReply (inbox w)) in
  TravelAPIView.transit_route_step key a b c d resp w =
    (set_transit (if is_some (snd t) then add_error resp note_transit else resp)
       (fst (fst t)) (snd (fst t)),
     {| inbox := tl (inbox w);
        sent := sent w ++ [TransitRoute key (py_repr_float b) (py_repr_float a)
                             (py_repr_float d) (py_repr_float c)] |}).
Proof.
  unfold TravelAPIView.transit_route_step. erewrite bind_eq by apply send_eq.
  destruct (TravelAPIView.transit_try _) as [[ti ts] [e|]]; reflexivity.
Qed.

Ltac finish_run :=
  erewrite bind_eq by apply car_step_eq;
  erewrite bind_eq by apply transit_step_eq;
  cbn [inbox sent];
  destruct (TravelAPIView.car_try _) as [[? ?] [?|]];
  destruct (TravelAPIView.transit_try _) as [[? ?] [?|]];
  unfold final_response; cbn -[TravelAPIView.shape route_body];
  destruct (TravelAPIView.shape _ _ _ _ _ _) as [[[[?|] ?] ?]|?]; reflexivity.

(** The handler computes [get_outcome]. *)
Lemma get_outcome_eq (os : environ) (GET : querydict) (w : world) :
  fst (TravelAPIView.get os GET w) = get_outcome os GET w.
Proof.
  unfold TravelAPIView.get, get_outcome.
  fold (resolved_origin GET) (resolved_destination GET) (resolved_mode GET).
  destruct (nonempty (resolved_origin GET) && nonempty (resolved_destination GET))
    eqn:Hv; cbn [negb]; [|reflexivity].
  apply andb_true_iff in Hv. destruct Hv as [Ho Hd].
  destruct (nonempty (environ_get (TMAP_APP_KEY os) [])) eqn:Hk;
    cbn [negb]; [|reflexivity].
  erewrite bind_eq by (apply tmap_geocode_eq; assumption).
  erewrite bind_eq by (apply tmap_geocode_eq; assumption).
  cbn [inbox sent].
  unfold nth_reply.
  rewrite <- (hd_tl_nth 0), <- (hd_tl_nth 1). cbn [Nat.iter nat_rect].
  unfold geocoding_bundle, blank_bundle.
  destruct (geocoded (hd NoReply (inbox w))) as [[dep_lat dep_lng]|];
  destruct (geocoded (hd NoReply (tl (inbox w)))) as [[dest_lat dest_lng]|];
    try reflexivity.
  cbn [is_some andb].
  unfold final_bundle, car_index.
  destruct (nonempty (environ_get (OPENWEATHER_API_KEY os) [])) eqn:Hw;
    (erewrite bind_eq by (rewrite weather_step_eq, Hw; reflexivity)).
  - rewrite <- (hd_tl_nth 2), <- (hd_tl_nth 3), <- (hd_tl_nth 4).
    cbn [Nat.iter nat_rect inbox sent].
    destruct (TravelAPIView.weather_try _) as [wv|we]; finish_run.
  - rewrite <- (hd_tl_nth 2), <- (hd_tl_nth 3).
    cbn [Nat.iter nat_rect inbox sent].
    finish_run.
Qed.

(** Past validation, credential check and geocoding, the answer is the
    shaping of the final [response] dict. *)
Lemma get_outcome_shaped (os : environ) (GET : querydict) (w : world) :
  nonempty (resolved_origin GET) = true ->
  nonempty (resolved_destination GET) = true ->
  nonempty (environ_get (TMAP_APP_KEY os) []) = true ->
  is_some (geocoded (nth_reply 0 w)) = true ->
  is_some (geocoded (nth_reply 1 w)) = true ->
  fst (TravelAPIView.get os GET w) =
    final_response (final_bundle os GET (nth_reply 2 w)
                      (nth_reply (car_index os) w)
                      (nth_reply (S (car_index os)) w)).
Proof.
  intros Ho Hd Hk G1 G2. rewrite get_outcome_eq. unfold get_outcome.
  rewrite Ho, Hd, Hk, G1, G2. reflexivity.
Qed.

Lemma final_response_well_formed (b : bundle) (r : Response) :
  final_response b = Ok r ->
  status r = HTTP_200_OK
  /\ keys (data r) = [u "duration"; u "distance"; u "steps"; u "raw"].
Proof.
  unfold final_response.
  destruct (TravelAPIView.shape _ _ _ _ _ _) as [[[[du|] di] st]|e];
    intros [= <-]; split; reflexivity.
Qed.

(** Every response the handler does return has the success status and the
    four keys. *)
Lemma get_answers_well_formed (os : environ) (GET : querydict) (w : world)
  (r : Response) :
  fst (TravelAPIView.get os GET w) = Ok r ->
  status r = HTTP_200_OK
  /\ keys (data r) = [u "duration"; u "distance"; u "steps"; u "raw"].
Proof.
  rewrite get_outcome_eq. unfold get_outcome.
  destruct (negb (nonempty (resolved_origin GET) && nonempty (resolved_destination GET))).
  { intros [= <-]; split; reflexivity. }
  destruct (negb (nonempty (environ_get (TMAP_APP_KEY os) []))).
  { intros [= <-]; split; reflexivity. }
  destruct (is_some (geocoded (nth_reply 0 w)) && is_some (geocoded (nth_reply 1 w))).
  - apply final_response_well_formed.
  - intros [= <-]; split; reflexivity.
Qed.

(** An exception can leave the handler only from the walking estimate. *)
Lemma get_raises_only_in_walk (os : environ) (GET : querydict) (w : world)
  (e : exn) :
  fst (TravelAPIView.get os GET w) = Raise e -> resolved_mode GET = u "walk".
Proof.
  rewrite get_outcome_eq. unfold get_outcome.
  destruct (negb (nonempty (resolved_origin GET) && nonempty (resolved_destination GET)));
    [discriminate|].
  destruct (negb (nonempty (environ_get (TMAP_APP_KEY os) []))); [discriminate|].
  destruct (is_some (geocoded (nth_reply 0 w)) && is_some (geocoded (nth_reply 1 w)));
    [|discriminate].
  unfold final_response. set (b := final_bundle _ _ _ _ _).
  change (raw_mode b) with (resolved_mode GET).
  unfold TravelAPIView.shape.
  destruct (str_eqb (resolved_mode GET) (u "car"));
    [destruct (raw_car_info b); [discriminate|]|];
  (destruct (str_eqb (resolved_mode GET) (u "transit"));
    [destruct (raw_transit_info b); [discriminate|]|]);
  (destruct (str_eqb (resolved_mode GET) (u "walk")) eqn:W;
    [intros _; apply str_eqb_eq; exact W|discriminate]).
Qed.

Lemma shape_unknown_mode (m dep dest : str) (ci : option car_info_t)
  (ti : option transit_info_t) (ts : list transit_step) :
  known_mode m = false ->
  TravelAPIView.shape m dep dest ci ti ts = Ok (None, None, []).
Proof.
  unfold known_mode. intros H.
  apply orb_false_iff in H. destruct H as [H Hw].
  apply orb_false_iff in H. destruct H as [Hc Ht].
  unfold TravelAPIView.shape. rewrite Hc, Ht, Hw. reflexivity.
Qed.

Lemma shape_car (dep dest : str) (ci : car_info_t)
  (ti : option transit_info_t) (ts : list transit_step) :
  TravelAPIView.shape (u "car") dep dest (Some ci) ti ts =
    Ok (Some (u "약 " ++ str_of_Z (time_min ci) ++ u "분"),
        Some (py_repr_float (distance_km ci) ++ u " km"),
        [ dep ++ u "에서 출발";
          u "Tmap 자동차 경로를 따라 이동 (약 "
            ++ py_repr_float (distance_km ci) ++ u "km)";
          dest ++ u " 도착" ]).
Proof. reflexivity. Qed.

Lemma shape_walk (dep dest : str) (ci : car_info_t)
  (ti : option transit_info_t) (ts : list transit_step) :
  TravelAPIView.shape (u "walk") dep dest (Some ci) ti ts =
    rbind (TravelAPIView.walk_minutes_of ci) (fun walk_minutes =>
      Ok (Some (u "약 " ++ str_of_Z walk_minutes ++ u "분"),
          Some (py_repr_float (distance_km ci) ++ u " km"),
          [ dep ++ u "에서 도보 출발";
            u "약 " ++ py_repr_float (distance_km ci) ++ u "km 도보 이동";
            dest ++ u " 도착" ])).
Proof. reflexivity. Qed.

Lemma get_reads_four_parameters (os : environ) (GET GET' : querydict) (w : world) :
  querydict_get GET' (u "origin") = querydict_get GET (u "origin") ->
  querydict_get GET' (u "departure") = querydict_get GET (u "departure") ->
  querydict_get GET' (u "destination") = querydict_get GET (u "destination") ->
  or_text (querydict_get GET' (u "mode")) (u "car")
    = or_text (querydict_get GET (u "mode")) (u "car") ->
  TravelAPIView.get os GET' w = TravelAPIView.get os GET w.
Proof.
  intros Ho Hd Hde Hm. unfold TravelAPIView.get.
  rewrite Ho, Hd, Hde, Hm. reflexivity.
Qed.

Lemma fetch_json_ok (st : Z) (v : pyval) :
  (400 <=? st) && (st <? 600) = false -> fetch_json (Reply st (Some v)) = Ok v.
Proof. intros H. unfold fetch_json. rewrite H. reflexivity. Qed.

Lemma car_try_transport (r : reply) :
  transport_fails r = true ->
  exists e, TravelAPIView.car_try r = (None, [], Some e).
Proof.
  unfold transport_fails, TravelAPIView.car_try. intros H.
  destruct (fetch_json r) as [v|e]; [discriminate H|].
  exists e. reflexivity.
Qed.

Lemma car_try_no_features (r : reply) :
  no_features r = true -> TravelAPIView.car_try r = (None, [], None).
Proof.
  unfold no_features, TravelAPIView.car_try. intros H.
  destruct (fetch_json r) as [[| | | | | |d]|e]; try discriminate H.
  cbn [rbind dict_get].
  destruct (assoc (u "features") d) as [[| | | | |[|x l]|]|]; try discriminate H;
    reflexivity.
Qed.

(** [car_info] is settled by the first feature, whatever the path loop
    does afterwards. *)
Lemma car_try_info (r : reply) (d : list (str * pyval)) (f0 : pyval)
  (fs : list pyval) (ci : car_info_t) :
  fetch_json r = Ok (VDict d) ->
  assoc (u "features") d = Some (VList (f0 :: fs)) ->
  TravelAPIView.car_info_of (VList (f0 :: fs)) = Ok (Some ci) ->
  fst (fst (TravelAPIView.car_try r)) = Some ci.
Proof.
  intros Hj Hf Hi. unfold TravelAPIView.car_try.
  rewrite Hj. cbn [rbind dict_get]. rewrite Hf, Hi. cbn [py_iter].
  destruct (TravelAPIView.collect_path (f0 :: fs) []) as [p e]. reflexivity.
Qed.



Lemma get_chain_first_truthy (d : list (str * pyval)) (k1 k2 k3 k4 : str) :
  get_chain (VDict d) k1 k2 k3 k4 = Ok (first_truthy d [k1; k2; k3; k4]).
Proof.
  unfold get_chain, or_else. cbn [dict_get rbind first_truthy].
  destruct (assoc k1 d) as [v1|]; [destruct (truthy v1); [reflexivity|]|cbn [truthy]];
  (destruct (assoc k2 d) as [v2|]; [destruct (truthy v2); [reflexivity|]|cbn [truthy]]);
  (destruct (assoc k3 d) as [v3|]; [destruct (truthy v3); [reflexivity|]|cbn [truthy]]);
  destruct (assoc k4 d); reflexivity.
Qed.

(* ===================================================================== *)
(** ** The claims *)
(* ===================================================================== *)

(** C1 (as amended).  The mode defaults to [car] only when the parameter is
    absent or empty: such a request is answered exactly like the same
    request with [mode=car].  A mode that is present and, once trimmed, is
    none of [car], [transit], [walk] is kept as given and is not treated as
    [car]: on every path the handler answers with the success status,
    [duration = null], [distance = null], the given mode echoed in the
    debug bundle and at least one error note; once validation, the
    credential check and geocoding have passed, that answer is the
    no-suitable-route one (empty steps, the note appended last). *)
Theorem mode_default_and_unknown :
  (forall (os : environ) (GET GET' : querydict) (w : world),
      (forall k, k <> u "mode" -> querydict_get GET' k = querydict_get GET k) ->
      querydict_get GET' (u "mode") = Some (u "car") ->
      querydict_get GET (u "mode") = None \/ querydict_get GET (u "mode") = Some [] ->
      TravelAPIView.get os GET w = TravelAPIView.get os GET' w)
  /\
  (forall (os : environ) (GET : querydict) (w : world),
      known_mode (resolved_mode GET) = false ->
      exists (r : Response) (steps : list str) (b : bundle),
        fst (TravelAPIView.get os GET w) = Ok r
        /\ status r = HTTP_200_OK
        /\ data r = route_body None None steps b
        /\ raw_mode b = resolved_mode GET
        /\ raw_errors b <> [])
  /\
  (forall (os : environ) (GET : querydict) (w : world),
      known_mode (resolved_mode GET) = false ->
      nonempty (resolved_origin GET) = true ->
      nonempty (resolved_destination GET) = true ->
      nonempty (environ_get (TMAP_APP_KEY os) []) = true ->
      is_some (geocoded (nth_reply 0 w)) = true ->
      is_some (geocoded (nth_reply 1 w)) = true ->
      fst (TravelAPIView.get os GET w) =
        Ok {| data :=
                route_body None None []
                  (add_error
                     (final_bundle os GET (nth_reply 2 w)
                        (nth_reply (car_index os) w)
                        (nth_reply (S (car_index os)) w))
                     note_no_route);
              status := HTTP_200_OK |}).
Proof.
  split; [|split].
  3:{ intros os GET w Hm Ho Hd Hk G1 G2.
      rewrite (get_outcome_shaped os GET w Ho Hd Hk G1 G2).
      unfold final_response.
      set (b := final_bundle _ _ _ _ _).
      assert (Eb : raw_mode b = resolved_mode GET) by reflexivity.
      rewrite Eb, (shape_unknown_mode _ _ _ _ _ _ Hm). reflexivity. }
  - intros os GET GET' w Hsame Hcar Hmode. symmetry.
    apply get_reads_four_parameters.
    + apply Hsame. intros E; vm_compute in E; discriminate E.
    + apply Hsame. intros E; vm_compute in E; discriminate E.
    + apply Hsame. intros E; vm_compute in E; discriminate E.
    + rewrite Hcar. destruct Hmode as [-> | ->]; reflexivity.
  - intros os GET w Hm. rewrite get_outcome_eq. unfold get_outcome.
    destruct (negb (nonempty (resolved_origin GET)
                    && nonempty (resolved_destination GET))).
    { do 3 eexists. split; [reflexivity|]. repeat split.
      cbn. discriminate. }
    destruct (negb (nonempty (environ_get (TMAP_APP_KEY os) []))).
    { do 3 eexists. split; [reflexivity|]. repeat split.
      cbn. discriminate. }
    destruct (is_some (geocoded (nth_reply 0 w))) eqn:G1; cbn [andb].
    2:{ do 3 eexists. split; [reflexivity|]. repeat split.
        - unfold geocoding_bundle. rewrite G1.
          destruct (is_some (geocoded (nth_reply 1 w))); reflexivity.
        - unfold geocoding_bundle. rewrite G1.
          destruct (is_some (geocoded (nth_reply 1 w))); cbn; discriminate. }
    destruct (is_some (geocoded (nth_reply 1 w))) eqn:G2.
    2:{ do 3 eexists. split; [reflexivity|]. repeat split.
        - unfold geocoding_bundle. rewrite G1, G2. reflexivity.
        - unfold geocoding_bundle. rewrite G1, G2. cbn; discriminate. }
    unfold final_response.
    set (b := final_bundle _ _ _ _ _).
    assert (Eb : raw_mode b = resolved_mode GET) by reflexivity.
    rewrite Eb, (shape_unknown_mode _ _ _ _ _ _ Hm).
    do 3 eexists. split; [reflexivity|]. repeat split.
    cbn [add_error raw_errors]. intros E. symmetry in E.
    exact (app_cons_not_nil _ _ _ E).
Qed.

(** C2 (as amended).  When the driving query gets no reply, a 4xx/5xx
    status or a text that is not JSON, [car_info] stays null, [car_path]
    stays empty and the note "자동차 경로 조회 실패" is appended to the error
    list.  When the provider answers successfully with an empty or missing
    feature list, [car_info] is null and [car_path] empty as well, but this
    step appends no note.  In both cases the step hands back the [response]
    dict: no exception passes it. *)
Theorem failed_drive_query_leaves_no_route (key : str)
  (dep_lat dep_lng dest_lat dest_lng : spec_float) (response : bundle)
  (w : world) :
  let r := hd NoReply (inbox w) in
  transport_fails r = true \/ no_features r = true ->
  let after :=
    fst (TravelAPIView.car_step key dep_lat dep_lng dest_lat dest_lng response w) in
  raw_car_info after = None
  /\ raw_car_path after = []
  /\ raw_errors after
     = raw_errors response ++ (if transport_fails r then [note_car] else []).
Proof.
  intros r H after. subst after. rewrite car_step_eq. fold r. cbn [fst].
  destruct (transport_fails r) eqn:T.
  - destruct (car_try_transport r T) as [e E]. rewrite E. cbn. auto.
  - destruct H as [H|H]; [discriminate H|].
    rewrite (car_try_no_features r H). cbn. rewrite app_nil_r. auto.
Qed.

(** C4.  When the origin (the [origin] parameter, else [departure]) or the
    destination is empty once trimmed, the handler answers at once: no
    request is sent and no reply consumed, the status is the success
    status, [duration] and [distance] are null, [steps] is empty and the
    debug bundle's error list holds the note. *)
Theorem missing_endpoint_stops_early (os : environ) (GET : querydict)
  (w : world) :
  resolved_origin GET = [] \/ resolved_destination GET = [] ->
  exists r : Response,
    TravelAPIView.get os GET w = (Ok r, w)
    /\ status r = HTTP_200_OK
    /\ field (u "duration") (data r) = Some VNone
    /\ field (u "distance") (data r) = Some VNone
    /\ field (u "steps") (data r) = Some (VList [])
    /\ exists raw, field (u "raw") (data r) = Some raw
         /\ field (u "errors") raw = Some (VList [VStr note_endpoints]).
Proof.
  intros H. unfold TravelAPIView.get.
  fold (resolved_origin GET) (resolved_destination GET) (resolved_mode GET).
  assert (E : nonempty (resolved_origin GET)
              && nonempty (resolved_destination GET) = false).
  { destruct H as [-> | ->]; [reflexivity|]. apply andb_false_r. }
  rewrite E. cbn [negb]. unfold ret.
  eexists; split; [reflexivity|].
  repeat split.
  eexists; split; reflexivity.
Qed.

(** C5 (as amended).  When the driving provider answers successfully and
    the first feature's properties give a [totalTime] and a [totalDistance]
    that [int] converts to the integers [total_time] and [total_distance],
    with [total_distance / 1000] in the range of floats, [car_info] exists,
    [time_min] is [total_time] floor-divided by 60 and [distance_km] is
    [round(total_distance / 1000, 1)]: the totals are cut to integers
    before the division.  For a distance below [10^16] metres
    [distance_km] is the float of a one-decimal number [k/10] within 0.05
    of [total_distance / 1000]. *)
Theorem drive_route_totals (r : reply) (st : Z) (d f0 props : list (str * pyval))
  (fs : list pyval) (tv dv : pyval) (total_time total_distance : Z)
  (km : spec_float) :
  r = Reply st (Some (VDict d)) ->
  (400 <=? st) && (st <? 600) = false ->
  assoc (u "features") d = Some (VList (VDict f0 :: fs)) ->
  dict_get (VDict f0) (u "properties") (VDict []) = Ok (VDict props) ->
  assoc (u "totalTime") props = Some tv ->
  py_int tv = Ok total_time ->
  assoc (u "totalDistance") props = Some dv ->
  py_int dv = Ok total_distance ->
  int_truediv total_distance 1000 = Ok km ->
  exists ci : car_info_t,
    fst (fst (TravelAPIView.car_try r)) = Some ci
    /\ time_min ci = total_time / 60
    /\ 60 * time_min ci <= total_time < 60 * time_min ci + 60
    /\ distance_km ci = py_round1 km
    /\ (Z.abs total_distance < 10 ^ 16 ->
        exists k : Z,
          distance_km ci = round_ratio (total_distance <? 0) k 10
          /\ -50 <= 100 * k - Z.abs total_distance <= 50).
Proof.
  intros -> Hst Hf Hp Ht Hti Hd Hdi Hkm.
  exists {| time_min := total_time / 60; distance_km := py_round1 km |}.
  split.
  { apply (car_try_info _ d (VDict f0) fs).
    - apply fetch_json_ok. exact Hst.
    - exact Hf.
    - unfold TravelAPIView.car_info_of. cbn [truthy getitem_0 rbind].
      rewrite Hp. cbn [rbind dict_get]. rewrite Ht, Hd. cbn [rbind].
      rewrite Hti, Hdi. cbn [rbind]. rewrite Hkm. reflexivity. }
  cbn [time_min distance_km].
  split; [reflexivity|].
  split.
  { pose proof (Z.div_mod total_time 60 ltac:(lia)).
    pose proof (Z.mod_pos_bound total_time 60 ltac:(lia)). lia. }
  split; [reflexivity|].
  intros Hrange.
  assert (Hr : 0 <= Z.abs total_distance < 10 ^ 16) by lia.
  destruct (round1_kilometres (total_distance <? 0) _ Hr) as (k & Ek & Hk).
  exists k. split; [|exact Hk].
  unfold int_truediv in Hkm.
  change (xorb (total_distance <? 0) (1000 <? 0)) with (xorb (total_distance <? 0) false) in Hkm.
  rewrite xorb_false_r in Hkm. change (Z.abs 1000) with 1000 in Hkm.
  rewrite (round_ratio_kilometres_finite _ _ Hr) in Hkm.
  injection Hkm as <-. exact Ek.
Qed.


(** C8 (as amended).  For the best match of a point-of-interest reply (the
    first match of the list, or the single match sent in its place), the
    latitude is the value of the first of [frontLat], [frontlat],
    [noorLat], [lat] that is true in Python's sense (a field that is
    present but null, empty or zero is passed over), and when none is, what
    [lat] holds, if anything; the longitude likewise.  Geocoding yields no
    coordinate when either is null, and otherwise the two read as floats.
    In particular a best match with only [noorLat] and [noorLon] resolves
    to a coordinate. *)
Theorem geocode_field_fallback :
  let resolve (d : list (str * pyval)) :=
    let lat := first_truthy d lat_fields in
    let lon := first_truthy d lon_fields in
    if is_none lat || is_none lon then Ok None
    else rbind (py_float lat) (fun la =>
         rbind (py_float lon) (fun lo => Ok (Some (la, lo)))) in
  (forall (d : list (str * pyval)) (others : list pyval),
      poi_coord (poi_reply (VList (VDict d :: others))) = resolve d)
  /\ (forall (kv : str * pyval) (d : list (str * pyval)),
        poi_coord (poi_reply (VDict (kv :: d))) = resolve (kv :: d))
  /\ fst (tmap_geocode (u "경복궁") (u "tmap-key")
            {| inbox := [poi_reply (VList [noor_poi "37.5796" "126.9770"])];
               sent := [] |})
     = Some (round_ratio false 375796 10000, round_ratio false 126977 1000).
Proof.
  cbv zeta.
  assert (P : forall pois : pyval,
             truthy pois = true ->
             poi_coord (poi_reply pois) =
               rbind (match pois with
                      | VList _ => getitem_0 pois
                      | _ => Ok pois
                      end)
                 (fun poi0 =>
                    rbind (get_chain poi0 (u "frontLat") (u "frontlat")
                             (u "noorLat") (u "lat"))
                      (fun lat =>
                         rbind (get_chain poi0 (u "frontLon") (u "frontlon")
                                  (u "noorLon") (u "lon"))
                           (fun lon =>
                              if is_none lat || is_none lon then Ok None
                              else rbind (py_float lat) (fun la =>
                                   rbind (py_float lon) (fun lo =>
                                     Ok (Some (la, lo)))))))).
  { intros pois Hp. unfold poi_coord, poi_reply.
    cbn [fetch_json Z.leb Z.ltb Z.compare Pos.compare Pos.compare_cont andb rbind].
    change (dict_get
              (VDict [(u "searchPoiInfo",
                        VDict [(u "pois", VDict [(u "poi", pois)])])])
              (u "searchPoiInfo") VNone)
      with (Ok (VDict [(u "pois", VDict [(u "poi", pois)])])).
    cbn [rbind truthy negb].
    change (dict_get (VDict [(u "pois", VDict [(u "poi", pois)])])
              (u "pois") (VDict []))
      with (Ok (VDict [(u "poi", pois)])).
    cbn [rbind].
    change (dict_get (VDict [(u "poi", pois)]) (u "poi") VNone) with (Ok pois).
    cbn [rbind]. rewrite Hp. reflexivity. }
  split; [|split].
  - intros d others. rewrite P by reflexivity. cbn [getitem_0 rbind].
    rewrite !get_chain_first_truthy. reflexivity.
  - intros kv d. rewrite P by reflexivity. cbn [rbind].
    rewrite !get_chain_first_truthy. reflexivity.
  - vm_compute. reflexivity.
Qed.

(** C9.  In a [car]-mode request that passes validation, the credential
    check and geocoding, with a weather key configured and a driving query
    that produced [car_info], a weather lookup that raises leaves the
    answer a success: the success status, the duration, distance and three
    steps shaped from [car_info]; the debug bundle has [weather = null] and
    its error list starts with the weather note, followed only by the
    notes of the driving and transit steps themselves. *)
Theorem weather_failure_is_not_fatal (os : environ) (GET : querydict)
  (w : world) (ci : car_info_t) :
  nonempty (resolved_origin GET) = true ->
  nonempty (resolved_destination GET) = true ->
  nonempty (environ_get (TMAP_APP_KEY os) []) = true ->
  nonempty (environ_get (OPENWEATHER_API_KEY os) []) = true ->
  resolved_mode GET = u "car" ->
  is_some (geocoded (nth_reply 0 w)) = true ->
  is_some (geocoded (nth_reply 1 w)) = true ->
  raised (TravelAPIView.weather_try (nth_reply 2 w)) = true ->
  fst (fst (TravelAPIView.car_try (nth_reply 3 w))) = Some ci ->
  exists (r : Response) (b : bundle),
    fst (TravelAPIView.get os GET w) = Ok r
    /\ status r = HTTP_200_OK
    /\ data r =
         route_body
           (Some (u "약 " ++ str_of_Z (time_min ci) ++ u "분"))
           (Some (py_repr_float (distance_km ci) ++ u " km"))
           [ resolved_origin GET ++ u "에서 출발";
             u "Tmap 자동차 경로를 따라 이동 (약 "
               ++ py_repr_float (distance_km ci) ++ u "km)";
             resolved_destination GET ++ u " 도착" ]
           b
    /\ raw_weather b = VNone
    /\ raw_car_info b = Some ci
    /\ raw_errors b =
         note_weather
         :: (if is_some (snd (TravelAPIView.car_try (nth_reply 3 w)))
             then [note_car] else [])
         ++ (if is_some (snd (TravelAPIView.transit_try (nth_reply 4 w)))
             then [note_transit] else []).
Proof.
  intros Ho Hd Hk Hw Hm G1 G2 Hf Hc.
  rewrite (get_outcome_shaped os GET w Ho Hd Hk G1 G2).
  unfold car_index. rewrite Hw.
  unfold final_response.
  set (b := final_bundle _ _ _ _ _).
  assert (Em : raw_mode b = u "car") by exact Hm.
  assert (Ec : raw_car_info b = Some ci) by exact Hc.
  rewrite Em, Ec, shape_car.
  exists {| data := route_body
               (Some (u "약 " ++ str_of_Z (time_min ci) ++ u "분"))
               (Some (py_repr_float (distance_km ci) ++ u " km"))
               [ raw_departure b ++ u "에서 출발";
                 u "Tmap 자동차 경로를 따라 이동 (약 "
                   ++ py_repr_float (distance_km ci) ++ u "km)";
                 raw_destination b ++ u " 도착" ] b;
            status := HTTP_200_OK |}, b.
  split; [reflexivity|]. split; [reflexivity|]. split; [reflexivity|].
  split.
  { subst b. unfold final_bundle. cbn [raw_weather]. rewrite Hw.
    destruct (TravelAPIView.weather_try (nth_reply 2 w));
      [discriminate Hf|reflexivity]. }
  split; [exact Ec|].
  subst b. unfold final_bundle. cbn [raw_errors]. rewrite Hw, Hf. reflexivity.
Qed.

(** C10 (as amended).  When the driving provider answers successfully with
    a feature list whose first feature has properties that are an object
    (or has no [properties] key) with neither [totalTime] nor
    [totalDistance] in it, both default to 0: [car_info] has 0 minutes and
    0.0 km, and a [car]-mode request is answered with duration "약 0분" and
    distance "0.0 km" rather than with the no-route failure. *)
Theorem missing_totals_default_to_zero (os : environ) (GET : querydict)
  (w : world) (st : Z) (d f0 props : list (str * pyval)) (fs : list pyval) :
  nonempty (resolved_origin GET) = true ->
  nonempty (resolved_destination GET) = true ->
  nonempty (environ_get (TMAP_APP_KEY os) []) = true ->
  resolved_mode GET = u "car" ->
  is_some (geocoded (nth_reply 0 w)) = true ->
  is_some (geocoded (nth_reply 1 w)) = true ->
  nth_reply (car_index os) w = Reply st (Some (VDict d)) ->
  (400 <=? st) && (st <? 600) = false ->
  assoc (u "features") d = Some (VList (VDict f0 :: fs)) ->
  dict_get (VDict f0) (u "properties") (VDict []) = Ok (VDict props) ->
  assoc (u "totalTime") props = None ->
  assoc (u "totalDistance") props = None ->
  exists (r : Response) (b : bundle),
    fst (TravelAPIView.get os GET w) = Ok r
    /\ status r = HTTP_200_OK
    /\ raw_car_info b = Some {| time_min := 0; distance_km := S754_zero false |}
    /\ data r =
         route_body (Some (u "약 0분")) (Some (u "0.0 km"))
           [ resolved_origin GET ++ u "에서 출발";
             u "Tmap 자동차 경로를 따라 이동 (약 0.0km)";
             resolved_destination GET ++ u " 도착" ]
           b.
Proof.
  intros Ho Hd Hk Hm G1 G2 Hr Hst Hf Hp Ht Hdist.
  rewrite (get_outcome_shaped os GET w Ho Hd Hk G1 G2).
  unfold final_response.
  set (b := final_bundle _ _ _ _ _).
  assert (Em : raw_mode b = u "car") by exact Hm.
  assert (Ec : raw_car_info b
               = Some {| time_min := 0; distance_km := S754_zero false |}).
  { subst b. unfold final_bundle. cbn [raw_car_info]. rewrite Hr.
    apply (car_try_info _ d (VDict f0) fs).
    - apply fetch_json_ok. exact Hst.
    - exact Hf.
    - unfold TravelAPIView.car_info_of. cbn [truthy getitem_0 rbind].
      rewrite Hp. cbn [rbind dict_get]. rewrite Ht, Hdist. reflexivity. }
  rewrite Em, Ec, shape_car.
  do 2 eexists. split; [reflexivity|]. split; [reflexivity|]. split; [exact Ec|].
  reflexivity.
Qed.

(** C7 (as amended).  In a [walk]-mode request that passes validation, the
    credential check and geocoding, with a [car_info] whose
    [distance_km / 4 * 60], computed in floats, is finite, the answer is a
    success with the distance of [car_info], the three walking steps and the
    duration "약 m분", where [m] is that float product with its fraction
    dropped: [|m|] is the floor of the product's magnitude [n/d] and [m] has
    the sign of the distance, so that for a non-negative distance [m] is the
    floor of the computed product ([d*m <= n < d*(m+1)]) and for a negative
    distance its ceiling ([d*(m-1) < -n <= d*m]). *)
Theorem walk_estimate_truncates (os : environ) (GET : querydict) (w : world)
  (ci : car_info_t) :
  nonempty (resolved_origin GET) = true ->
  nonempty (resolved_destination GET) = true ->
  nonempty (environ_get (TMAP_APP_KEY os) []) = true ->
  resolved_mode GET = u "walk" ->
  is_some (geocoded (nth_reply 0 w)) = true ->
  is_some (geocoded (nth_reply 1 w)) = true ->
  fst (fst (TravelAPIView.car_try (nth_reply (car_index os) w))) = Some ci ->
  is_finite (walk_product (distance_km ci)) = true ->
  exists (m : Z) (r : Response) (b : bundle),
    fst (TravelAPIView.get os GET w) = Ok r
    /\ status r = HTTP_200_OK
    /\ data r =
         route_body
           (Some (u "약 " ++ str_of_Z m ++ u "분"))
           (Some (py_repr_float (distance_km ci) ++ u " km"))
           [ resolved_origin GET ++ u "에서 도보 출발";
             u "약 " ++ py_repr_float (distance_km ci) ++ u "km 도보 이동";
             resolved_destination GET ++ u " 도착" ]
           b
    /\ raw_car_info b = Some ci
    /\ Z.abs m = fst (magnitude (walk_product (distance_km ci)))
                 / snd (magnitude (walk_product (distance_km ci)))
    /\ (m < 0 -> sign_of (distance_km ci) = true)
    /\ (sign_of (distance_km ci) = false ->
        snd (magnitude (walk_product (distance_km ci))) * m
          <= fst (magnitude (walk_product (distance_km ci)))
          < snd (magnitude (walk_product (distance_km ci))) * (m + 1))
    /\ m = (if sign_of (distance_km ci)
            then - (fst (magnitude (walk_product (distance_km ci)))
                    / snd (magnitude (walk_product (distance_km ci))))
            else fst (magnitude (walk_product (distance_km ci)))
                 / snd (magnitude (walk_product (distance_km ci))))
    /\ (sign_of (distance_km ci) = true ->
        m <= 0
        /\ snd (magnitude (walk_product (distance_km ci))) * (m - 1)
             < - fst (magnitude (walk_product (distance_km ci)))
             <= snd (magnitude (walk_product (distance_km ci))) * m).
Proof.
  intros Ho Hd Hk Hm G1 G2 Hc Hfin.
  destruct (int_of_float_finite _ Hfin) as (m & Em).
  destruct (int_of_float_trunc _ _ Em) as (Ha & Hneg & Hfloor).
  destruct (int_of_float_value _ _ Em) as (Hn0 & Hd0 & Hval).
  rewrite walk_product_sign in Hval.
  rewrite (get_outcome_shaped os GET w Ho Hd Hk G1 G2).
  unfold final_response.
  set (b := final_bundle _ _ _ _ _).
  assert (Emode : raw_mode b = u "walk") by exact Hm.
  assert (Ec : raw_car_info b = Some ci) by exact Hc.
  rewrite Emode, Ec, shape_walk.
  change (TravelAPIView.walk_minutes_of ci)
    with (int_of_float (walk_product (distance_km ci))).
  rewrite Em. cbn [rbind].
  exists m. do 2 eexists.
  split; [reflexivity|]. split; [reflexivity|]. split; [reflexivity|].
  split; [exact Ec|]. split; [exact Ha|].
  split.
  { intros Hlt. destruct (sign_of (distance_km ci)) eqn:S; [reflexivity|].
    pose proof (walk_product_nonneg _ S) as P.
    rewrite (Hneg Hlt) in P. discriminate P. }
  split; [intros S; apply Hfloor, walk_product_nonneg, S|].
  split; [exact Hval|].
  intros S. rewrite S in Hval.
  set (n := fst (magnitude (walk_product (distance_km ci)))) in *.
  set (d := snd (magnitude (walk_product (distance_km ci)))) in *.
  pose proof (Z.div_pos n d Hn0 Hd0) as Q.
  pose proof (Z.div_mod n d ltac:(lia)) as DM.
  pose proof (Z.mod_pos_bound n d Hd0) as MB.
  split; [lia|]. nia.
Qed.

End Run.

(* ===================================================================== *)
(** ** The claims on the sample data *)
(* ===================================================================== *)

(** A query without [mode] is answered like the same query with
    [mode=car]; [mode=bike] gets nulls and a note. *)
Lemma mode_default_and_unknown_witness :
  TravelAPIView.get sample_environ [(u "origin", u "A"); (u "destination", u "B")]
      (sample_world weather_reply (car_reply 2400 23456) transit_reply)
  = TravelAPIView.get sample_environ
      [(u "origin", u "A"); (u "destination", u "B"); (u "mode", u "car")]
      (sample_world weather_reply (car_reply 2400 23456) transit_reply)
  /\ exists r steps b,
       fst (TravelAPIView.get sample_environ (sample_query "bike")
              (sample_world weather_reply (car_reply 2400 23456) transit_reply))
       = Ok r
       /\ status r = HTTP_200_OK
       /\ data r = route_body None None steps b
       /\ raw_mode b = u "bike"
       /\ raw_errors b <> []
       /\ steps = []
       /\ raw_errors b = [note_no_route].
Proof.
  destruct (@mode_default_and_unknown plain_tables) as (A & B & C). split.
  - apply A.
    + intros k Hk. cbn [querydict_get].
      destruct (str_eqb k (u "mode")) eqn:E; [|reflexivity].
      apply str_eqb_eq in E. contradiction.
    + reflexivity.
    + left. reflexivity.
  - pose proof (C sample_environ (sample_query "bike")
                  (sample_world weather_reply (car_reply 2400 23456) transit_reply)
                  eq_refl eq_refl eq_refl eq_refl eq_refl eq_refl) as E.
    destruct (B sample_environ (sample_query "bike")
                (sample_world weather_reply (car_reply 2400 23456) transit_reply)
                eq_refl) as (r & steps & b & Er & S & D & M & N).
    eexists. exists []. eexists. split; [exact E|].
    split; [reflexivity|]. split; [reflexivity|]. split; [reflexivity|].
    split; [discriminate|]. split; reflexivity.
Defined.

(** C1 as stated fails: with the mode [bike], which is present and none of
    the three, the answer has no duration, while the same request with
    [mode=car] gets "약 40분". *)
Lemma unknown_mode_is_not_car :
  let w := sample_world weather_reply (car_reply 2400 23456) transit_reply in
  querydict_get (sample_query "bike") (u "mode") = Some (u "bike")
  /\ known_mode (u "bike") = false
  /\ answer (u "duration")
       (fst (TravelAPIView.get sample_environ (sample_query "car") w))
     = Some (VStr (u "약 40분"))
  /\ answer (u "duration")
       (fst (TravelAPIView.get sample_environ (sample_query "bike") w))
     = Some VNone
  /\ fst (TravelAPIView.get sample_environ (sample_query "bike") w)
     <> fst (TravelAPIView.get sample_environ (sample_query "car") w).
Proof.
  cbv zeta. split; [reflexivity|]. split; [reflexivity|].
  split; [vm_compute; reflexivity|]. split; [vm_compute; reflexivity|].
  intros E.
  apply (f_equal (answer (u "duration"))) in E. vm_compute in E. discriminate E.
Qed.

(** A 503 without JSON: no route, one note. *)
Lemma failed_drive_query_leaves_no_route_witness :
  let w := {| inbox := [Reply 503 None]; sent := [] |} in
  let after :=
    fst (TravelAPIView.car_step (u "k") float_one float_one float_one float_one
           (blank_bundle sample_environ (sample_query "car")) w) in
  raw_car_info after = None /\ raw_car_path after = []
  /\ raw_errors after = [note_car].
Proof.
  intros w after.
  apply (failed_drive_query_leaves_no_route (u "k") float_one float_one
           float_one float_one
           (blank_bundle sample_environ (sample_query "car")) w).
  left. reflexivity.
Defined.

(** C2 as stated fails: a successful reply with an empty feature list
    leaves [car_info] null and the error list without any note. *)
Lemma empty_feature_list_leaves_no_note :
  let r := Reply 200 (Some (VDict [(u "type", VStr (u "FeatureCollection"));
                                   (u "features", VList [])])) in
  let w := {| inbox := [r]; sent := [] |} in
  let after :=
    fst (TravelAPIView.car_step (u "k") float_one float_one float_one float_one
           (blank_bundle sample_environ (sample_query "car")) w) in
  no_features r = true
  /\ raw_car_info after = None
  /\ raw_errors after = []
  /\ ~ In note_car (raw_errors after).
Proof.
  cbv zeta. split; [reflexivity|]. split; [reflexivity|]. split; [reflexivity|].
  intros H. exact H.
Qed.

(** C3: the code breaks the claim.  A [walk] request whose driving reply
    reports [totalDistance = 10^311] (metres, an integer literal): the
    division and [round] stay in range, [distance_km / 4 * 60] overflows to
    infinity, and [int] raises [OverflowError] outside every [try], so the
    exception leaves [get] instead of a response. *)
Theorem walk_estimate_overflow_escapes :
  fst (TravelAPIView.get sample_environ (sample_query "walk")
         (sample_world weather_reply (car_reply 600 (10 ^ 311)) transit_reply))
  = Raise OverflowError.
Proof. vm_compute. reflexivity. Qed.

(** An origin of blanks only, with a [departure] alias that is not
    consulted. *)
Lemma missing_endpoint_stops_early_witness :
  let w := sample_world weather_reply (car_reply 2400 23456) transit_reply in
  exists r,
    TravelAPIView.get sample_environ
      [(u "origin", u "   "); (u "departure", u "A"); (u "destination", u "B")] w
    = (Ok r, w)
    /\ status r = HTTP_200_OK
    /\ field (u "duration") (data r) = Some VNone.
Proof.
  intros w.
  destruct (missing_endpoint_stops_early sample_environ
              [(u "origin", u "   "); (u "departure", u "A"); (u "destination", u "B")]
              w) as (r & H & S & D & _).
  - left. reflexivity.
  - exists r. auto.
Defined.

(** The specification's example: 2400 s and 23456 m give 40 minutes and
    23.5 km. *)
Lemma drive_route_totals_witness :
  exists ci,
    fst (fst (TravelAPIView.car_try (car_reply 2400 23456))) = Some ci
    /\ time_min ci = 40
    /\ distance_km ci = round_ratio false 235 10
    /\ py_repr_float (distance_km ci) = u "23.5".
Proof.
  destruct (drive_route_totals (car_reply 2400 23456) 200
              [(u "type", VStr (u "FeatureCollection"));
               (u "features",
                 VList [sample_feature [(u "totalDistance", VInt 23456);
                                        (u "totalTime", VInt 2400)]])]
              [(u "type", VStr (u "Feature"));
               (u "geometry",
                 VDict [(u "type", VStr (u "LineString"));
                        (u "coordinates",
                          VList [VList [VFloat (float_of_Z 127); VFloat (float_of_Z 37)];
                                 VList [VFloat (float_of_Z 128); VFloat (float_of_Z 38)]])]);
               (u "properties", VDict [(u "totalDistance", VInt 23456);
                                       (u "totalTime", VInt 2400)])]
              [(u "totalDistance", VInt 23456); (u "totalTime", VInt 2400)]
              [] (VInt 2400) (VInt 23456) 2400 23456
              (round_ratio false 23456 1000))
    as (ci & E & T & _ & D & K); try reflexivity.
  exists ci. split; [exact E|]. split; [rewrite T; reflexivity|].
  destruct (K eq_refl) as (k & Dk & Hk).
  change (Z.abs 23456) with 23456 in Hk.
  assert (k = 235) as -> by lia.
  split; [exact Dk|]. rewrite Dk. vm_compute. reflexivity.
Defined.

(** C5 as stated fails.  A [totalDistance] of 1250.9 metres is cut to 1250
    before the division, so [distance_km] is [round(1.25, 1)], that is 1.2,
    where [round(1250.9 / 1000, 1)] is 1.3.  A [totalDistance] of [10^400]
    in a successful reply gives no [car_info] at all: the division
    overflows inside the [try]. *)
Lemma drive_totals_are_cut_to_integers :
  (exists ci : car_info_t,
      fst (fst (TravelAPIView.car_try
                  (Reply 200 (Some (VDict [(u "features",
                     VList [sample_feature
                              [(u "totalDistance",
                                 VFloat (round_ratio false 12509 10));
                               (u "totalTime", VInt 2400)]])])))))
      = Some ci
      /\ py_repr_float (distance_km ci) = u "1.2")
  /\ py_repr_float (round_ratio false 12509 10) = u "1250.9"
  /\ (exists km : spec_float,
        py_truediv (VFloat (round_ratio false 12509 10)) 1000 = Ok km
        /\ py_repr_float (py_round1 km) = u "1.3")
  /\ transport_fails (car_reply 2400 (10 ^ 400)) = false
  /\ TravelAPIView.car_try (car_reply 2400 (10 ^ 400))
     = (None, [], Some OverflowError).
Proof.
  split.
  { eexists. split; [vm_compute; reflexivity|]. vm_compute. reflexivity. }
  split; [vm_compute; reflexivity|].
  split.
  { eexists. split; [vm_compute; reflexivity|]. vm_compute. reflexivity. }
  split; vm_compute; reflexivity.
Qed.


(** The specification's example: a driving distance of 8.0 km gives
    120 minutes. *)
Lemma walk_estimate_truncates_witness :
  exists r,
    fst (TravelAPIView.get sample_environ (sample_query "walk")
           (sample_world weather_reply (car_reply 600 8000) transit_reply))
    = Ok r
    /\ field (u "duration") (data r) = Some (VStr (u "약 120분"))
    /\ field (u "distance") (data r) = Some (VStr (u "8.0 km")).
Proof.
  destruct (walk_estimate_truncates sample_environ (sample_query "walk")
              (sample_world weather_reply (car_reply 600 8000) transit_reply)
              {| time_min := 10; distance_km := round_ratio false 80 10 |})
    as (m & r & b & E & _ & D & _ & _ & _ & F & _).
  1-8: vm_compute; reflexivity.
  specialize (F eq_refl).
  set (mag := magnitude _) in F. vm_compute in mag. subst mag. cbn [fst snd] in F.
  assert (m = 120) as -> by lia.
  exists r. split; [exact E|]. rewrite D. split; vm_compute; reflexivity.
Defined.

(** C7 as stated fails.  With [totalDistance = 8200] the answer shows
    "8.2 km" and 122 minutes, while [floor(8.2 / 4 * 60)] is 123: the float
    nearest to 8.2 lies below it, the float product is 122.99999999999999
    and [int] drops the fraction.  With [totalDistance = -100] the answer
    shows "-0.1 km" and -1 minute, while [floor(-0.1 / 4 * 60)] is -2:
    [int] rounds toward zero, not down. *)
Lemma walk_estimate_is_not_the_floor :
  (answer (u "distance")
     (fst (TravelAPIView.get sample_environ (sample_query "walk")
             (sample_world weather_reply (car_reply 600 8200) transit_reply)))
   = Some (VStr (u "8.2 km"))
   /\ answer (u "duration")
        (fst (TravelAPIView.get sample_environ (sample_query "walk")
                (sample_world weather_reply (car_reply 600 8200) transit_reply)))
      = Some (VStr (u "약 122분"))
   /\ py_repr_float (walk_product (round_ratio false 82 10))
      = u "122.99999999999999"
   /\ (82 * 60) / (10 * 4) = 123)
  /\ (answer (u "distance")
        (fst (TravelAPIView.get sample_environ (sample_query "walk")
                (sample_world weather_reply (car_reply 600 (-100)) transit_reply)))
      = Some (VStr (u "-0.1 km"))
      /\ answer (u "duration")
           (fst (TravelAPIView.get sample_environ (sample_query "walk")
                   (sample_world weather_reply (car_reply 600 (-100)) transit_reply)))
         = Some (VStr (u "약 -1분"))
      /\ py_repr_float (walk_product (round_ratio true 1 10)) = u "-1.5"
      /\ (-1 * 60) / (10 * 4) = -2).
Proof. repeat split; vm_compute; reflexivity. Qed.

(** C8 as stated fails: in this best match [frontLat] and [frontLon] are
    present (and empty), so they are the first present fields; the code
    passes them over and resolves the coordinate from [noorLat] and
    [noorLon]. *)
Lemma best_match_empty_front_fields :
  let d := [ (u "frontLat", VStr []); (u "frontLon", VStr []);
             (u "noorLat", VStr (u "37.5796"));
             (u "noorLon", VStr (u "126.9770")) ] in
  first_present d lat_fields = Some (VStr [])
  /\ first_present d lon_fields = Some (VStr [])
  /\ get_chain (VDict d) (u "frontLat") (u "frontlat") (u "noorLat") (u "lat")
     = Ok (VStr (u "37.5796"))
  /\ get_chain (VDict d) (u "frontLon") (u "frontlon") (u "noorLon") (u "lon")
     = Ok (VStr (u "126.9770"))
  /\ geocoded (poi_reply (VList [VDict d]))
     = Some (round_ratio false 375796 10000, round_ratio false 126977 1000).
Proof. cbv zeta. repeat split; vm_compute; reflexivity. Qed.

(** A weather request answered with a 500: the car answer is unchanged. *)
Lemma weather_failure_is_not_fatal_witness :
  exists r,
    fst (TravelAPIView.get sample_environ (sample_query "car")
           (sample_world (Reply 500 None) (car_reply 2400 23456) transit_reply))
    = Ok r
    /\ status r = HTTP_200_OK
    /\ field (u "duration") (data r) = Some (VStr (u "약 40분"))
    /\ field (u "distance") (data r) = Some (VStr (u "23.5 km")).
Proof.
  destruct (weather_failure_is_not_fatal sample_environ (sample_query "car")
              (sample_world (Reply 500 None) (car_reply 2400 23456) transit_reply)
              {| time_min := 40; distance_km := round_ratio false 235 10 |})
    as (r & b & E & S & D & _); try (vm_compute; reflexivity).
  exists r. split; [exact E|]. split; [exact S|]. rewrite D.
  split; vm_compute; reflexivity.
Defined.

(** A first feature without any property. *)
Lemma missing_totals_default_to_zero_witness :
  exists r,
    fst (TravelAPIView.get sample_environ (sample_query "car")
           (sample_world weather_reply
              (Reply 200 (Some (VDict [(u "features", VList [sample_feature []])])))
              transit_reply)) = Ok r
    /\ field (u "duration") (data r) = Some (VStr (u "약 0분"))
    /\ field (u "distance") (data r) = Some (VStr (u "0.0 km")).
Proof.
  destruct (missing_totals_default_to_zero sample_environ (sample_query "car")
              (sample_world weather_reply
                 (Reply 200 (Some (VDict [(u "features", VList [sample_feature []])])))
                 transit_reply)
              200 [(u "features", VList [sample_feature []])]
              [(u "type", VStr (u "Feature"));
               (u "geometry",
                 VDict [(u "type", VStr (u "LineString"));
                        (u "coordinates",
                          VList [VList [VFloat (float_of_Z 127); VFloat (float_of_Z 37)];
                                 VList [VFloat (float_of_Z 128); VFloat (float_of_Z 38)]])]);
               (u "properties", VDict [])]
              [] [])
    as (r & b & E & S & C & D); try (vm_compute; reflexivity).
  exists r. split; [exact E|]. rewrite D. split; reflexivity.
Defined.

(** C10 as stated fails.  A first feature with ["properties": null] carries
    no totals either, but [.get] is then called on [None]: the driving step
    raises [AttributeError], [car_info] stays null and the [car]-mode
    request gets the no-route answer with the driving note. *)
Lemma null_properties_fail_the_driving_step :
  TravelAPIView.car_try
    (Reply 200 (Some (VDict [(u "features",
                               VList [VDict [(u "properties", VNone)]])])))
  = (None, [], Some AttributeError)
  /\ exists r : Response,
       fst (TravelAPIView.get sample_environ (sample_query "car")
              (sample_world weather_reply
                 (Reply 200 (Some (VDict [(u "features",
                                            VList [VDict [(u "properties", VNone)]])])))
                 transit_reply)) = Ok r
       /\ field (u "duration") (data r) = Some VNone
       /\ field (u "distance") (data r) = Some VNone
       /\ raw_field (u "car_info") r = Some VNone
       /\ raw_field (u "errors") r
          = Some (VList [ VStr (u "자동차 경로 조회 실패");
                          VStr (u "적절한 경로를 찾지 못했습니다.") ]).
Proof.
  split; [vm_compute; reflexivity|].
  eexists. split; [vm_compute; reflexivity|].
  split; [vm_compute; reflexivity|].
  split; [vm_compute; reflexivity|].
  split; vm_compute; reflexivity.
Qed.

(* ===================================================================== *)
(** ** Further properties of the handler *)
(* ===================================================================== *)

(** *** Helper facts *)

Section Requests.
Context {ucd : UnicodeData}.

Lemma iter_tl_skipn {A : Type} (n : nat) (l : list A) :
  Nat.iter n (@tl A) l = skipn n l.
Proof.
  revert l; induction n as [|n IH]; intros l; [reflexivity|].
  rewrite Nat.iter_succ_r. destruct l as [|x l]; [|apply IH].
  cbn [tl skipn]. clear IH. induction n as [|n IHn]; [reflexivity|].
  rewrite Nat.iter_succ_r. exact IHn.
Qed.

Ltac finish_world :=
  erewrite bind_eq by apply car_step_eq;
  erewrite bind_eq by apply transit_step_eq;
  cbn [inbox sent];
  destruct (TravelAPIView.shape _ _ _ _ _ _) as [[[[?|] ?] ?]|?];
  cbn [ret snd]; rewrite <- ?app_assoc; reflexivity.

(** The handler leaves the network as [get_world] says. *)
Lemma get_world_eq (os : environ) (GET : querydict) (w : world) :
  snd (TravelAPIView.get os GET w) = get_world os GET w.
Proof.
  unfold TravelAPIView.get, get_world.
  fold (resolved_origin GET) (resolved_destination GET) (resolved_mode GET).
  destruct (nonempty (resolved_origin GET) && nonempty (resolved_destination GET))
    eqn:Hv; cbn [negb]; [|reflexivity].
  apply andb_true_iff in Hv. destruct Hv as [Ho Hd].
  destruct (nonempty (environ_get (TMAP_APP_KEY os) [])) eqn:Hk;
    cbn [negb]; [|reflexivity].
  erewrite bind_eq by (apply tmap_geocode_eq; assumption).
  erewrite bind_eq by (apply tmap_geocode_eq; assumption).
  cbn [inbox sent].
  unfold nth_reply.
  rewrite <- (hd_tl_nth 0), <- (hd_tl_nth 1). cbn [Nat.iter nat_rect].
  rewrite <- !iter_tl_skipn. cbn [Nat.iter nat_rect].
  unfold poi_requests, route_requests.
  destruct (geocoded (hd NoReply (inbox w))) as [[dep_lat dep_lng]|];
  destruct (geocoded (hd NoReply (tl (inbox w)))) as [[dest_lat dest_lng]|];
    try (cbn [ret snd]; rewrite <- ?app_assoc; reflexivity).
  unfold car_index. cbn [fst snd].
  destruct (nonempty (environ_get (OPENWEATHER_API_KEY os) [])) eqn:Hw;
    (erewrite bind_eq by (rewrite weather_step_eq, Hw; reflexivity));
    cbn [Nat.iter nat_rect inbox sent]; finish_world.
Qed.

End Requests.

Section Fields.
Context {ucd : UnicodeData}.

Lemma str_eqb_neq (a b : str) : a <> b -> str_eqb a b = false.
Proof.
  intros H. destruct (str_eqb a b) eqn:E; [|reflexivity].
  apply str_eqb_eq in E. contradiction.
Qed.

(** Outside ["raw"], a body shows only [duration], [distance] and [steps]. *)
Lemma route_body_field (k : str) (du di : option str) (st : list str)
  (b b' : bundle) :
  k <> u "raw" ->
  field k (route_body du di st b) = field k (route_body du di st b').
Proof.
  intros H. unfold route_body, field. cbn [assoc].
  rewrite (str_eqb_neq _ _ H). reflexivity.
Qed.

(** Two debug bundles show the same value under a key when they agree on
    the field behind it. *)
Lemma bundle_value_field (k : str) (b b' : bundle) :
  (k = u "kakao_js_key" -> raw_kakao_js_key b = raw_kakao_js_key b') ->
  (k = u "departure" -> raw_departure b = raw_departure b') ->
  (k = u "destination" -> raw_destination b = raw_destination b') ->
  (k = u "mode" -> raw_mode b = raw_mode b') ->
  (k = u "weather" -> raw_weather b = raw_weather b') ->
  (k = u "car_info" -> raw_car_info b = raw_car_info b') ->
  (k = u "transit_info" -> raw_transit_info b = raw_transit_info b') ->
  (k = u "car_path" -> raw_car_path b = raw_car_path b') ->
  (k = u "transit_steps" -> raw_transit_steps b = raw_transit_steps b') ->
  (k = u "errors" -> raw_errors b = raw_errors b') ->
  field k (bundle_value b) = field k (bundle_value b').
Proof.
  intros H1 H2 H3 H4 H5 H6 H7 H8 H9 H10.
  unfold bundle_value, field. cbn [assoc].
  destruct (str_eqb k (u "kakao_js_key")) eqn:E1;
    [apply str_eqb_eq in E1; rewrite (H1 E1); reflexivity|].
  destruct (str_eqb k (u "departure")) eqn:E2;
    [apply str_eqb_eq in E2; rewrite (H2 E2); reflexivity|].
  destruct (str_eqb k (u "destination")) eqn:E3;
    [apply str_eqb_eq in E3; rewrite (H3 E3); reflexivity|].
  destruct (str_eqb k (u "mode")) eqn:E4;
    [apply str_eqb_eq in E4; rewrite (H4 E4); reflexivity|].
  destruct (str_eqb k (u "weather")) eqn:E5;
    [apply str_eqb_eq in E5; rewrite (H5 E5); reflexivity|].
  destruct (str_eqb k (u "car_info")) eqn:E6;
    [apply str_eqb_eq in E6; rewrite (H6 E6); reflexivity|].
  destruct (str_eqb k (u "transit_info")) eqn:E7;
    [apply str_eqb_eq in E7; rewrite (H7 E7); reflexivity|].
  destruct (str_eqb k (u "car_path")) eqn:E8;
    [apply str_eqb_eq in E8; rewrite (H8 E8); reflexivity|].
  destruct (str_eqb k (u "transit_steps")) eqn:E9;
    [apply str_eqb_eq in E9; rewrite (H9 E9); reflexivity|].
  destruct (str_eqb k (u "errors")) eqn:E10;
    [apply str_eqb_eq in E10; rewrite (H10 E10); reflexivity|].
  reflexivity.
Qed.

Lemma raw_field_body (k : str) (du di : option str) (st : list str)
  (b : bundle) (s : Z) :
  raw_field k {| data := route_body du di st b; status := s |}
  = field k (bundle_value b).
Proof. reflexivity. Qed.

End Fields.

Section Finite.
Context {ucd : UnicodeData}.

Lemma round_ratio_not_nan (s : bool) (a b : Z) : round_ratio s a b <> S754_nan.
Proof.
  unfold round_ratio. destruct (a <=? 0); [discriminate|].
  destruct (scaled_rne a b _ =? 2 ^ 53).
  - change (2 ^ 52) with (Z.pos 4503599627370496).
    destruct (_ >? 971); discriminate.
  - destruct (scaled_rne a b _); try discriminate.
    destruct (_ >? 971); discriminate.
Qed.

Lemma py_round1_not_nan (x : spec_float) :
  x <> S754_nan -> py_round1 x <> S754_nan.
Proof.
  destruct x as [s|s| |s m e]; cbn [py_round1]; try (intros H; exact H).
  intros _. destruct (magnitude (S754_finite s m e)) as [n d].
  apply round_ratio_not_nan.
Qed.

Lemma int_truediv_finite (n d : Z) (km : spec_float) :
  int_truediv n d = Ok km -> is_finite km = true.
Proof.
  unfold int_truediv.
  destruct (is_finite (round_ratio _ _ _)) eqn:F; [|discriminate].
  intros [= <-]. exact F.
Qed.

Lemma is_finite_not_nan (x : spec_float) : is_finite x = true -> x <> S754_nan.
Proof. destruct x; try discriminate; intros _; discriminate. Qed.

Lemma car_info_of_not_nan (features : pyval) (ci : car_info_t) :
  TravelAPIView.car_info_of features = Ok (Some ci) ->
  distance_km ci <> S754_nan.
Proof.
  unfold TravelAPIView.car_info_of.
  destruct (truthy features); [|discriminate].
  destruct (getitem_0 features) as [f0|]; [|discriminate]. cbn [rbind].
  destruct (dict_get f0 _ _) as [props0|]; [|discriminate]. cbn [rbind].
  destruct (dict_get props0 (u "totalTime") _) as [t|]; [|discriminate].
  cbn [rbind].
  destruct (py_int t) as [total_time|]; [|discriminate]. cbn [rbind].
  destruct (dict_get props0 (u "totalDistance") _) as [d|]; [|discriminate].
  cbn [rbind].
  destruct (py_int d) as [total_distance|]; [|discriminate]. cbn [rbind].
  destruct (int_truediv total_distance 1000) as [km|] eqn:K; [|discriminate].
  cbn [rbind]. intros [= <-]. cbn [distance_km].
  apply py_round1_not_nan, is_finite_not_nan, (int_truediv_finite _ _ _ K).
Qed.

(** [car_info], when there is one, comes from [car_info_of]. *)
Lemma car_try_info_inv (r : reply) (ci : car_info_t) :
  fst (fst (TravelAPIView.car_try r)) = Some ci ->
  exists features, TravelAPIView.car_info_of features = Ok (Some ci).
Proof.
  unfold TravelAPIView.car_try.
  destruct (rbind (fetch_json r) _) as [features|e]; [|discriminate].
  destruct (TravelAPIView.car_info_of features) as [o|e] eqn:E; [|discriminate].
  destruct (py_iter features) as [fs|e].
  - destruct (TravelAPIView.collect_path fs []) as [p e]. cbn [fst].
    intros ->. exists features. exact E.
  - cbn [fst]. intros ->. exists features. exact E.
Qed.

Lemma walk_product_not_nan (km : spec_float) :
  km <> S754_nan -> walk_product km <> S754_nan.
Proof.
  intros H. unfold walk_product.
  assert (Q : fdiv km (float_of_Z 4) <> S754_nan).
  { change (float_of_Z 4) with (S754_finite false 4503599627370496 (-50)).
    unfold fdiv, SFdiv. destruct km as [s|s| |s m e]; try discriminate.
    - contradiction.
    - pose proof (SFdiv_core_binary_nonneg m 4503599627370496 e (-50)) as N.
      destruct (SFdiv_core_binary _ _ _ _ _ _) as [[mz ez] lz].
      apply binary_round_aux_not_nan. exact N. }
  change (float_of_Z 60) with (S754_finite false 8444249301319680 (-47)).
  unfold fmul, SFmul.
  destruct (fdiv km (float_of_Z 4)) as [s|s| |s m e]; try discriminate.
  - contradiction.
  - apply binary_round_aux_not_nan. lia.
Qed.

Lemma int_of_float_raises (x : spec_float) (e : exn) :
  int_of_float x = Raise e -> x <> S754_nan ->
  e = OverflowError /\ is_finite x = false.
Proof.
  destruct x as [s|s| |s m ex]; cbn [int_of_float]; try discriminate.
  - intros [= <-] _. split; reflexivity.
  - intros _ H. contradiction.
  - destruct (magnitude _); discriminate.
Qed.

Lemma notes_apart :
  note_weather <> note_no_route /\ note_car <> note_no_route
  /\ note_transit <> note_no_route.
Proof. repeat split; intros E; vm_compute in E; discriminate E. Qed.

End Finite.

Section Strip.

Lemma lstrip_blanks (a x : str) :
  forallb is_space a = true -> lstrip (a ++ x) = lstrip x.
Proof.
  induction a as [|c a IH]; [reflexivity|].
  cbn [forallb app lstrip]. intros H. apply andb_true_iff in H.
  destruct H as [-> H]. apply IH, H.
Qed.

Lemma forallb_reversed {A : Type} (f : A -> bool) (l : list A) :
  forallb f l = true -> forallb f (rev l) = true.
Proof.
  rewrite !forallb_forall. intros H x Hx. apply H, in_rev, Hx.
Qed.

Lemma rstrip_blanks (x b : str) :
  forallb is_space b = true -> rstrip (x ++ b) = rstrip x.
Proof.
  intros H. unfold rstrip. rewrite rev_app_distr.
  rewrite (lstrip_blanks _ _ (forallb_reversed _ _ H)). reflexivity.
Qed.

Lemma strip_blanks_after (m b : str) :
  forallb is_space b = true -> strip (m ++ b) = strip m.
Proof.
  intros H. unfold strip. induction m as [|c m IH].
  - cbn [app]. rewrite <- (app_nil_r b), (lstrip_blanks b [] H). reflexivity.
  - cbn [app lstrip]. destruct (is_space c); [exact IH|].
    exact (rstrip_blanks (c :: m) b H).
Qed.

(** [strip] ignores the blanks around a text. *)
Lemma strip_padded (s s' : str) : padded s s' -> strip s' = strip s.
Proof.
  intros (a & b & Ha & Hb & ->).
  unfold strip at 1. rewrite (lstrip_blanks a _ Ha).
  exact (strip_blanks_after s b Hb).
Qed.

Lemma strip_blank (s : str) : forallb is_space s = true -> strip s = [].
Proof.
  intros H. unfold strip. rewrite <- (app_nil_r s), (lstrip_blanks s [] H).
  reflexivity.
Qed.

Lemma padded_nonempty (s s' : str) : padded s s' -> s <> [] -> s' <> [].
Proof.
  intros (a & b & _ & _ & ->) H E.
  apply app_eq_nil in E. destruct E as [_ E].
  apply app_eq_nil in E. destruct E as [E _]. contradiction.
Qed.

End Strip.

Section Decimal.
Context {ucd : UnicodeData}.

(** The digits of a natural number: ASCII digits that spell it, without a
    leading zero. *)
Lemma digits_fuel_spec (f : nat) (n : Z) (acc : str) :
  0 <= n < 2 ^ Z.of_nat f -> (1 <= f)%nat ->
  exists ds : str,
    digits_fuel f n acc = ds ++ acc
    /\ ds <> []
    /\ forallb is_digit ds = true
    /\ 10 ^ (Z.of_nat (length ds) - 1) <= Z.max n 1
    /\ forall a : Z,
         fold_left (fun acc c => acc * 10 + (Z.of_N c - 48)) ds a
         = a * 10 ^ Z.of_nat (length ds) + n.
Proof.
  revert n acc. induction f as [|f IH]; intros n acc Hn Hf; [lia|].
  cbn [digits_fuel].
  assert (Hm : 0 <= n mod 10 < 10) by (apply Z.mod_pos_bound; lia).
  assert (Hc : is_digit (Z.to_N (48 + n mod 10)) = true).
  { unfold is_digit. apply andb_true_iff. split; apply N.leb_le; lia. }
  assert (Hv : Z.of_N (Z.to_N (48 + n mod 10)) - 48 = n mod 10) by lia.
  destruct (Z.ltb_spec n 10) as [L|L].
  - exists [Z.to_N (48 + n mod 10)]. split; [reflexivity|].
    split; [discriminate|]. split; [cbn [forallb]; rewrite Hc; reflexivity|].
    split; [cbn [length]; change (10 ^ (Z.of_nat 1 - 1)) with 1; lia|].
    intros a. cbn [fold_left length]. rewrite Hv, Z.mod_small by lia.
    change (10 ^ Z.of_nat 1) with 10. reflexivity.
  - assert (Hq : 0 <= n / 10 < 2 ^ Z.of_nat f).
    { split; [apply Z.div_pos; lia|].
      apply Z.div_lt_upper_bound; [lia|].
      rewrite Nat2Z.inj_succ, Z.pow_succ_r in Hn by lia. lia. }
    assert (Hq1 : 1 <= n / 10) by (apply Z.div_le_lower_bound; lia).
    assert (Hf' : (1 <= f)%nat).
    { destruct f; [|lia]. cbn in Hq. lia. }
    destruct (IH (n / 10) (Z.to_N (48 + n mod 10) :: acc) Hq Hf')
      as (ds & E & Hne & Hd & Hlen & Hfold).
    exists (ds ++ [Z.to_N (48 + n mod 10)]). rewrite E, <- app_assoc.
    split; [reflexivity|]. split; [destruct ds; discriminate|].
    split; [rewrite forallb_app, Hd; cbn [forallb]; rewrite Hc; reflexivity|].
    pose proof (Z.div_mod n 10 ltac:(lia)) as Hdm.
    split.
    + rewrite length_app, Nat2Z.inj_add. cbn [length].
      assert (Hl : 1 <= Z.of_nat (length ds)) by (destruct ds; [contradiction|cbn [length]; lia]).
      replace (Z.of_nat (length ds) + Z.of_nat 1 - 1)
        with (Z.succ (Z.of_nat (length ds) - 1)) by lia.
      rewrite Z.pow_succ_r by lia. lia.
    + intros a. rewrite fold_left_app, Hfold. cbn [fold_left].
      rewrite Hv, length_app, Nat2Z.inj_add, Z.pow_add_r by lia.
      cbn [length]. change (10 ^ Z.of_nat 1) with 10. lia.
Qed.

Lemma digits_of_spec (n : Z) :
  0 <= n ->
  digits_of n <> []
  /\ forallb is_digit (digits_of n) = true
  /\ 10 ^ (Z.of_nat (length (digits_of n)) - 1) <= Z.max n 1
  /\ number_of (digits_of n) = n.
Proof.
  intros Hn. unfold digits_of.
  destruct (digits_fuel_spec (S (Z.to_nat (Z.log2 n))) n [])
    as (ds & E & Hne & Hd & Hlen & Hf).
  - split; [exact Hn|]. rewrite Nat2Z.inj_succ, Z2Nat.id by apply Z.log2_nonneg.
    destruct (Z.eq_dec n 0) as [->|Hz]; [cbn; lia|].
    apply Z.log2_spec. lia.
  - lia.
  - rewrite E, app_nil_r. split; [exact Hne|]. split; [exact Hd|].
    split; [exact Hlen|]. unfold number_of. rewrite Hf. lia.
Qed.

(** A number below [10^max_str_digits] has at most [max_str_digits]
    digits. *)
Lemma digits_of_fit (n : Z) :
  0 <= n < 10 ^ max_str_digits ->
  (max_str_digits <? Z.of_nat (length (digits_of n))) = false.
Proof.
  intros Hn. destruct (digits_of_spec n ltac:(lia)) as (_ & _ & Hlen & _).
  apply Z.ltb_ge.
  assert (H1 : 1 < 10 ^ max_str_digits).
  { apply Z.pow_gt_1; unfold max_str_digits; lia. }
  assert (H : 10 ^ (Z.of_nat (length (digits_of n)) - 1) < 10 ^ max_str_digits)
    by lia.
  destruct (Z.le_gt_cases (Z.of_nat (length (digits_of n))) max_str_digits)
    as [Le|Gt]; [exact Le|].
  exfalso.
  assert (10 ^ max_str_digits <= 10 ^ (Z.of_nat (length (digits_of n)) - 1)).
  { apply Z.pow_le_mono_r; unfold max_str_digits in *; lia. }
  lia.
Qed.

Lemma is_digit_ascii (c : N) : is_digit c = true -> to_ascii c = c.
Proof.
  unfold is_digit, to_ascii. intros H. apply andb_true_iff in H.
  destruct H as [_ H]. apply N.leb_le in H.
  destruct (N.ltb_spec c 127); [reflexivity|lia].
Qed.

Lemma map_to_ascii_digits (ds : str) :
  forallb is_digit ds = true -> map to_ascii ds = ds.
Proof.
  induction ds as [|c ds IH]; [reflexivity|].
  cbn [forallb map]. intros H. apply andb_true_iff in H. destruct H as [Hc H].
  rewrite (is_digit_ascii c Hc), (IH H). reflexivity.
Qed.

Lemma is_digit_not_blank (c : N) : is_digit c = true -> is_ascii_space c = false.
Proof.
  unfold is_digit, is_ascii_space. intros H. apply andb_true_iff in H.
  destruct H as [H1 H2]. apply N.leb_le in H1, H2.
  apply orb_false_iff. split.
  - apply andb_false_iff. right. apply N.leb_gt. lia.
  - apply N.eqb_neq. lia.
Qed.

(** A text that starts and ends with a non-blank character is its own
    [strip_ascii]. *)
Lemma lstrip_ascii_head (c : N) (s : str) :
  is_ascii_space c = false -> lstrip_ascii (c :: s) = c :: s.
Proof. intros H. cbn [lstrip_ascii]. rewrite H. reflexivity. Qed.

Lemma strip_ascii_digits (c : N) (ds : str) :
  is_ascii_space c = false -> forallb is_digit ds = true ->
  strip_ascii (c :: ds) = c :: ds.
Proof.
  intros Hc Hd. unfold strip_ascii. rewrite (lstrip_ascii_head c ds Hc).
  destruct (rev (c :: ds)) as [|x xs] eqn:E.
  - apply (f_equal (@rev N)) in E. rewrite rev_involutive in E. exact (eq_sym E).
  - assert (Hx : is_ascii_space x = false).
    { assert (In x (c :: ds)) by (apply in_rev; rewrite E; left; reflexivity).
      destruct H as [<-|H]; [exact Hc|].
      apply is_digit_not_blank.
      rewrite forallb_forall in Hd. apply Hd, H. }
    rewrite (lstrip_ascii_head x xs Hx), <- E. apply rev_involutive.
Qed.

Lemma drop_underscores_digits (prev : N) (ds : str) :
  (prev =? 95)%N = false -> forallb is_digit ds = true ->
  drop_underscores prev ds = Some ds.
Proof.
  revert prev. induction ds as [|c ds IH]; intros prev Hp Hd.
  - cbn [drop_underscores]. rewrite Hp. reflexivity.
  - cbn [forallb] in Hd. apply andb_true_iff in Hd. destruct Hd as [Hc Hd].
    assert (Hu : (c =? 95)%N = false).
    { unfold is_digit in Hc. apply andb_true_iff in Hc. destruct Hc as [_ Hc].
      apply N.leb_le in Hc. apply N.eqb_neq. lia. }
    cbn [drop_underscores]. rewrite Hu, Hp. cbn [andb].
    rewrite (IH c Hu Hd). reflexivity.
Qed.

Lemma span_digits_all (ds : str) :
  forallb is_digit ds = true -> span_digits ds = (ds, []).
Proof.
  induction ds as [|c ds IH]; [reflexivity|].
  cbn [forallb span_digits]. intros H. apply andb_true_iff in H.
  destruct H as [-> H]. rewrite (IH H). reflexivity.
Qed.

(** [int(str(n)) == n], for a number of at most [max_str_digits] digits. *)
Lemma int_of_str_of_Z (n : Z) :
  Z.abs n < 10 ^ max_str_digits -> int_of_str (str_of_Z n) = Ok n.
Proof.
  intros Hfit. unfold str_of_Z, int_of_str.
  destruct (Z.ltb_spec n 0) as [L|L].
  - destruct (digits_of_spec (- n) ltac:(lia)) as (Hne & Hd & _ & Hn).
    pose proof (digits_of_fit (- n) ltac:(lia)) as Hlim.
    assert (Hs : to_ascii 45 = 45%N) by reflexivity.
    cbn [map]. rewrite Hs, (map_to_ascii_digits _ Hd).
    rewrite (strip_ascii_digits 45 _ eq_refl Hd).
    cbn [drop_underscores N.eqb Pos.eqb andb is_digit].
    change (45 =? 95)%N with false. change (0 =? 95)%N with false.
    cbn [andb]. rewrite (drop_underscores_digits 45 _ eq_refl Hd).
    cbn [option_map take_sign]. rewrite (span_digits_all _ Hd).
    destruct (digits_of (- n)) as [|c ds]; [contradiction|].
    rewrite Hlim, Hn. f_equal. lia.
  - destruct (digits_of_spec n L) as (Hne & Hd & _ & Hn).
    pose proof (digits_of_fit n ltac:(lia)) as Hlim.
    rewrite (map_to_ascii_digits _ Hd).
    destruct (digits_of n) as [|c ds] eqn:E; [contradiction|].
    assert (Hc : is_digit c = true).
    { cbn [forallb] in Hd. apply andb_true_iff in Hd. tauto. }
    assert (Hds : forallb is_digit ds = true).
    { cbn [forallb] in Hd. apply andb_true_iff in Hd. tauto. }
    rewrite (strip_ascii_digits c ds (is_digit_not_blank c Hc) Hds).
    rewrite (drop_underscores_digits 0 (c :: ds) eq_refl Hd).
    assert (Hsign : take_sign (c :: ds) = (false, c :: ds)).
    { unfold is_digit in Hc. apply andb_true_iff in Hc. destruct Hc as [H1 H2].
      apply N.leb_le in H1, H2. unfold take_sign.
      destruct c as [|p]; [reflexivity|].
      repeat (destruct p as [p|p|]; try reflexivity); exfalso; lia. }
    rewrite Hsign, (span_digits_all _ Hd), Hlim, Hn. reflexivity.
Qed.

Lemma number_of_bound (l : str) :
  forallb is_digit l = true -> 0 <= number_of l < 10 ^ Z.of_nat (length l).
Proof.
  intros Hl. unfold number_of.
  assert (G : forall a, 0 <= a ->
            0 <= fold_left (fun acc c => acc * 10 + (Z.of_N c - 48)) l a
            < (a + 1) * 10 ^ Z.of_nat (length l)).
  { induction l as [|x l IH]; intros a Ha.
    - cbn. lia.
    - cbn [forallb] in Hl. apply andb_true_iff in Hl.
      destruct Hl as [Hx Hl]. unfold is_digit in Hx.
      apply andb_true_iff in Hx. destruct Hx as [X1 X2].
      apply N.leb_le in X1, X2.
      cbn [fold_left length]. rewrite Nat2Z.inj_succ, Z.pow_succ_r by lia.
      destruct (IH Hl (a * 10 + (Z.of_N x - 48)) ltac:(lia)) as [I1 I2].
      split; [exact I1|].
      assert (0 < 10 ^ Z.of_nat (length l)) by (apply Z.pow_pos_nonneg; lia).
      nia. }
  specialize (G 0 ltac:(lia)). rewrite Z.add_0_l, Z.mul_1_l in G. exact G.
Qed.

(** A text of more than [max_str_digits] digits is not converted. *)
Lemma int_of_str_too_long (n : Z) :
  10 ^ max_str_digits <= n -> int_of_str (str_of_Z n) = Raise ValueError.
Proof.
  intros Hbig.
  assert (P : 0 < 10 ^ max_str_digits)
    by (apply Z.pow_pos_nonneg; unfold max_str_digits; lia).
  unfold str_of_Z, int_of_str.
  destruct (Z.ltb_spec n 0) as [L|L]; [lia|].
  destruct (digits_of_spec n L) as (Hne & Hd & _ & Hn).
  pose proof (number_of_bound _ Hd) as B. rewrite Hn in B.
  rewrite (map_to_ascii_digits _ Hd).
  destruct (digits_of n) as [|c ds] eqn:E; [contradiction|].
  assert (Hc : is_digit c = true).
  { cbn [forallb] in Hd. apply andb_true_iff in Hd. tauto. }
  assert (Hds : forallb is_digit ds = true).
  { cbn [forallb] in Hd. apply andb_true_iff in Hd. tauto. }
  rewrite (strip_ascii_digits c ds (is_digit_not_blank c Hc) Hds).
  rewrite (drop_underscores_digits 0 (c :: ds) eq_refl Hd).
  assert (Hsign : take_sign (c :: ds) = (false, c :: ds)).
  { unfold is_digit in Hc. apply andb_true_iff in Hc. destruct Hc as [H1 H2].
    apply N.leb_le in H1, H2. unfold take_sign.
    destruct c as [|p]; [reflexivity|].
    repeat (destruct p as [p|p|]; try reflexivity); exfalso; lia. }
  rewrite Hsign, (span_digits_all _ Hd).
  assert (Hlong : (max_str_digits <? Z.of_nat (length (c :: ds))) = true).
  { apply Z.ltb_lt.
    destruct (Z.le_gt_cases (Z.of_nat (length (c :: ds))) max_str_digits)
      as [Le|Gt]; [|lia].
    exfalso.
    assert (10 ^ Z.of_nat (length (c :: ds)) <= 10 ^ max_str_digits)
      by (apply Z.pow_le_mono_r; lia).
    lia. }
  rewrite Hlong. reflexivity.
Qed.

End Decimal.

(** *** The paths through the handler and the requests they send *)

Section Paths.
Context {ucd : UnicodeData}.

(** X1.  With both endpoints given but no Tmap key configured (the variable
    unset or empty), the handler answers at once: no request is sent and no
    reply consumed; the status is the success status, [duration] and
    [distance] are null, [steps] holds the three lines of guidance and the
    error list holds the missing-key note. *)
Theorem missing_credential_stops_early (os : environ) (GET : querydict)
  (w : world) :
  nonempty (resolved_origin GET) = true ->
  nonempty (resolved_destination GET) = true ->
  nonempty (environ_get (TMAP_APP_KEY os) []) = false ->
  exists r : Response,
    TravelAPIView.get os GET w = (Ok r, w)
    /\ status r = HTTP_200_OK
    /\ field (u "duration") (data r) = Some VNone
    /\ field (u "distance") (data r) = Some VNone
    /\ field (u "steps") (data r)
       = Some (VList [ VStr (u "TMAP_APP_KEY가 서버 환경변수에 설정되지 않았습니다.");
                       VStr (u "settings.py 또는 .env에서 TMAP_APP_KEY를 설정해 주세요.");
                       VStr (u "API 키가 설정되면 실제 Tmap 경로가 표시됩니다.") ])
    /\ exists raw, field (u "raw") (data r) = Some raw
         /\ field (u "errors") raw = Some (VList [VStr note_no_key]).
Proof.
  intros Ho Hd Hk. unfold TravelAPIView.get.
  fold (resolved_origin GET) (resolved_destination GET) (resolved_mode GET).
  rewrite Ho, Hd, Hk. cbn [andb negb]. unfold ret.
  eexists; split; [reflexivity|].
  repeat split.
  eexists; split; reflexivity.
Qed.

(** X2.  When validation and the credential check pass but a place is not
    resolved, both places have been looked up all the same (the departure
    first) and nothing else is requested; the answer has the success
    status, null [duration] and [distance], no steps, and an error list
    that names exactly the unresolved places, the departure before the
    destination; the rest of the debug bundle is as first built. *)
Theorem unresolved_places_are_reported (os : environ) (GET : querydict)
  (w : world) :
  nonempty (resolved_origin GET) = true ->
  nonempty (resolved_destination GET) = true ->
  nonempty (environ_get (TMAP_APP_KEY os) []) = true ->
  geocoded (nth_reply 0 w) = None \/ geocoded (nth_reply 1 w) = None ->
  sent (snd (TravelAPIView.get os GET w))
    = sent w ++ [ PoiSearch (environ_get (TMAP_APP_KEY os) []) (resolved_origin GET);
                  PoiSearch (environ_get (TMAP_APP_KEY os) [])
                    (resolved_destination GET) ]
  /\ inbox (snd (TravelAPIView.get os GET w)) = skipn 2 (inbox w)
  /\ exists (r : Response) (b : bundle),
       fst (TravelAPIView.get os GET w) = Ok r
       /\ status r = HTTP_200_OK
       /\ data r = route_body None None [] b
       /\ raw_errors b
          = (if is_some (geocoded (nth_reply 0 w)) then []
             else [u "'" ++ resolved_origin GET ++ u "' 좌표 변환 실패"])
            ++ (if is_some (geocoded (nth_reply 1 w)) then []
                else [u "'" ++ resolved_destination GET ++ u "' 좌표 변환 실패"])
       /\ raw_weather b = VNone
       /\ raw_car_info b = None
       /\ raw_transit_info b = None
       /\ raw_car_path b = []
       /\ raw_transit_steps b = [].
Proof.
  intros Ho Hd Hk Hg.
  rewrite get_world_eq, get_outcome_eq. unfold get_world, get_outcome.
  rewrite Ho, Hd, Hk. cbn [andb negb].
  assert (E : is_some (geocoded (nth_reply 0 w))
              && is_some (geocoded (nth_reply 1 w)) = false).
  { destruct Hg as [-> | ->]; [reflexivity|]. apply andb_false_r. }
  rewrite E.
  split; [|split].
  - destruct (geocoded (nth_reply 0 w)) as [dep|],
             (geocoded (nth_reply 1 w)) as [dest|];
      try reflexivity. discriminate E.
  - destruct (geocoded (nth_reply 0 w)) as [dep|],
             (geocoded (nth_reply 1 w)) as [dest|];
      try reflexivity. discriminate E.
  - do 2 eexists. split; [reflexivity|]. split; [reflexivity|].
    split; [reflexivity|].
    unfold geocoding_bundle, note_geocode.
    destruct (is_some (geocoded (nth_reply 0 w))),
             (is_some (geocoded (nth_reply 1 w))); repeat split.
Qed.

(** X3.  When both places are resolved, the handler sends, after the two
    lookups and whatever the mode: the weather request for the
    destination's coordinates (only with a weather key configured), then
    the driving request and the transit request, both with the departure's
    longitude and latitude as [startX] and [startY] and the destination's
    as [endX] and [endY], written as [str] writes floats.  It consumes one
    reply per request. *)
Theorem route_requests_in_order (os : environ) (GET : querydict) (w : world)
  (dep_lat dep_lng dest_lat dest_lng : spec_float) :
  nonempty (resolved_origin GET) = true ->
  nonempty (resolved_destination GET) = true ->
  nonempty (environ_get (TMAP_APP_KEY os) []) = true ->
  geocoded (nth_reply 0 w) = Some (dep_lat, dep_lng) ->
  geocoded (nth_reply 1 w) = Some (dest_lat, dest_lng) ->
  let key := environ_get (TMAP_APP_KEY os) [] in
  let openweather_key := environ_get (OPENWEATHER_API_KEY os) [] in
  sent (snd (TravelAPIView.get os GET w))
    = sent w
      ++ [ PoiSearch key (resolved_origin GET);
           PoiSearch key (resolved_destination GET) ]
      ++ (if nonempty openweather_key
          then [Weather dest_lat dest_lng openweather_key] else [])
      ++ [ CarRoute key (py_repr_float dep_lng) (py_repr_float dep_lat)
             (py_repr_float dest_lng) (py_repr_float dest_lat);
           TransitRoute key (py_repr_float dep_lng) (py_repr_float dep_lat)
             (py_repr_float dest_lng) (py_repr_float dest_lat) ]
  /\ inbox (snd (TravelAPIView.get os GET w))
     = skipn (if nonempty openweather_key then 5 else 4) (inbox w).
Proof.
  intros Ho Hd Hk G1 G2 key openweather_key.
  rewrite get_world_eq. unfold get_world.
  rewrite Ho, Hd, Hk, G1, G2. cbn [andb negb inbox sent].
  split; [reflexivity|].
  unfold car_index. fold openweather_key.
  destruct (nonempty openweather_key); reflexivity.
Qed.

End Paths.

(** *** What has no influence on what *)

Section Independence.
Context {ucd : UnicodeData}.

(** What the shaping reads of the [response] dict. *)
Lemma final_response_reads (b b' : bundle) :
  raw_mode b' = raw_mode b ->
  raw_departure b' = raw_departure b ->
  raw_destination b' = raw_destination b ->
  raw_car_info b' = raw_car_info b ->
  raw_transit_info b' = raw_transit_info b ->
  raw_transit_steps b' = raw_transit_steps b ->
  (exists e, final_response b = Raise e /\ final_response b' = Raise e)
  \/ (exists du di st,
        final_response b
          = Ok {| data := route_body du di st b; status := HTTP_200_OK |}
        /\ final_response b'
          = Ok {| data := route_body du di st b'; status := HTTP_200_OK |})
  \/ (final_response b
        = Ok {| data := route_body None None [] (add_error b note_no_route);
                status := HTTP_200_OK |}
      /\ final_response b'
        = Ok {| data := route_body None None [] (add_error b' note_no_route);
                status := HTTP_200_OK |}).
Proof.
  intros H1 H2 H3 H4 H5 H6. unfold final_response.
  rewrite H1, H2, H3, H4, H5, H6.
  destruct (TravelAPIView.shape _ _ _ _ _ _) as [[[[du|] di] st]|e].
  - right; left. exists (Some du), di, st. split; reflexivity.
  - right; right. split; reflexivity.
  - left. exists e. split; reflexivity.
Qed.

(** X4.  With a weather key configured, the reply to the weather request
    has no influence on the route: whatever it is, the handler raises or
    not alike, answers with the same [duration], [distance] and [steps],
    sends the same requests, and shows the same debug bundle outside its
    [weather] and [errors] keys. *)
Theorem weather_never_changes_the_route (os : environ) (GET : querydict)
  (g1 g2 wr wr' : reply) (rest : list reply) (s : list call) :
  nonempty (environ_get (OPENWEATHER_API_KEY os) []) = true ->
  let run := fun x : reply =>
    TravelAPIView.get os GET {| inbox := g1 :: g2 :: x :: rest; sent := s |} in
  (forall k, k <> u "raw" -> answer k (fst (run wr')) = answer k (fst (run wr)))
  /\ raised (fst (run wr')) = raised (fst (run wr))
  /\ (forall r r', fst (run wr) = Ok r -> fst (run wr') = Ok r' ->
      forall k, k <> u "weather" -> k <> u "errors" ->
      raw_field k r' = raw_field k r)
  /\ sent (snd (run wr')) = sent (snd (run wr)).
Proof.
  intros Hw run. subst run. cbv beta.
  rewrite !get_outcome_eq, !get_world_eq. unfold get_outcome, get_world.
  unfold nth_reply, car_index. rewrite Hw. cbn [inbox sent nth].
  destruct (negb (nonempty (resolved_origin GET)
                  && nonempty (resolved_destination GET))).
  { repeat split. intros r r' [= <-] [= <-] k _ _. reflexivity. }
  destruct (negb (nonempty (environ_get (TMAP_APP_KEY os) []))).
  { repeat split. intros r r' [= <-] [= <-] k _ _. reflexivity. }
  destruct (geocoded g1) as [dep|], (geocoded g2) as [dest|];
    cbn [is_some andb];
    try (repeat split; intros r r' [= <-] [= <-] k _ _; reflexivity).
  set (c := nth 0 rest NoReply). set (t := nth 1 rest NoReply).
  destruct (final_response_reads (final_bundle os GET wr c t)
              (final_bundle os GET wr' c t))
    as [(e & -> & ->) | [(du & di & st & -> & ->) | (-> & ->)]];
    try reflexivity.
  - repeat split. intros r r' E; discriminate E.
  - split; [|split; [reflexivity|split; [|reflexivity]]].
    + intros k Hk. cbn [answer data]. apply route_body_field. exact Hk.
    + intros r r' [= <-] [= <-] k K1 K2. rewrite !raw_field_body.
      apply bundle_value_field; intros E; try reflexivity;
        subst k; contradiction.
  - split; [|split; [reflexivity|split; [|reflexivity]]].
    + intros k Hk. cbn [answer data]. apply route_body_field. exact Hk.
    + intros r r' [= <-] [= <-] k K1 K2. rewrite !raw_field_body.
      apply bundle_value_field; intros E; try reflexivity;
        subst k; contradiction.
Qed.

(** X5.  The mode has no influence on the upstream work: two requests for
    the same places send the same requests and consume the same replies
    whatever their modes, and the answers they get show the same debug
    bundle outside its [mode] and [errors] keys (weather, driving totals
    and path, transit totals and steps are all computed for every mode). *)
Theorem mode_never_changes_the_upstream_work (os : environ)
  (GET GET' : querydict) (w : world) :
  resolved_origin GET' = resolved_origin GET ->
  resolved_destination GET' = resolved_destination GET ->
  snd (TravelAPIView.get os GET' w) = snd (TravelAPIView.get os GET w)
  /\ forall r r',
       fst (TravelAPIView.get os GET w) = Ok r ->
       fst (TravelAPIView.get os GET' w) = Ok r' ->
       forall k, k <> u "mode" -> k <> u "errors" ->
       raw_field k r' = raw_field k r.
Proof.
  intros Ho Hd.
  rewrite !get_outcome_eq, !get_world_eq. unfold get_outcome, get_world.
  unfold poi_requests. rewrite Ho, Hd.
  split; [reflexivity|].
  destruct (negb (nonempty (resolved_origin GET)
                  && nonempty (resolved_destination GET))).
  { intros r r' [= <-] [= <-] k K1 K2. rewrite !raw_field_body.
    apply bundle_value_field; intros E; try reflexivity;
      try (subst k; contradiction); cbn; congruence. }
  destruct (negb (nonempty (environ_get (TMAP_APP_KEY os) []))).
  { intros r r' [= <-] [= <-] k K1 K2. rewrite !raw_field_body.
    apply bundle_value_field; intros E; try reflexivity;
      try (subst k; contradiction); cbn; congruence. }
  destruct (is_some (geocoded (nth_reply 0 w))
            && is_some (geocoded (nth_reply 1 w))).
  2:{ intros r r' [= <-] [= <-] k K1 K2. rewrite !raw_field_body.
      unfold geocoding_bundle. rewrite Ho, Hd.
      apply bundle_value_field; intros E; try (subst k; contradiction);
        destruct (is_some (geocoded (nth_reply 0 w))),
                 (is_some (geocoded (nth_reply 1 w)));
        cbn; congruence. }
  set (b := final_bundle os GET _ _ _). set (b' := final_bundle os GET' _ _ _).
  assert (A : forall c c' : bundle,
             (c = b \/ c = add_error b note_no_route) ->
             (c' = b' \/ c' = add_error b' note_no_route) ->
             forall k, k <> u "mode" -> k <> u "errors" ->
             field k (bundle_value c') = field k (bundle_value c)).
  { intros c c' Hc Hc' k K1 K2.
    apply bundle_value_field; intros E; try (subst k; contradiction);
      destruct Hc as [-> | ->], Hc' as [-> | ->]; cbn; congruence. }
  unfold final_response.
  destruct (TravelAPIView.shape (raw_mode b) _ _ _ _ _) as [[[[du|] di] st]|e];
  destruct (TravelAPIView.shape (raw_mode b') _ _ _ _ _) as [[[[du'|] di'] st']|e'];
    intros r r' E E'; try discriminate E; try discriminate E';
    injection E as <-; injection E' as <-;
    intros k K1 K2; rewrite !raw_field_body; apply A; auto.
Qed.

End Independence.

(** *** The shape of the answers *)

Section Answers.
Context {ucd : UnicodeData}.

(** X6.  Given the parameters of a query that has been parsed (what
    [request.GET] holds), the computations of the handler on the
    parameters, the environment and the providers' replies raise nothing
    but the [OverflowError] of the walking estimate: if [get] raises on
    them, the mode is [walk], the driving step produced a [car_info], and
    [distance_km / 4 * 60] is not a finite float. *)
Theorem only_the_walking_estimate_can_raise (os : environ) (GET : querydict)
  (w : world) (e : exn) :
  fst (TravelAPIView.get os GET w) = Raise e ->
  e = OverflowError
  /\ resolved_mode GET = u "walk"
  /\ exists ci : car_info_t,
       fst (fst (TravelAPIView.car_try (nth_reply (car_index os) w))) = Some ci
       /\ is_finite (walk_product (distance_km ci)) = false.
Proof.
  rewrite get_outcome_eq. unfold get_outcome.
  destruct (negb (nonempty (resolved_origin GET) && nonempty (resolved_destination GET)));
    [discriminate|].
  destruct (negb (nonempty (environ_get (TMAP_APP_KEY os) []))); [discriminate|].
  destruct (is_some (geocoded (nth_reply 0 w)) && is_some (geocoded (nth_reply 1 w)));
    [|discriminate].
  unfold final_response. set (b := final_bundle _ _ _ _ _).
  change (raw_mode b) with (resolved_mode GET).
  change (raw_car_info b)
    with (fst (fst (TravelAPIView.car_try (nth_reply (car_index os) w)))).
  unfold TravelAPIView.shape.
  destruct (fst (fst (TravelAPIView.car_try (nth_reply (car_index os) w))))
    as [ci|] eqn:Hc.
  2:{ destruct (str_eqb (resolved_mode GET) (u "car"));
      destruct (str_eqb (resolved_mode GET) (u "transit"));
      destruct (raw_transit_info b);
      destruct (str_eqb (resolved_mode GET) (u "walk")); discriminate. }
  destruct (str_eqb (resolved_mode GET) (u "car")); [discriminate|].
  destruct (if str_eqb (resolved_mode GET) (u "transit")
            then raw_transit_info b else None); [discriminate|].
  destruct (str_eqb (resolved_mode GET) (u "walk")) eqn:W; [|discriminate].
  change (TravelAPIView.walk_minutes_of ci)
    with (int_of_float (walk_product (distance_km ci))).
  destruct (int_of_float (walk_product (distance_km ci))) as [m|e'] eqn:E;
    cbn [rbind]; [discriminate|].
  intros [= <-].
  destruct (car_try_info_inv _ _ Hc) as (features & Hf).
  destruct (int_of_float_raises _ _ E
              (walk_product_not_nan _ (car_info_of_not_nan _ _ Hf)))
    as [-> F].
  split; [reflexivity|]. split; [apply str_eqb_eq; exact W|].
  exists ci. split; [reflexivity|exact F].
Qed.

(** X7.  Every answer the handler returns is all or nothing.  Either
    [duration] and [distance] are both null, [steps] is empty or the
    missing-key guidance, and the error list is not empty; or the mode is
    one of [car], [transit], [walk], [duration] is a text of the form
    "약 ...분", [distance] a text ending in " km", and the error list does
    not hold the no-route note. *)
Theorem answers_are_all_or_nothing (os : environ) (GET : querydict)
  (w : world) (r : Response) :
  fst (TravelAPIView.get os GET w) = Ok r ->
  status r = HTTP_200_OK
  /\ exists (du di : option str) (st : list str) (b : bundle),
       data r = route_body du di st b
       /\ match du with
          | None =>
              di = None /\ (st = [] \/ st = key_guidance) /\ raw_errors b <> []
          | Some d =>
              known_mode (raw_mode b) = true
              /\ (exists t, d = u "약 " ++ t ++ u "분")
              /\ (exists km, di = Some (km ++ u " km"))
              /\ ~ In note_no_route (raw_errors b)
          end.
Proof.
  rewrite get_outcome_eq. unfold get_outcome.
  destruct (negb (nonempty (resolved_origin GET) && nonempty (resolved_destination GET))).
  { intros [= <-]. split; [reflexivity|]. exists None, None, [].
    eexists. split; [reflexivity|]. repeat split; [left; reflexivity|].
    cbn. discriminate. }
  destruct (negb (nonempty (environ_get (TMAP_APP_KEY os) []))).
  { intros [= <-]. split; [reflexivity|]. exists None, None, key_guidance.
    eexists. split; [reflexivity|]. repeat split; [right; reflexivity|].
    cbn. discriminate. }
  destruct (is_some (geocoded (nth_reply 0 w)) && is_some (geocoded (nth_reply 1 w)))
    eqn:G.
  2:{ intros [= <-]. split; [reflexivity|]. exists None, None, [].
      eexists. split; [reflexivity|]. repeat split; [left; reflexivity|].
      unfold geocoding_bundle.
      destruct (is_some (geocoded (nth_reply 0 w))),
               (is_some (geocoded (nth_reply 1 w)));
        try discriminate G; cbn; discriminate. }
  unfold final_response. set (b := final_bundle _ _ _ _ _).
  assert (N : ~ In note_no_route (raw_errors b)).
  { destruct notes_apart as (N1 & N2 & N3).
    subst b. unfold final_bundle. cbn [raw_errors].
    rewrite !in_app_iff.
    intros [H|[H|H]];
      match type of H with
      | In _ (if ?c then _ else _) => destruct c
      end;
      cbn [In] in H; try exact H; destruct H as [H|[]].
    - exact (N1 H).
    - exact (N2 H).
    - exact (N3 H). }
  unfold TravelAPIView.shape.
  destruct (str_eqb (raw_mode b) (u "car")) eqn:C.
  - destruct (raw_car_info b) as [ci|].
    + intros [= <-]. split; [reflexivity|]. do 4 eexists.
      split; [reflexivity|]. unfold known_mode. rewrite C.
      split; [reflexivity|]. split; [eexists; reflexivity|].
      split; [eexists; reflexivity|exact N].
    + destruct (str_eqb (raw_mode b) (u "transit")) eqn:T.
      { apply str_eqb_eq in C, T. rewrite C in T. vm_compute in T.
        discriminate T. }
      destruct (str_eqb (raw_mode b) (u "walk")) eqn:W.
      { apply str_eqb_eq in C, W. rewrite C in W. vm_compute in W.
        discriminate W. }
      intros [= <-]. split; [reflexivity|]. exists None, None, [].
      eexists. split; [reflexivity|]. repeat split; [left; reflexivity|].
      cbn [add_error raw_errors]. intros E. symmetry in E.
      exact (app_cons_not_nil _ _ _ E).
  - destruct (str_eqb (raw_mode b) (u "transit")) eqn:T.
    + destruct (raw_transit_info b) as [ti|].
      * intros [= <-]. split; [reflexivity|]. do 4 eexists.
        split; [reflexivity|]. unfold known_mode. rewrite C, T.
        split; [reflexivity|]. split; [eexists; reflexivity|].
        split; [eexists; reflexivity|exact N].
      * destruct (str_eqb (raw_mode b) (u "walk")) eqn:W.
        { apply str_eqb_eq in T, W. rewrite T in W. vm_compute in W.
          discriminate W. }
        intros [= <-]. split; [reflexivity|]. exists None, None, [].
        eexists. split; [reflexivity|]. repeat split; [left; reflexivity|].
        cbn [add_error raw_errors]. intros E. symmetry in E.
        exact (app_cons_not_nil _ _ _ E).
    + destruct (str_eqb (raw_mode b) (u "walk")) eqn:W.
      * destruct (raw_car_info b) as [ci|].
        -- destruct (TravelAPIView.walk_minutes_of ci) as [m|e];
             cbn [rbind]; [|discriminate].
           intros [= <-]. split; [reflexivity|]. do 4 eexists.
           split; [reflexivity|]. unfold known_mode. rewrite C, T, W.
           split; [reflexivity|]. split; [eexists; reflexivity|].
           split; [eexists; reflexivity|exact N].
        -- intros [= <-]. split; [reflexivity|]. exists None, None, [].
           eexists. split; [reflexivity|]. repeat split; [left; reflexivity|].
           cbn [add_error raw_errors]. intros E. symmetry in E.
           exact (app_cons_not_nil _ _ _ E).
      * intros [= <-]. split; [reflexivity|]. exists None, None, [].
        eexists. split; [reflexivity|]. repeat split; [left; reflexivity|].
        cbn [add_error raw_errors]. intros E. symmetry in E.
        exact (app_cons_not_nil _ _ _ E).
Qed.

End Answers.

Section NoRoute.
Context {ucd : UnicodeData}.

Lemma field_duration (du di : option str) (st : list str) (b : bundle) :
  field (u "duration") (route_body du di st b) = Some (opt_text du).
Proof. reflexivity. Qed.

(** X8.  Past validation, the credential check and geocoding, an answer has
    a null [duration] exactly when the requested mode's own data is
    missing: [car_info] for [car] and [walk], [transit_info] for [transit]
    (a mode never falls back on the other provider's route); the answer is
    then the no-route one: no steps, the no-route note appended last. *)
Theorem no_route_without_the_modes_own_data (os : environ) (GET : querydict)
  (w : world) (r : Response) :
  nonempty (resolved_origin GET) = true ->
  nonempty (resolved_destination GET) = true ->
  nonempty (environ_get (TMAP_APP_KEY os) []) = true ->
  is_some (geocoded (nth_reply 0 w)) = true ->
  is_some (geocoded (nth_reply 1 w)) = true ->
  fst (TravelAPIView.get os GET w) = Ok r ->
  let mode := resolved_mode GET in
  let car_info := fst (fst (TravelAPIView.car_try (nth_reply (car_index os) w))) in
  let transit_info :=
    fst (fst (TravelAPIView.transit_try (nth_reply (S (car_index os)) w))) in
  (field (u "duration") (data r) = Some VNone
   <-> (str_eqb mode (u "car") || str_eqb mode (u "walk")) && is_some car_info
       || str_eqb mode (u "transit") && is_some transit_info = false)
  /\ (field (u "duration") (data r) = Some VNone ->
      data r = route_body None None []
                 (add_error
                    (final_bundle os GET (nth_reply 2 w)
                       (nth_reply (car_index os) w)
                       (nth_reply (S (car_index os)) w))
                    note_no_route)).
Proof.
  intros Ho Hd Hk G1 G2.
  rewrite (get_outcome_shaped os GET w Ho Hd Hk G1 G2).
  unfold final_response. set (b := final_bundle _ _ _ _ _).
  intros E.
  change (raw_mode b) with (resolved_mode GET) in E.
  change (raw_car_info b)
    with (fst (fst (TravelAPIView.car_try (nth_reply (car_index os) w)))) in E.
  change (raw_transit_info b)
    with (fst (fst (TravelAPIView.transit_try (nth_reply (S (car_index os)) w))))
    in E.
  set (mode := resolved_mode GET) in *.
  set (car_info := fst (fst (TravelAPIView.car_try _))) in *.
  set (transit_info := fst (fst (TravelAPIView.transit_try _))) in *.
  unfold TravelAPIView.shape in E.
  assert (Yes : forall (d : str) (P : Prop),
            (Some (VStr d) = Some VNone <-> true = false)
            /\ (Some (VStr d) = Some VNone -> P)).
  { intros d P. split; [split|]; intros X; discriminate X. }
  assert (No : forall x : pyval,
            (Some VNone = Some VNone <-> false = false)
            /\ (Some VNone = Some VNone -> x = x)).
  { intros x. split; [split|]; intros _; reflexivity. }
  destruct (str_eqb mode (u "car")) eqn:C.
  { apply str_eqb_eq in C. rewrite C in E |- *.
    change (str_eqb (u "car") (u "transit")) with false in E |- *.
    change (str_eqb (u "car") (u "walk")) with false in E |- *.
    cbn [orb andb]. rewrite orb_false_r.
    destruct car_info as [ci|]; injection E as <-; cbn [data is_some];
      rewrite field_duration; cbn [opt_text]; [apply Yes|apply No]. }
  destruct (str_eqb mode (u "transit")) eqn:T.
  { apply str_eqb_eq in T. rewrite T in E |- *.
    change (str_eqb (u "transit") (u "walk")) with false in E |- *.
    cbn [orb andb].
    destruct transit_info as [ti|]; injection E as <-; cbn [data is_some];
      rewrite field_duration; cbn [opt_text]; [apply Yes|apply No]. }
  destruct (str_eqb mode (u "walk")) eqn:W; cbn [orb andb]; rewrite ?orb_false_r.
  - destruct car_info as [ci|].
    + destruct (TravelAPIView.walk_minutes_of ci) as [m|e];
        cbn [rbind] in E; [|discriminate E].
      injection E as <-. cbn [data is_some]. rewrite field_duration.
      cbn [opt_text]. apply Yes.
    + injection E as <-. cbn [data is_some]. rewrite field_duration.
      apply No.
  - injection E as <-. cbn [data]. rewrite field_duration. apply No.
Qed.

End NoRoute.

Section Echo.
Context {ucd : UnicodeData}.

(** X19.  Every answer the handler returns carries a debug bundle with the
    same ten keys, which echoes the Kakao key of the environment (the empty
    text when unset) and the departure, destination and mode as resolved
    and trimmed; the Tmap and weather keys are not among its keys. *)
Theorem answers_echo_the_request (os : environ) (GET : querydict) (w : world)
  (r : Response) :
  fst (TravelAPIView.get os GET w) = Ok r ->
  exists raw : pyval,
    field (u "raw") (data r) = Some raw
    /\ keys raw
       = [ u "kakao_js_key"; u "departure"; u "destination"; u "mode";
           u "weather"; u "car_info"; u "transit_info"; u "car_path";
           u "transit_steps"; u "errors" ]
    /\ field (u "kakao_js_key") raw = Some (VStr (environ_get (KAKAO_JS_KEY os) []))
    /\ field (u "departure") raw = Some (VStr (resolved_origin GET))
    /\ field (u "destination") raw = Some (VStr (resolved_destination GET))
    /\ field (u "mode") raw = Some (VStr (resolved_mode GET)).
Proof.
  assert (B : forall (du di : option str) (st : list str) (b : bundle),
             raw_kakao_js_key b = environ_get (KAKAO_JS_KEY os) [] ->
             raw_departure b = resolved_origin GET ->
             raw_destination b = resolved_destination GET ->
             raw_mode b = resolved_mode GET ->
             exists raw : pyval,
               field (u "raw") (data {| data := route_body du di st b;
                                        status := HTTP_200_OK |}) = Some raw
               /\ keys raw
                  = [ u "kakao_js_key"; u "departure"; u "destination"; u "mode";
                      u "weather"; u "car_info"; u "transit_info"; u "car_path";
                      u "transit_steps"; u "errors" ]
               /\ field (u "kakao_js_key") raw
                  = Some (VStr (environ_get (KAKAO_JS_KEY os) []))
               /\ field (u "departure") raw = Some (VStr (resolved_origin GET))
               /\ field (u "destination") raw
                  = Some (VStr (resolved_destination GET))
               /\ field (u "mode") raw = Some (VStr (resolved_mode GET))).
  { intros du di st b <- <- <- <-. exists (bundle_value b).
    repeat split. }
  rewrite get_outcome_eq. unfold get_outcome.
  destruct (negb (nonempty (resolved_origin GET) && nonempty (resolved_destination GET))).
  { intros [= <-]. apply B; reflexivity. }
  destruct (negb (nonempty (environ_get (TMAP_APP_KEY os) []))).
  { intros [= <-]. apply B; reflexivity. }
  destruct (is_some (geocoded (nth_reply 0 w)) && is_some (geocoded (nth_reply 1 w))).
  2:{ intros [= <-]. apply B; unfold geocoding_bundle;
        destruct (is_some (geocoded (nth_reply 0 w))),
                 (is_some (geocoded (nth_reply 1 w))); reflexivity. }
  unfold final_response.
  destruct (TravelAPIView.shape _ _ _ _ _ _) as [[[[du|] di] st]|e];
    [| |discriminate]; intros [= <-]; apply B; reflexivity.
Qed.

End Echo.

(** *** The driving path, the transit steps, the weather *)

Section Path.
Context {ucd : UnicodeData}.

(** The inner loop on well-formed pairs: one point per pair, appended. *)
Lemma collect_points_pairs (seg : list (pyval * pyval)) (more : list pyval)
  (car_path : list pyval) :
  TravelAPIView.collect_points
    (map (fun p => VList [fst p; snd p]) seg ++ more) car_path
  = TravelAPIView.collect_points more
      (car_path ++ map (fun p => VDict [(u "lat", snd p); (u "lng", fst p)]) seg).
Proof.
  revert car_path. induction seg as [|[lng lat] seg IH]; intros car_path.
  - cbn [map app]. rewrite app_nil_r. reflexivity.
  - cbn [map app TravelAPIView.collect_points unpack2 py_iter rbind fst snd].
    rewrite IH, <- app_assoc. reflexivity.
Qed.

(** The outer loop on features whose coordinates are well-formed pairs. *)
Lemma collect_path_segments (fs : list pyval) (segs : list (list (pyval * pyval)))
  (more : list pyval) (car_path : list pyval) :
  Forall2 (fun f seg =>
             TravelAPIView.line_coordinates f
             = Ok (map (fun p => VList [fst p; snd p]) seg)) fs segs ->
  TravelAPIView.collect_path (fs ++ more) car_path
  = TravelAPIView.collect_path more
      (car_path
       ++ flat_map (map (fun p => VDict [(u "lat", snd p); (u "lng", fst p)])) segs).
Proof.
  intros H. revert car_path.
  induction H as [|f seg fs segs Hf _ IH]; intros car_path.
  - cbn [app flat_map]. rewrite app_nil_r. reflexivity.
  - cbn [app TravelAPIView.collect_path flat_map]. rewrite Hf.
    rewrite <- (app_nil_r (map _ seg)) at 1.
    rewrite collect_points_pairs. cbn [TravelAPIView.collect_points].
    rewrite IH, <- app_assoc. reflexivity.
Qed.

(** X9.  When the driving provider answers successfully, the totals of the
    first feature are read without an exception ([car_info_of] returns),
    and reading the geometry of every feature raises nothing and gives,
    for a [LineString], well-formed [[lng, lat]] pairs and, for anything
    else, no coordinate, then [car_path] holds one
    [{"lat": lat, "lng": lng}] point per pair, in the order of the features
    and, within a feature, of its coordinates, and the step does not
    fail. *)
Theorem car_path_follows_the_line_strings (r : reply) (data : pyval)
  (fs : list pyval) (segs : list (list (pyval * pyval)))
  (ci : option car_info_t) :
  fetch_json r = Ok data ->
  dict_get data (u "features") (VList []) = Ok (VList fs) ->
  TravelAPIView.car_info_of (VList fs) = Ok ci ->
  Forall2 (fun f seg =>
             TravelAPIView.line_coordinates f
             = Ok (map (fun p => VList [fst p; snd p]) seg)) fs segs ->
  TravelAPIView.car_try r
  = (ci,
     flat_map (map (fun p => VDict [(u "lat", snd p); (u "lng", fst p)])) segs,
     None).
Proof.
  intros Hj Hf Hi H. unfold TravelAPIView.car_try.
  rewrite Hj. cbn [rbind]. rewrite Hf, Hi. cbn [py_iter].
  rewrite <- (app_nil_r fs), (collect_path_segments fs segs [] [] H).
  reflexivity.
Qed.

(** X10.  A coordinate that cannot be unpacked into two values ends the
    driving step where it stands: the [car_info] built from the first
    feature is kept, [car_path] keeps the points collected before the
    malformed coordinate, and the driving note is appended to the error
    list. *)
Theorem malformed_coordinate_keeps_the_totals (key : str)
  (dep_lat dep_lng dest_lat dest_lng : spec_float) (response : bundle)
  (w : world) (data : pyval) (fs1 fs2 : list pyval) (f bad : pyval)
  (segs : list (list (pyval * pyval))) (seg : list (pyval * pyval))
  (more : list pyval) (ci : option car_info_t) (e : exn) :
  fetch_json (hd NoReply (inbox w)) = Ok data ->
  dict_get data (u "features") (VList []) = Ok (VList (fs1 ++ f :: fs2)) ->
  TravelAPIView.car_info_of (VList (fs1 ++ f :: fs2)) = Ok ci ->
  Forall2 (fun f seg =>
             TravelAPIView.line_coordinates f
             = Ok (map (fun p => VList [fst p; snd p]) seg)) fs1 segs ->
  TravelAPIView.line_coordinates f
  = Ok (map (fun p => VList [fst p; snd p]) seg ++ bad :: more) ->
  unpack2 bad = Raise e ->
  let after :=
    fst (TravelAPIView.car_step key dep_lat dep_lng dest_lat dest_lng response w) in
  raw_car_info after = ci
  /\ raw_car_path after
     = flat_map (map (fun p => VDict [(u "lat", snd p); (u "lng", fst p)]))
         (segs ++ [seg])
  /\ raw_errors after = raw_errors response ++ [u "자동차 경로 조회 실패"].
Proof.
  intros Hj Hf Hi H Hc Hb after. subst after. rewrite car_step_eq.
  assert (E : TravelAPIView.car_try (hd NoReply (inbox w))
              = (ci,
                 flat_map (map (fun p => VDict [(u "lat", snd p); (u "lng", fst p)]))
                   (segs ++ [seg]),
                 Some e)).
  { unfold TravelAPIView.car_try.
    rewrite Hj. cbn [rbind]. rewrite Hf, Hi. cbn [py_iter].
    rewrite (collect_path_segments fs1 segs (f :: fs2) [] H).
    cbn [TravelAPIView.collect_path app]. rewrite Hc.
    rewrite collect_points_pairs. cbn [TravelAPIView.collect_points].
    rewrite Hb. rewrite flat_map_app. cbn [flat_map]. rewrite app_nil_r.
    reflexivity. }
  rewrite E. cbn. auto.
Qed.

End Path.

Section Transit.
Context {ucd : UnicodeData}.

Lemma shape_transit (dep dest : str) (ci : option car_info_t)
  (ti : transit_info_t) (ts : list transit_step) :
  TravelAPIView.shape (u "transit") dep dest ci (Some ti) ts =
    Ok (Some (u "약 " ++ py_str (total_time_min ti) ++ u "분"),
        Some (py_repr_float (total_distance_km ti) ++ u " km"),
        map ts_summary ts).
Proof. reflexivity. Qed.

(** X11.  The totals of the first itinerary, when they are integers (or
    missing, which counts as 0) and the distance divided by 1000 is in the
    range of floats: [total_time_min] is the time floor-divided by 60,
    [total_distance_km] is [round(distance / 1000, 1)], [transfer_count]
    is the itinerary's [transferCount] or 0 and [path_type] its [pathType]
    or null; for a distance below [10^16] metres the kilometres are the
    float of a one-decimal number within 0.05 of [distance / 1000]. *)
Theorem transit_totals (it0 : list (str * pyval)) (others : list pyval)
  (total_time total_distance : Z) (km : spec_float) :
  dict_get (VDict it0) (u "totalTime") (VInt 0) = Ok (VInt total_time) ->
  dict_get (VDict it0) (u "totalDistance") (VInt 0) = Ok (VInt total_distance) ->
  int_truediv total_distance 1000 = Ok km ->
  exists ti : transit_info_t,
    TravelAPIView.transit_info_of (VList (VDict it0 :: others))
    = Ok (VDict it0, ti)
    /\ total_time_min ti = VInt (total_time / 60)
    /\ total_distance_km ti = py_round1 km
    /\ transfer_count ti
       = match assoc (u "transferCount") it0 with Some v => v | None => VInt 0 end
    /\ path_type ti
       = match assoc (u "pathType") it0 with Some v => v | None => VNone end
    /\ (Z.abs total_distance < 10 ^ 16 ->
        exists k : Z,
          total_distance_km ti = round_ratio (total_distance <? 0) k 10
          /\ -50 <= 100 * k - Z.abs total_distance <= 50).
Proof.
  intros Ht Hd Hkm.
  eexists. split.
  { unfold TravelAPIView.transit_info_of. cbn [getitem_0 rbind].
    rewrite Ht, Hd. cbn [rbind dict_get py_floordiv py_truediv].
    rewrite Hkm. cbn [rbind]. reflexivity. }
  cbn [total_time_min total_distance_km transfer_count path_type].
  repeat (split; [reflexivity|]).
  intros Hrange.
  assert (Hr : 0 <= Z.abs total_distance < 10 ^ 16) by lia.
  destruct (round1_kilometres (total_distance <? 0) _ Hr) as (k & Ek & Hk).
  exists k. split; [|exact Hk].
  unfold int_truediv in Hkm.
  change (xorb (total_distance <? 0) (1000 <? 0))
    with (xorb (total_distance <? 0) false) in Hkm.
  rewrite xorb_false_r in Hkm. change (Z.abs 1000) with 1000 in Hkm.
  rewrite (round_ratio_kilometres_finite _ _ Hr) in Hkm.
  injection Hkm as <-. exact Ek.
Qed.

(** X12.  In a [transit]-mode request that passes validation, the
    credential check and geocoding, once the transit step has produced a
    [transit_info] the answer is a success whatever the weather and driving
    steps did: the duration is "약 N분" with the itinerary's minutes, the
    distance its kilometres followed by " km", and the steps are the
    summaries of [transit_steps], in order. *)
Theorem transit_answer (os : environ) (GET : querydict) (w : world)
  (ti : transit_info_t) :
  nonempty (resolved_origin GET) = true ->
  nonempty (resolved_destination GET) = true ->
  nonempty (environ_get (TMAP_APP_KEY os) []) = true ->
  resolved_mode GET = u "transit" ->
  is_some (geocoded (nth_reply 0 w)) = true ->
  is_some (geocoded (nth_reply 1 w)) = true ->
  fst (fst (TravelAPIView.transit_try (nth_reply (S (car_index os)) w)))
  = Some ti ->
  exists (r : Response) (b : bundle),
    fst (TravelAPIView.get os GET w) = Ok r
    /\ status r = HTTP_200_OK
    /\ data r =
         route_body
           (Some (u "약 " ++ py_str (total_time_min ti) ++ u "분"))
           (Some (py_repr_float (total_distance_km ti) ++ u " km"))
           (map ts_summary (raw_transit_steps b))
           b
    /\ raw_transit_info b = Some ti
    /\ raw_transit_steps b
       = snd (fst (TravelAPIView.transit_try (nth_reply (S (car_index os)) w))).
Proof.
  intros Ho Hd Hk Hm G1 G2 Ht.
  rewrite (get_outcome_shaped os GET w Ho Hd Hk G1 G2).
  unfold final_response.
  set (b := final_bundle _ _ _ _ _).
  assert (Em : raw_mode b = u "transit") by exact Hm.
  assert (Et : raw_transit_info b = Some ti) by exact Ht.
  rewrite Em, Et, shape_transit.
  exists {| data := route_body
               (Some (u "약 " ++ py_str (total_time_min ti) ++ u "분"))
               (Some (py_repr_float (total_distance_km ti) ++ u " km"))
               (map ts_summary (raw_transit_steps b)) b;
            status := HTTP_200_OK |}, b.
  repeat (split; [reflexivity|]). split; [exact Et|reflexivity].
Qed.

(** The loop over the legs, from any index and any list of steps. *)
Lemma transit_legs_from (legs : list pyval) (idx : Z)
  (acc steps : list transit_step) (e : option exn) :
  TravelAPIView.transit_legs legs idx acc = (steps, e) ->
  exists new : list transit_step,
    steps = acc ++ new
    /\ (forall (i : nat) (s : transit_step),
          nth_error new i = Some s ->
          exists leg, nth_error legs i = Some leg
                      /\ TravelAPIView.leg_step (idx + Z.of_nat i) leg = Ok s)
    /\ match e with
       | None => length new = length legs
       | Some e' =>
           exists leg, nth_error legs (length new) = Some leg
                       /\ TravelAPIView.leg_step (idx + Z.of_nat (length new)) leg
                          = Raise e'
       end.
Proof.
  revert idx acc. induction legs as [|leg legs IH]; intros idx acc.
  - cbn [TravelAPIView.transit_legs]. intros [= <- <-]. exists [].
    rewrite app_nil_r. split; [reflexivity|]. split; [|reflexivity].
    intros [|i] s H; discriminate H.
  - cbn [TravelAPIView.transit_legs].
    destruct (TravelAPIView.leg_step idx leg) as [s0|e0] eqn:E0.
    + intros H. destruct (IH _ _ H) as (new & -> & Hn & He).
      exists (s0 :: new). rewrite <- app_assoc. split; [reflexivity|].
      split.
      * intros [|i] s Hs; cbn [nth_error] in Hs |- *.
        -- injection Hs as <-. exists leg. rewrite Z.add_0_r. auto.
        -- destruct (Hn i s Hs) as (l & Hl & Hstep). exists l.
           split; [exact Hl|].
           replace (idx + Z.of_nat (S i)) with (idx + 1 + Z.of_nat i) by lia.
           exact Hstep.
      * destruct e as [e'|]; cbn [length nth_error].
        -- destruct He as (l & Hl & Hstep). exists l. split; [exact Hl|].
           replace (idx + Z.of_nat (S (length new)))
             with (idx + 1 + Z.of_nat (length new)) by lia.
           exact Hstep.
        -- f_equal. exact He.
    + intros [= <- <-]. exists []. rewrite app_nil_r. split; [reflexivity|].
      split; [intros [|i] s H; discriminate H|].
      exists leg. cbn [length nth_error]. rewrite Z.add_0_r. auto.
Qed.

Lemma leg_step_order (idx : Z) (leg : pyval) (s : transit_step) :
  TravelAPIView.leg_step idx leg = Ok s -> ts_order s = idx.
Proof.
  unfold TravelAPIView.leg_step.
  destruct (dict_get leg (u "mode") VNone) as [m|]; [|discriminate].
  cbn [rbind].
  destruct (TravelAPIView.mode_ko_of m); [|discriminate]. cbn [rbind].
  destruct (dict_get leg (u "sectionTime") _) as [t|]; [|discriminate].
  cbn [rbind].
  destruct (py_int t); [|discriminate]. cbn [rbind].
  destruct (TravelAPIView.leg_name leg (u "start")); [|discriminate].
  cbn [rbind].
  destruct (TravelAPIView.leg_name leg (u "end")); [|discriminate].
  cbn [rbind]. intros [= <-]. reflexivity.
Qed.

(** X13.  The loop over the legs of the itinerary yields one step per leg,
    in order and numbered from 1, each built from its own leg; it stops at
    the first leg that raises, keeping the steps made before it: without
    exception there are as many steps as legs, and with one the failing
    leg is the one after the last step. *)
Theorem transit_steps_are_numbered (legs : list pyval)
  (steps : list transit_step) (e : option exn) :
  TravelAPIView.transit_legs legs 1 [] = (steps, e) ->
  (forall (i : nat) (s : transit_step),
      nth_error steps i = Some s ->
      ts_order s = Z.of_nat i + 1
      /\ exists leg, nth_error legs i = Some leg
                     /\ TravelAPIView.leg_step (Z.of_nat i + 1) leg = Ok s)
  /\ match e with
     | None => length steps = length legs
     | Some e' =>
         exists leg, nth_error legs (length steps) = Some leg
                     /\ TravelAPIView.leg_step (Z.of_nat (length steps) + 1) leg
                        = Raise e'
     end.
Proof.
  intros H. destruct (transit_legs_from _ _ _ _ _ H) as (new & -> & Hn & He).
  cbn [app]. split.
  - intros i s Hs. destruct (Hn i s Hs) as (leg & Hl & Hstep).
    rewrite Z.add_comm in Hstep. split.
    + exact (leg_step_order _ _ _ Hstep).
    + exists leg. auto.
  - destruct e as [e'|]; [|exact He].
    destruct He as (leg & Hl & Hstep). exists leg.
    rewrite Z.add_comm in Hstep. auto.
Qed.

End Transit.

Section WeatherAndParameters.
Context {ucd : UnicodeData}.

(** X14.  What the weather lookup needs of a successful reply: the
    temperature under [main.temp] and the description of the first entry
    of [weather]; then [weather] is the dict of [name] (null when the
    reply has none), [temp] and [desc].  Any other reply fails the lookup:
    if the lookup succeeds, the reply has exactly that shape. *)
Theorem weather_needs_temperature_and_description (r : reply)
  (w_data : list (str * pyval)) :
  fetch_json r = Ok (VDict w_data) ->
  (forall (main w0 : list (str * pyval)) (ws : list pyval) (temp desc : pyval),
      assoc (u "main") w_data = Some (VDict main) ->
      assoc (u "temp") main = Some temp ->
      assoc (u "weather") w_data = Some (VList (VDict w0 :: ws)) ->
      assoc (u "description") w0 = Some desc ->
      TravelAPIView.weather_try r
      = Ok (VDict [ (u "name",
                      match assoc (u "name") w_data with
                      | Some name => name
                      | None => VNone
                      end);
                    (u "temp", temp);
                    (u "desc", desc) ]))
  /\ (forall weather : pyval,
        TravelAPIView.weather_try r = Ok weather ->
        exists (main w0 : list (str * pyval)) (ws : list pyval)
               (temp desc : pyval),
          assoc (u "main") w_data = Some (VDict main)
          /\ assoc (u "temp") main = Some temp
          /\ assoc (u "weather") w_data = Some (VList (VDict w0 :: ws))
          /\ assoc (u "description") w0 = Some desc).
Proof.
  intros Hj. unfold TravelAPIView.weather_try. rewrite Hj.
  cbn [rbind dict_get getitem_key]. split.
  - intros main w0 ws temp desc Hm Ht Hw Hd.
    rewrite Hm. cbn [rbind getitem_key]. rewrite Ht, Hw.
    cbn [rbind getitem_0 getitem_key]. rewrite Hd. reflexivity.
  - intros weather.
    destruct (assoc (u "main") w_data) as [main|]; cbn [rbind];
      [|discriminate].
    destruct main as [| | | | | |main]; cbn [getitem_key rbind];
      try discriminate.
    destruct (assoc (u "temp") main) as [temp|] eqn:Ht; cbn [rbind];
      [|discriminate].
    destruct (assoc (u "weather") w_data) as [wl|]; cbn [rbind];
      [|discriminate].
    destruct wl as [| | | |[|c s]|[|w0 ws]|]; cbn [getitem_0 rbind getitem_key];
      try discriminate.
    destruct w0 as [| | | | | |w0]; cbn [getitem_key rbind]; try discriminate.
    destruct (assoc (u "description") w0) as [desc|] eqn:Hd; cbn [rbind];
      [|discriminate].
    intros _. exists main, w0, ws, temp, desc. auto.
Qed.

End WeatherAndParameters.

(** *** The request parameters and the providers' totals *)

Section Parameters.
Context {ucd : UnicodeData}.

Lemma or_text_nonempty (s d : str) : s <> [] -> or_text (Some s) d = s.
Proof. destruct s; [contradiction|reflexivity]. Qed.

Lemma opt_or_nonempty (s : str) (o : option str) :
  s <> [] -> opt_or (Some s) o = Some s.
Proof. destruct s; [contradiction|reflexivity]. Qed.

(** The handler reads the query through the three resolved parameters. *)
Lemma get_reads_resolved (os : environ) (GET GET' : querydict) (w : world) :
  resolved_origin GET' = resolved_origin GET ->
  resolved_destination GET' = resolved_destination GET ->
  resolved_mode GET' = resolved_mode GET ->
  TravelAPIView.get os GET' w = TravelAPIView.get os GET w.
Proof.
  intros Ho Hd Hm. unfold TravelAPIView.get.
  fold (resolved_origin GET) (resolved_destination GET) (resolved_mode GET).
  fold (resolved_origin GET') (resolved_destination GET') (resolved_mode GET').
  rewrite Ho, Hd, Hm. reflexivity.
Qed.

(** X15.  Blanks around the values of [origin], [destination] and [mode]
    are ignored: a request whose non-empty [origin] and [mode] and whose
    [destination] are padded with white space is handled exactly like the
    request without the padding (the same answer, the same requests sent),
    whatever the [departure] parameters of the two requests. *)
Theorem surrounding_blanks_are_ignored (os : environ) (GET GET' : querydict)
  (w : world) (o o' d d' m m' : str) :
  querydict_get GET (u "origin") = Some o ->
  querydict_get GET' (u "origin") = Some o' ->
  querydict_get GET (u "destination") = Some d ->
  querydict_get GET' (u "destination") = Some d' ->
  querydict_get GET (u "mode") = Some m ->
  querydict_get GET' (u "mode") = Some m' ->
  o <> [] -> m <> [] ->
  padded o o' -> padded d d' -> padded m m' ->
  TravelAPIView.get os GET' w = TravelAPIView.get os GET w.
Proof.
  intros Ho Ho' Hd Hd' Hm Hm' No Nm Po Pd Pm.
  apply get_reads_resolved.
  - unfold resolved_origin. rewrite Ho, Ho'.
    rewrite (opt_or_nonempty o _ No), (opt_or_nonempty o' _ (padded_nonempty _ _ Po No)).
    rewrite (or_text_nonempty o _ No), (or_text_nonempty o' _ (padded_nonempty _ _ Po No)).
    apply strip_padded, Po.
  - unfold resolved_destination. rewrite Hd, Hd'.
    destruct d as [|c d].
    + destruct Pd as (a & b & Ha & Hb & ->). cbn [app or_text].
      destruct (a ++ b) as [|x y] eqn:E; [reflexivity|].
      cbn [or_text]. rewrite <- E. apply strip_blank.
      rewrite forallb_app, Ha, Hb. reflexivity.
    + assert (N : c :: d <> []) by discriminate.
      rewrite (or_text_nonempty _ _ N), (or_text_nonempty d' _ (padded_nonempty _ _ Pd N)).
      apply strip_padded, Pd.
  - unfold resolved_mode. rewrite Hm, Hm'.
    rewrite (or_text_nonempty m _ Nm), (or_text_nonempty m' _ (padded_nonempty _ _ Pm Nm)).
    apply strip_padded, Pm.
Qed.

(** X16.  The [departure] parameter stands in for [origin] only when
    [origin] is absent or empty: such a request is handled exactly like
    the one that gives the same place as [origin].  An [origin] made of
    blanks only is not empty, so [departure] is not consulted and, once
    trimmed, no departure is left: the handler answers that both places
    are needed, without sending a request. *)
Theorem departure_stands_in_for_origin :
  (forall (os : environ) (GET GET' : querydict) (w : world) (place : str),
      querydict_get GET (u "origin") = None
      \/ querydict_get GET (u "origin") = Some [] ->
      querydict_get GET (u "departure") = Some place ->
      querydict_get GET' (u "origin") = Some place ->
      place <> [] ->
      querydict_get GET' (u "destination") = querydict_get GET (u "destination") ->
      querydict_get GET' (u "mode") = querydict_get GET (u "mode") ->
      TravelAPIView.get os GET' w = TravelAPIView.get os GET w)
  /\ (forall (os : environ) (GET : querydict) (w : world) (blanks : str),
        querydict_get GET (u "origin") = Some blanks ->
        blanks <> [] ->
        forallb is_space blanks = true ->
        exists r : Response,
          TravelAPIView.get os GET w = (Ok r, w)
          /\ field (u "duration") (data r) = Some VNone
          /\ field (u "steps") (data r) = Some (VList [])
          /\ raw_field (u "errors") r
             = Some (VList [VStr (u "출발지와 도착지가 필요합니다.")])).
Proof.
  split.
  - intros os GET GET' w place Ho Hdep Ho' Np Hd Hm.
    apply get_reads_resolved.
    + unfold resolved_origin. rewrite Ho', Hdep.
      rewrite (opt_or_nonempty place _ Np).
      destruct Ho as [-> | ->]; cbn [opt_or]; reflexivity.
    + unfold resolved_destination. rewrite Hd. reflexivity.
    + unfold resolved_mode. rewrite Hm. reflexivity.
  - intros os GET w blanks Ho Nb Hb.
    assert (E : resolved_origin GET = []).
    { unfold resolved_origin. rewrite Ho, (opt_or_nonempty _ _ Nb).
      rewrite (or_text_nonempty _ _ Nb). apply strip_blank, Hb. }
    unfold TravelAPIView.get.
    fold (resolved_origin GET) (resolved_destination GET) (resolved_mode GET).
    rewrite E. cbn [nonempty andb negb]. unfold ret.
    eexists. split; [reflexivity|]. repeat split.
Qed.

End Parameters.

Section Providers.
Context {ucd : UnicodeData}.

(** X17.  The driving step converts its totals with [int], so totals given
    as the decimal text of an integer of at most 4300 digits (the longest
    text [int] converts) count like the numbers they spell, and a
    [totalTime] text of more digits makes the step raise [ValueError]; the
    transit step uses its totals as they come, and a total given as text
    makes it raise [TypeError] before any [transit_info] is built. *)
Theorem text_totals_suit_the_driving_step_only :
  (forall (f0 props : list (str * pyval)) (fs : list pyval)
          (total_time total_distance : Z) (km : spec_float),
      dict_get (VDict f0) (u "properties") (VDict []) = Ok (VDict props) ->
      assoc (u "totalTime") props = Some (VStr (str_of_Z total_time)) ->
      assoc (u "totalDistance") props = Some (VStr (str_of_Z total_distance)) ->
      Z.abs total_time < 10 ^ 4300 ->
      Z.abs total_distance < 10 ^ 4300 ->
      int_truediv total_distance 1000 = Ok km ->
      TravelAPIView.car_info_of (VList (VDict f0 :: fs))
      = Ok (Some {| time_min := total_time / 60;
                    distance_km := py_round1 km |}))
  /\ (forall (f0 props : list (str * pyval)) (fs : list pyval) (total_time : Z),
        dict_get (VDict f0) (u "properties") (VDict []) = Ok (VDict props) ->
        assoc (u "totalTime") props = Some (VStr (str_of_Z total_time)) ->
        10 ^ 4300 <= total_time ->
        TravelAPIView.car_info_of (VList (VDict f0 :: fs)) = Raise ValueError)
  /\ (forall (it0 : list (str * pyval)) (others : list pyval) (text : str),
        assoc (u "totalTime") it0 = Some (VStr text) ->
        TravelAPIView.transit_info_of (VList (VDict it0 :: others))
        = Raise TypeError).
Proof.
  split; [|split].
  - intros f0 props fs total_time total_distance km Hp Ht Hd Bt Bd Hkm.
    unfold TravelAPIView.car_info_of. cbn [truthy getitem_0 rbind].
    rewrite Hp. cbn [rbind dict_get]. rewrite Ht, Hd. cbn [rbind py_int].
    rewrite (int_of_str_of_Z total_time Bt). cbn [rbind].
    rewrite (int_of_str_of_Z total_distance Bd). cbn [rbind].
    rewrite Hkm. reflexivity.
  - intros f0 props fs total_time Hp Ht Hbig.
    unfold TravelAPIView.car_info_of. cbn [truthy getitem_0 rbind].
    rewrite Hp. cbn [rbind dict_get]. rewrite Ht. cbn [rbind py_int].
    rewrite (int_of_str_too_long total_time Hbig). reflexivity.
  - intros it0 others text Ht.
    unfold TravelAPIView.transit_info_of. cbn [getitem_0 rbind dict_get].
    rewrite Ht. reflexivity.
Qed.

(** X18.  The two route providers do not stand in for each other.  With
    the replies before the driving one fixed, a request whose mode is not
    [transit] gets the same [duration], [distance] and [steps], and raises
    or not alike, whatever the transit provider replies; a [transit]
    request gets the same ones whatever the driving provider replies. *)
Theorem the_other_provider_never_changes_the_route (os : environ)
  (GET : querydict) (before rest : list reply) (cr cr' tr tr' : reply)
  (s : list call) :
  length before = car_index os ->
  let run := fun c t : reply =>
    fst (TravelAPIView.get os GET
           {| inbox := before ++ c :: t :: rest; sent := s |}) in
  (resolved_mode GET <> u "transit" ->
   raised (run cr tr') = raised (run cr tr)
   /\ forall k, k <> u "raw" -> answer k (run cr tr') = answer k (run cr tr))
  /\ (resolved_mode GET = u "transit" ->
      raised (run cr' tr) = raised (run cr tr)
      /\ forall k, k <> u "raw" -> answer k (run cr' tr) = answer k (run cr tr)).
Proof.
  intros Hlen run. subst run. cbv beta.
  rewrite !get_outcome_eq. unfold get_outcome.
  assert (N : forall c t,
    nth_reply 0 {| inbox := before ++ c :: t :: rest; sent := s |}
      = nth 0 before NoReply
    /\ nth_reply 1 {| inbox := before ++ c :: t :: rest; sent := s |}
      = nth 1 before NoReply
    /\ nth_reply (car_index os) {| inbox := before ++ c :: t :: rest; sent := s |}
      = c
    /\ nth_reply (S (car_index os))
         {| inbox := before ++ c :: t :: rest; sent := s |} = t
    /\ (nonempty (environ_get (OPENWEATHER_API_KEY os) []) = true ->
        nth_reply 2 {| inbox := before ++ c :: t :: rest; sent := s |}
        = nth 2 before NoReply)).
  { intros c t. unfold nth_reply. cbn [inbox]. rewrite <- Hlen.
    unfold car_index in Hlen.
    destruct (nonempty (environ_get (OPENWEATHER_API_KEY os) []));
      destruct before as [|g1 [|g2 [|g3 [|g4 more]]]]; try discriminate Hlen;
      repeat split; try reflexivity; intros X; discriminate X. }
  destruct (negb (nonempty (resolved_origin GET)
                  && nonempty (resolved_destination GET))).
  { repeat split. }
  destruct (negb (nonempty (environ_get (TMAP_APP_KEY os) []))).
  { repeat split. }
  assert (R : forall c t c' t',
    (resolved_mode GET <> u "transit" -> c' = c)
    -> (resolved_mode GET = u "transit" -> t' = t)
    -> let b := final_bundle os GET
                  (nth_reply 2 {| inbox := before ++ c :: t :: rest; sent := s |})
                  c t in
       let b' := final_bundle os GET
                   (nth_reply 2 {| inbox := before ++ c' :: t' :: rest; sent := s |})
                   c' t' in
       raised (final_response b') = raised (final_response b)
       /\ forall k, k <> u "raw" ->
          answer k (final_response b') = answer k (final_response b)).
  { intros c t c' t' Hc Ht b b'. unfold final_response.
    change (raw_mode b') with (resolved_mode GET).
    change (raw_mode b) with (resolved_mode GET).
    change (raw_departure b') with (raw_departure b).
    change (raw_destination b') with (raw_destination b).
    change (raw_car_info b') with (fst (fst (TravelAPIView.car_try c'))).
    change (raw_car_info b) with (fst (fst (TravelAPIView.car_try c))).
    change (raw_transit_info b') with (fst (fst (TravelAPIView.transit_try t'))).
    change (raw_transit_info b) with (fst (fst (TravelAPIView.transit_try t))).
    change (raw_transit_steps b') with (snd (fst (TravelAPIView.transit_try t'))).
    change (raw_transit_steps b) with (snd (fst (TravelAPIView.transit_try t))).
    unfold TravelAPIView.shape.
    destruct (str_eqb (resolved_mode GET) (u "transit")) eqn:T.
    - apply str_eqb_eq in T. rewrite (Ht T), T.
      change (str_eqb (u "transit") (u "car")) with false.
      change (str_eqb (u "transit") (u "walk")) with false. cbv iota.
      destruct (fst (fst (TravelAPIView.transit_try t))) as [ti|];
        (split; [reflexivity|]); intros k Hk; cbn [answer data];
        apply route_body_field; exact Hk.
    - assert (E : c' = c).
      { apply Hc. intros X. rewrite X in T. discriminate T. }
      rewrite E.
      destruct (if str_eqb (resolved_mode GET) (u "car")
                then fst (fst (TravelAPIView.car_try c)) else None) as [ci|].
      { split; [reflexivity|]. intros k Hk. cbn [answer data].
        apply route_body_field; exact Hk. }
      destruct (if str_eqb (resolved_mode GET) (u "walk")
                then fst (fst (TravelAPIView.car_try c)) else None) as [ci|].
      { destruct (TravelAPIView.walk_minutes_of ci) as [m|e]; cbn [rbind];
          (split; [reflexivity|]); intros k Hk; [|reflexivity].
        cbn [answer data]. apply route_body_field; exact Hk. }
      split; [reflexivity|]. intros k Hk. cbn [answer data].
      apply route_body_field; exact Hk. }
  destruct (N cr tr) as (N0 & N1 & N2 & N3 & _).
  destruct (N cr tr') as (N0' & N1' & N2' & N3' & _).
  destruct (N cr' tr) as (N0'' & N1'' & N2'' & N3'' & _).
  rewrite N0, N1, N2, N3, N0', N1', N2', N3', N0'', N1'', N2'', N3''.
  destruct (is_some (geocoded (nth 0 before NoReply))
            && is_some (geocoded (nth 1 before NoReply))).
  2:{ repeat split. }
  split; intros Hm.
  - apply (R cr tr cr tr'); [reflexivity|]. intros X. contradiction.
  - apply (R cr tr cr' tr); [|reflexivity]. intros X. contradiction.
Qed.

End Providers.

(** *** On the sample data *)

Lemma missing_credential_stops_early_witness :
  exists r,
    TravelAPIView.get
      {| TMAP_APP_KEY := None; KAKAO_JS_KEY := None; OPENWEATHER_API_KEY := None |}
      (sample_query "car")
      (sample_world weather_reply (car_reply 2400 23456) transit_reply)
    = (Ok r, sample_world weather_reply (car_reply 2400 23456) transit_reply)
    /\ field (u "duration") (data r) = Some VNone.
Proof.
  destruct (missing_credential_stops_early
              {| TMAP_APP_KEY := None; KAKAO_JS_KEY := None;
                 OPENWEATHER_API_KEY := None |}
              (sample_query "car")
              (sample_world weather_reply (car_reply 2400 23456) transit_reply))
    as (r & E & _ & D & _); try reflexivity.
  exists r. split; [exact E|exact D].
Defined.

(** The departure is found, the destination is not (an empty list of
    matches). *)
Lemma unresolved_places_are_reported_witness :
  exists r b,
    fst (TravelAPIView.get sample_environ (sample_query "car")
           {| inbox := [ poi_reply (VList [noor_poi "37.1937" "127.0227"]);
                         poi_reply (VList []) ];
              sent := [] |}) = Ok r
    /\ data r = route_body None None [] b
    /\ raw_errors b = [u "'경복궁' 좌표 변환 실패"].
Proof.
  destruct (unresolved_places_are_reported sample_environ (sample_query "car")
              {| inbox := [ poi_reply (VList [noor_poi "37.1937" "127.0227"]);
                            poi_reply (VList []) ];
                 sent := [] |})
    as (_ & _ & r & b & E & _ & D & Er & _).
  1-3: reflexivity.
  - right. reflexivity.
  - exists r, b. split; [exact E|]. split; [exact D|]. rewrite Er.
    vm_compute. reflexivity.
Defined.

Lemma route_requests_in_order_witness :
  sent (snd (TravelAPIView.get sample_environ (sample_query "transit")
               (sample_world weather_reply (car_reply 2400 23456) transit_reply)))
  = [ PoiSearch (u "tmap-key") (u "한신대");
      PoiSearch (u "tmap-key") (u "경복궁");
      Weather (round_ratio false 375796 10000) (round_ratio false 126977 1000)
        (u "weather-key");
      CarRoute (u "tmap-key") (u "127.0227") (u "37.1937") (u "126.977")
        (u "37.5796");
      TransitRoute (u "tmap-key") (u "127.0227") (u "37.1937") (u "126.977")
        (u "37.5796") ].
Proof.
  destruct (route_requests_in_order sample_environ (sample_query "transit")
              (sample_world weather_reply (car_reply 2400 23456) transit_reply)
              (round_ratio false 371937 10000) (round_ratio false 1270227 10000)
              (round_ratio false 375796 10000) (round_ratio false 126977 1000))
    as (E & _).
  1-5: vm_compute; reflexivity.
  rewrite E. vm_compute. reflexivity.
Defined.

(** A weather request answered with a 500 leaves the car answer as it is
    with a good weather reply. *)
Lemma weather_never_changes_the_route_witness :
  answer (u "duration")
    (fst (TravelAPIView.get sample_environ (sample_query "car")
            (sample_world (Reply 500 None) (car_reply 2400 23456) transit_reply)))
  = answer (u "duration")
      (fst (TravelAPIView.get sample_environ (sample_query "car")
              (sample_world weather_reply (car_reply 2400 23456) transit_reply))).
Proof.
  destruct (weather_never_changes_the_route sample_environ (sample_query "car")
              (poi_reply (VList [noor_poi "37.1937" "127.0227"]))
              (poi_reply (VList [noor_poi "37.5796" "126.9770"]))
              weather_reply (Reply 500 None)
              [car_reply 2400 23456; transit_reply] [] eq_refl) as (A & _).
  apply (A (u "duration")). intros E. vm_compute in E. discriminate E.
Defined.

(** A walk request and a car request for the same places leave the network
    in the same state. *)
Lemma mode_never_changes_the_upstream_work_witness :
  snd (TravelAPIView.get sample_environ (sample_query "walk")
         (sample_world weather_reply (car_reply 2400 23456) transit_reply))
  = snd (TravelAPIView.get sample_environ (sample_query "car")
           (sample_world weather_reply (car_reply 2400 23456) transit_reply)).
Proof.
  assert (Ho : resolved_origin (sample_query "walk")
               = resolved_origin (sample_query "car"))
    by (vm_compute; reflexivity).
  assert (Hd : resolved_destination (sample_query "walk")
               = resolved_destination (sample_query "car"))
    by (vm_compute; reflexivity).
  exact (proj1 (mode_never_changes_the_upstream_work sample_environ
                  (sample_query "car") (sample_query "walk")
                  (sample_world weather_reply (car_reply 2400 23456) transit_reply)
                  Ho Hd)).
Defined.

(** The overflowing walking estimate. *)
Lemma only_the_walking_estimate_can_raise_witness :
  resolved_mode (sample_query "walk") = u "walk"
  /\ exists ci : car_info_t,
       fst (fst (TravelAPIView.car_try (car_reply 600 (10 ^ 311)))) = Some ci
       /\ is_finite (walk_product (distance_km ci)) = false.
Proof.
  assert (E : fst (TravelAPIView.get sample_environ (sample_query "walk")
                     (sample_world weather_reply (car_reply 600 (10 ^ 311))
                        transit_reply)) = Raise OverflowError)
    by (vm_compute; reflexivity).
  destruct (only_the_walking_estimate_can_raise _ _ _ _ E) as (_ & M & ci & C & F).
  split; [exact M|]. exists ci. split; [exact C|exact F].
Defined.

Lemma answers_are_all_or_nothing_witness :
  exists r : Response,
    fst (TravelAPIView.get sample_environ (sample_query "car")
           (sample_world weather_reply (car_reply 2400 23456) transit_reply))
    = Ok r
    /\ status r = HTTP_200_OK.
Proof.
  assert (E : exists r : Response,
             fst (TravelAPIView.get sample_environ (sample_query "car")
                    (sample_world weather_reply (car_reply 2400 23456)
                       transit_reply)) = Ok r)
    by (vm_compute; eexists; reflexivity).
  destruct E as [r E]. exists r. split; [exact E|].
  exact (proj1 (answers_are_all_or_nothing _ _ _ r E)).
Defined.

(** A transit request when the transit provider fails: no route, although
    the driving route is there. *)
Lemma no_route_without_the_modes_own_data_witness :
  exists r : Response,
    fst (TravelAPIView.get sample_environ (sample_query "transit")
           (sample_world weather_reply (car_reply 2400 23456) (Reply 500 None)))
    = Ok r
    /\ field (u "duration") (data r) = Some VNone.
Proof.
  assert (E : exists r : Response,
             fst (TravelAPIView.get sample_environ (sample_query "transit")
                    (sample_world weather_reply (car_reply 2400 23456)
                       (Reply 500 None))) = Ok r)
    by (vm_compute; eexists; reflexivity).
  destruct E as [r E]. exists r. split; [exact E|].
  destruct (no_route_without_the_modes_own_data sample_environ
              (sample_query "transit")
              (sample_world weather_reply (car_reply 2400 23456) (Reply 500 None))
              r) as [[_ B] _]; try exact E; try (vm_compute; reflexivity).
  apply B. vm_compute. reflexivity.
Defined.

Lemma answers_echo_the_request_witness :
  exists (r : Response) (raw : pyval),
    fst (TravelAPIView.get sample_environ (sample_query "car")
           (sample_world weather_reply (car_reply 2400 23456) transit_reply))
    = Ok r
    /\ field (u "raw") (data r) = Some raw
    /\ field (u "kakao_js_key") raw = Some (VStr (u "kakao-key")).
Proof.
  assert (E : exists r : Response,
             fst (TravelAPIView.get sample_environ (sample_query "car")
                    (sample_world weather_reply (car_reply 2400 23456)
                       transit_reply)) = Ok r)
    by (vm_compute; eexists; reflexivity).
  destruct E as [r E].
  destruct (answers_echo_the_request _ _ _ r E) as (raw & R & _ & K & _).
  exists r, raw. split; [exact E|]. split; [exact R|]. exact K.
Defined.

(** The sample driving reply: one line of two coordinates. *)
Lemma car_path_follows_the_line_strings_witness :
  snd (fst (TravelAPIView.car_try (car_reply 2400 23456)))
  = [ VDict [(u "lat", VFloat (float_of_Z 37)); (u "lng", VFloat (float_of_Z 127))];
      VDict [(u "lat", VFloat (float_of_Z 38)); (u "lng", VFloat (float_of_Z 128))] ].
Proof.
  rewrite (car_path_follows_the_line_strings (car_reply 2400 23456)
             (VDict [(u "type", VStr (u "FeatureCollection"));
                     (u "features",
                       VList [sample_feature [(u "totalDistance", VInt 23456);
                                              (u "totalTime", VInt 2400)]])])
             [sample_feature [(u "totalDistance", VInt 23456);
                              (u "totalTime", VInt 2400)]]
             [[(VFloat (float_of_Z 127), VFloat (float_of_Z 37));
               (VFloat (float_of_Z 128), VFloat (float_of_Z 38))]]
             (Some {| time_min := 40; distance_km := round_ratio false 235 10 |})).
  - reflexivity.
  - reflexivity.
  - reflexivity.
  - vm_compute. reflexivity.
  - constructor; [reflexivity|constructor].
Defined.

(** A driving reply whose second coordinate has one component only. *)
Lemma malformed_coordinate_keeps_the_totals_witness :
  let feature :=
    VDict [(u "geometry",
             VDict [(u "type", VStr (u "LineString"));
                    (u "coordinates",
                      VList [VList [VInt 127; VInt 37]; VList [VInt 128]])]);
           (u "properties", VDict [(u "totalTime", VInt 2400);
                                   (u "totalDistance", VInt 23456)])] in
  let after :=
    fst (TravelAPIView.car_step (u "tmap-key") (float_of_Z 37) (float_of_Z 127)
           (float_of_Z 38) (float_of_Z 128)
           (blank_bundle sample_environ (sample_query "car"))
           {| inbox := [Reply 200 (Some (VDict [(u "features", VList [feature])]))];
              sent := [] |}) in
  raw_car_info after
  = Some {| time_min := 40; distance_km := round_ratio false 235 10 |}
  /\ raw_car_path after = [VDict [(u "lat", VInt 37); (u "lng", VInt 127)]]
  /\ raw_errors after = [u "자동차 경로 조회 실패"].
Proof.
  intros feature.
  exact (malformed_coordinate_keeps_the_totals (u "tmap-key") (float_of_Z 37)
           (float_of_Z 127) (float_of_Z 38) (float_of_Z 128)
           (blank_bundle sample_environ (sample_query "car"))
           {| inbox := [Reply 200 (Some (VDict [(u "features", VList [feature])]))];
              sent := [] |}
           (VDict [(u "features", VList [feature])])
           [] [] feature (VList [VInt 128]) [] [(VInt 127, VInt 37)] []
           (Some {| time_min := 40; distance_km := round_ratio false 235 10 |})
           ValueError
           eq_refl eq_refl
           ltac:(vm_compute; reflexivity)
           (Forall2_nil _) eq_refl eq_refl).
Defined.

(** The sample itinerary: 3000 s and 15200 m. *)
Lemma transit_totals_witness :
  exists ti : transit_info_t,
    TravelAPIView.transit_info_of
      (VList [VDict [(u "totalTime", VInt 3000); (u "totalDistance", VInt 15200);
                     (u "transferCount", VInt 1); (u "pathType", VInt 1);
                     (u "legs", VList [subway_leg])]])
    = Ok (VDict [(u "totalTime", VInt 3000); (u "totalDistance", VInt 15200);
                 (u "transferCount", VInt 1); (u "pathType", VInt 1);
                 (u "legs", VList [subway_leg])], ti)
    /\ total_time_min ti = VInt 50
    /\ py_repr_float (total_distance_km ti) = u "15.2".
Proof.
  destruct (transit_totals
              [(u "totalTime", VInt 3000); (u "totalDistance", VInt 15200);
               (u "transferCount", VInt 1); (u "pathType", VInt 1);
               (u "legs", VList [subway_leg])]
              [] 3000 15200 (round_ratio false 15200 1000)
              eq_refl eq_refl ltac:(vm_compute; reflexivity))
    as (ti & E & T & D & _).
  exists ti. split; [exact E|]. split; [exact T|].
  rewrite D. vm_compute. reflexivity.
Defined.

Lemma transit_answer_witness :
  exists r : Response,
    fst (TravelAPIView.get sample_environ (sample_query "transit")
           (sample_world weather_reply (car_reply 2400 23456) transit_reply))
    = Ok r
    /\ field (u "duration") (data r) = Some (VStr (u "약 50분"))
    /\ field (u "distance") (data r) = Some (VStr (u "15.2 km"))
    /\ field (u "steps") (data r)
       = Some (VList [VStr (u "A역 → B역 (지하철) 약 5분")]).
Proof.
  destruct (transit_answer sample_environ (sample_query "transit")
              (sample_world weather_reply (car_reply 2400 23456) transit_reply)
              {| total_time_min := VInt 50;
                 total_distance_km := round_ratio false 152 10;
                 transfer_count := VInt 1;
                 path_type := VInt 1 |})
    as (r & b & E & _ & D & _ & S).
  1-7: vm_compute; reflexivity.
  exists r. split; [exact E|]. rewrite D, S.
  repeat split; vm_compute; reflexivity.
Defined.

(** Two legs give two steps. *)
Lemma transit_steps_are_numbered_witness :
  exists steps : list transit_step,
    TravelAPIView.transit_legs [subway_leg; subway_leg] 1 [] = (steps, None)
    /\ length steps = 2%nat.
Proof.
  assert (E : exists steps : list transit_step,
             TravelAPIView.transit_legs [subway_leg; subway_leg] 1 []
             = (steps, None))
    by (vm_compute; eexists; reflexivity).
  destruct E as [steps E]. exists steps. split; [exact E|].
  exact (proj2 (transit_steps_are_numbered _ _ _ E)).
Defined.

Lemma weather_needs_temperature_and_description_witness :
  TravelAPIView.weather_try weather_reply
  = Ok (VDict [ (u "name", VStr (u "Seoul"));
                (u "temp", VFloat (round_ratio false 123 10));
                (u "desc", VStr (u "맑음")) ]).
Proof.
  exact (proj1 (weather_needs_temperature_and_description weather_reply
                  [(u "name", VStr (u "Seoul"));
                   (u "main", VDict [(u "temp", VFloat (round_ratio false 123 10))]);
                   (u "weather", VList [VDict [(u "description", VStr (u "맑음"))]])]
                  eq_refl)
               [(u "temp", VFloat (round_ratio false 123 10))]
               [(u "description", VStr (u "맑음"))] []
               (VFloat (round_ratio false 123 10)) (VStr (u "맑음"))
               eq_refl eq_refl eq_refl eq_refl).
Defined.

(** [origin= 한신대 ], [destination=경복궁 ] and [mode= car] are handled
    like the sample query. *)
Lemma surrounding_blanks_are_ignored_witness :
  TravelAPIView.get sample_environ
    [ (u "origin", u " 한신대 "); (u "destination", u "경복궁 ");
      (u "mode", u " car") ]
    (sample_world weather_reply (car_reply 2400 23456) transit_reply)
  = TravelAPIView.get sample_environ (sample_query "car")
      (sample_world weather_reply (car_reply 2400 23456) transit_reply).
Proof.
  apply (surrounding_blanks_are_ignored sample_environ (sample_query "car")
           [ (u "origin", u " 한신대 "); (u "destination", u "경복궁 ");
             (u "mode", u " car") ]
           (sample_world weather_reply (car_reply 2400 23456) transit_reply)
           (u "한신대") (u " 한신대 ") (u "경복궁") (u "경복궁 ")
           (u "car") (u " car")).
  1-6: vm_compute; reflexivity.
  - intros E. vm_compute in E. discriminate E.
  - intros E. vm_compute in E. discriminate E.
  - exists [32%N], [32%N]. repeat split; vm_compute; reflexivity.
  - exists [], [32%N]. repeat split; vm_compute; reflexivity.
  - exists [32%N], []. repeat split; vm_compute; reflexivity.
Defined.

(** [departure=한신대] without [origin] is handled like [origin=한신대];
    [origin=%20] with [departure=한신대] is refused. *)
Lemma departure_stands_in_for_origin_witness :
  TravelAPIView.get sample_environ (sample_query "car")
    (sample_world weather_reply (car_reply 2400 23456) transit_reply)
  = TravelAPIView.get sample_environ
      [ (u "departure", u "한신대"); (u "destination", u "경복궁");
        (u "mode", u "car") ]
      (sample_world weather_reply (car_reply 2400 23456) transit_reply)
  /\ exists r : Response,
       TravelAPIView.get sample_environ
         [ (u "origin", u " "); (u "departure", u "한신대");
           (u "destination", u "경복궁") ]
         (sample_world weather_reply (car_reply 2400 23456) transit_reply)
       = (Ok r, sample_world weather_reply (car_reply 2400 23456) transit_reply)
       /\ field (u "duration") (data r) = Some VNone.
Proof.
  destruct (@departure_stands_in_for_origin plain_tables) as [A B]. split.
  - apply (A sample_environ
             [ (u "departure", u "한신대"); (u "destination", u "경복궁");
               (u "mode", u "car") ]
             (sample_query "car")
             (sample_world weather_reply (car_reply 2400 23456) transit_reply)
             (u "한신대")).
    + left. vm_compute. reflexivity.
    + vm_compute. reflexivity.
    + vm_compute. reflexivity.
    + intros E. vm_compute in E. discriminate E.
    + vm_compute. reflexivity.
    + vm_compute. reflexivity.
  - destruct (B sample_environ
                [ (u "origin", u " "); (u "departure", u "한신대");
                  (u "destination", u "경복궁") ]
                (sample_world weather_reply (car_reply 2400 23456) transit_reply)
                (u " ")) as (r & E & D & _).
    + vm_compute. reflexivity.
    + intros E. vm_compute in E. discriminate E.
    + vm_compute. reflexivity.
    + exists r. split; [exact E|exact D].
Defined.

(** Totals given as the texts "2400" and "23456". *)
Lemma text_totals_suit_the_driving_step_only_witness :
  TravelAPIView.car_info_of
    (VList [VDict [(u "properties",
                     VDict [(u "totalTime", VStr (u "2400"));
                            (u "totalDistance", VStr (u "23456"))])]])
  = Ok (Some {| time_min := 40; distance_km := round_ratio false 235 10 |})
  /\ TravelAPIView.car_info_of
       (VList [VDict [(u "properties",
                        VDict [(u "totalTime", VStr (str_of_Z (10 ^ 4300)))])]])
     = Raise ValueError
  /\ TravelAPIView.transit_info_of
       (VList [VDict [(u "totalTime", VStr (u "3000"))]])
     = Raise TypeError.
Proof.
  destruct (@text_totals_suit_the_driving_step_only plain_tables) as (A & L & B).
  split; [|split].
  - rewrite (A [(u "properties",
                  VDict [(u "totalTime", VStr (u "2400"));
                         (u "totalDistance", VStr (u "23456"))])]
               [(u "totalTime", VStr (u "2400"));
                (u "totalDistance", VStr (u "23456"))]
               [] 2400 23456 (round_ratio false 23456 1000)).
    + vm_compute. reflexivity.
    + vm_compute. reflexivity.
    + vm_compute. reflexivity.
    + vm_compute. reflexivity.
    + vm_compute. reflexivity.
    + vm_compute. reflexivity.
    + vm_compute. reflexivity.
  - apply (L [(u "properties",
                VDict [(u "totalTime", VStr (str_of_Z (10 ^ 4300)))])]
             [(u "totalTime", VStr (str_of_Z (10 ^ 4300)))] [] (10 ^ 4300)).
    + reflexivity.
    + reflexivity.
    + apply Z.le_refl.
  - apply (B [(u "totalTime", VStr (u "3000"))] [] (u "3000")).
    vm_compute. reflexivity.
Defined.

(** A car request while the transit provider is down. *)
Lemma the_other_provider_never_changes_the_route_witness :
  answer (u "duration")
    (fst (TravelAPIView.get sample_environ (sample_query "car")
            (sample_world weather_reply (car_reply 2400 23456) (Reply 500 None))))
  = answer (u "duration")
      (fst (TravelAPIView.get sample_environ (sample_query "car")
              (sample_world weather_reply (car_reply 2400 23456) transit_reply))).
Proof.
  destruct (the_other_provider_never_changes_the_route sample_environ
              (sample_query "car")
              [ poi_reply (VList [noor_poi "37.1937" "127.0227"]);
                poi_reply (VList [noor_poi "37.5796" "126.9770"]);
                weather_reply ]
              [] (car_reply 2400 23456) (car_reply 2400 23456)
              transit_reply (Reply 500 None) [] eq_refl) as [A _].
  destruct A as [_ A].
  - intros E. vm_compute in E. discriminate E.
  - apply (A (u "duration")). intros E. vm_compute in E. discriminate E.
Defined.

(** *** Where coordinates come from *)

Section GeocodeShape.
Context {ucd : UnicodeData}.

(** What a reply must look like for [geocoded] to make a coordinate of it. *)
Lemma geocoded_well_formed (r : reply)
  (lat lon : spec_float) :
  geocoded r = Some (lat, lon) ->
  exists (st : Z) (data spi pois poi0 : list (str * pyval)),
    r = Reply st (Some (VDict data))
    /\ (400 <=? st) && (st <? 600) = false
    /\ assoc (u "searchPoiInfo") data = Some (VDict spi)
    /\ assoc (u "pois") spi = Some (VDict pois)
    /\ (assoc (u "poi") pois = Some (VDict poi0)
        \/ exists others, assoc (u "poi") pois = Some (VList (VDict poi0 :: others)))
    /\ first_truthy poi0 lat_fields <> VNone
    /\ first_truthy poi0 lon_fields <> VNone
    /\ py_float (first_truthy poi0 lat_fields) = Ok lat
    /\ py_float (first_truthy poi0 lon_fields) = Ok lon.
Proof.
  unfold geocoded, poi_coord.
  destruct r as [|st [data|]]; cbn [fetch_json rbind]; try discriminate.
  2:{ destruct ((400 <=? st) && (st <? 600)); discriminate. }
  destruct ((400 <=? st) && (st <? 600)) eqn:Hst; cbn [rbind];
    [discriminate|].
  destruct data as [| | | | | |data]; cbn [dict_get rbind]; try discriminate.
  destruct (assoc (u "searchPoiInfo") data) as [spi|] eqn:Hspi;
    cbn [truthy negb]; [|discriminate].
  destruct (truthy spi) eqn:Tspi; cbn [negb]; [|discriminate].
  destruct spi as [| | | | | |spi]; cbn [dict_get rbind]; try discriminate.
  destruct (assoc (u "pois") spi) as [pois|] eqn:Hpois.
  2:{ cbn [dict_get rbind assoc truthy negb]. discriminate. }
  destruct pois as [| | | | | |pois]; cbn [dict_get rbind]; try discriminate.
  destruct (assoc (u "poi") pois) as [poi|] eqn:Hpoi;
    cbn [truthy negb]; [|discriminate].
  destruct (truthy poi) eqn:Tpoi; cbn [negb]; [|discriminate].
  assert (Finish : forall (d : list (str * pyval)) (x y : spec_float),
    (if is_none (first_truthy d lat_fields) || is_none (first_truthy d lon_fields)
     then Ok None
     else rbind (py_float (first_truthy d lat_fields)) (fun la =>
          rbind (py_float (first_truthy d lon_fields)) (fun lo =>
          Ok (Some (la, lo))))) = Ok (Some (x, y)) ->
    first_truthy d lat_fields <> VNone
    /\ first_truthy d lon_fields <> VNone
    /\ py_float (first_truthy d lat_fields) = Ok x
    /\ py_float (first_truthy d lon_fields) = Ok y).
  { intros d x y.
    destruct (is_none (first_truthy d lat_fields)) eqn:Nla; cbn [orb];
      [discriminate|].
    destruct (is_none (first_truthy d lon_fields)) eqn:Nlo; [discriminate|].
    destruct (py_float (first_truthy d lat_fields)) as [la|] eqn:Fx;
      cbn [rbind]; [|discriminate].
    destruct (py_float (first_truthy d lon_fields)) as [lo|] eqn:Fy;
      cbn [rbind]; [|discriminate].
    intros [= <- <-].
    split; [intros E; rewrite E in Nla; discriminate Nla|].
    split; [intros E; rewrite E in Nlo; discriminate Nlo|].
    split; reflexivity. }
  assert (Dict : forall d : list (str * pyval),
    match
      rbind (get_chain (VDict d) (u "frontLat") (u "frontlat") (u "noorLat") (u "lat"))
        (fun la =>
         rbind (get_chain (VDict d) (u "frontLon") (u "frontlon") (u "noorLon")
                  (u "lon"))
           (fun lo =>
            if is_none la || is_none lo then Ok None
            else rbind (py_float la) (fun x =>
                 rbind (py_float lo) (fun y => Ok (Some (x, y))))))
    with
    | Ok c => c
    | Raise _ => None
    end = Some (lat, lon) ->
    first_truthy d lat_fields <> VNone
    /\ first_truthy d lon_fields <> VNone
    /\ py_float (first_truthy d lat_fields) = Ok lat
    /\ py_float (first_truthy d lon_fields) = Ok lon).
  { intros d. rewrite !get_chain_first_truthy. cbn [rbind].
    change [u "frontLat"; u "frontlat"; u "noorLat"; u "lat"] with lat_fields.
    change [u "frontLon"; u "frontlon"; u "noorLon"; u "lon"] with lon_fields.
    intros H. apply Finish.
    destruct (if is_none (first_truthy d lat_fields)
                 || is_none (first_truthy d lon_fields) then _ else _)
      as [[c|]|]; try discriminate H. injection H as ->. reflexivity. }
  destruct poi as [| | | | |l|d0]; cbn [rbind];
    try (unfold get_chain; cbn [dict_get rbind]; discriminate).
  - destruct l as [|p0 others]; [discriminate Tpoi|].
    cbn [getitem_0 rbind].
    destruct p0 as [| | | | | |d];
      try (unfold get_chain; cbn [dict_get rbind]; discriminate).
    intros H. destruct (Dict d H) as (H1 & H2 & H3 & H4).
    exists st, data, spi, pois, d. repeat split; auto.
    right. exists others. exact Hpoi.
  - intros H. destruct (Dict d0 H) as (H1 & H2 & H3 & H4).
    exists st, data, spi, pois, d0. repeat split; auto.
Qed.

(** X20.  [tmap_geocode] returns a coordinate only after sending its one
    request, with a non-empty keyword and key, and only from a well-formed
    reply: a status outside 400-599 and a JSON object with an object under
    [searchPoiInfo], an object under its [pois], and under its [poi] either
    a match or a list that starts with one; the latitude and the longitude
    are the [float] of the values the two chains of fields give in that
    match, neither of which is null. *)
Theorem coordinates_come_from_well_formed_replies (keyword app_key : str)
  (w : world) (lat lon : spec_float) :
  fst (tmap_geocode keyword app_key w) = Some (lat, lon) ->
  nonempty keyword = true
  /\ nonempty app_key = true
  /\ sent (snd (tmap_geocode keyword app_key w))
     = sent w ++ [PoiSearch app_key keyword]
  /\ exists (st : Z) (data spi pois poi0 : list (str * pyval)),
       hd NoReply (inbox w) = Reply st (Some (VDict data))
       /\ (400 <=? st) && (st <? 600) = false
       /\ assoc (u "searchPoiInfo") data = Some (VDict spi)
       /\ assoc (u "pois") spi = Some (VDict pois)
       /\ (assoc (u "poi") pois = Some (VDict poi0)
           \/ exists others,
                assoc (u "poi") pois = Some (VList (VDict poi0 :: others)))
       /\ first_truthy poi0 lat_fields <> VNone
       /\ first_truthy poi0 lon_fields <> VNone
       /\ py_float (first_truthy poi0 lat_fields) = Ok lat
       /\ py_float (first_truthy poi0 lon_fields) = Ok lon.
Proof.
  destruct (nonempty keyword) eqn:Hk;
    [|unfold tmap_geocode; rewrite Hk; discriminate].
  destruct (nonempty app_key) eqn:Ha;
    [|unfold tmap_geocode; rewrite Hk, Ha; discriminate].
  rewrite (tmap_geocode_eq keyword app_key w Hk Ha). cbn [fst snd sent].
  intros H. split; [reflexivity|]. split; [reflexivity|].
  split; [reflexivity|]. exact (geocoded_well_formed _ _ _ H).
Qed.

End GeocodeShape.

(** The sample lookup of the destination. *)
Lemma coordinates_come_from_well_formed_replies_witness :
  exists poi0 : list (str * pyval),
    first_truthy poi0 lat_fields <> VNone
    /\ py_float (first_truthy poi0 lat_fields)
       = Ok (round_ratio false 375796 10000).
Proof.
  destruct (coordinates_come_from_well_formed_replies (u "경복궁") (u "tmap-key")
              {| inbox := [poi_reply (VList [noor_poi "37.5796" "126.9770"])];
                 sent := [] |}
              (round_ratio false 375796 10000) (round_ratio false 126977 1000))
    as (_ & _ & _ & st & data & spi & pois & poi0 & _ & _ & _ & _ & _ & N & _ & L & _).
  - vm_compute. reflexivity.
  - exists poi0. split; [exact N|exact L].
Defined.

(** *** The car answer and the error list *)

Section CarAnswer.
Context {ucd : UnicodeData}.

(** X21.  In a [car]-mode request that passes validation, the credential
    check and geocoding, once the driving step has produced a [car_info]
    the answer is a success whatever the weather and transit steps did:
    the duration is "약 N분" with [time_min], the distance [distance_km]
    followed by " km", and the steps are the three lines naming the
    departure, the distance and the destination. *)
Theorem car_answer (os : environ) (GET : querydict) (w : world)
  (ci : car_info_t) :
  nonempty (resolved_origin GET) = true ->
  nonempty (resolved_destination GET) = true ->
  nonempty (environ_get (TMAP_APP_KEY os) []) = true ->
  resolved_mode GET = u "car" ->
  is_some (geocoded (nth_reply 0 w)) = true ->
  is_some (geocoded (nth_reply 1 w)) = true ->
  fst (fst (TravelAPIView.car_try (nth_reply (car_index os) w))) = Some ci ->
  exists (r : Response) (b : bundle),
    fst (TravelAPIView.get os GET w) = Ok r
    /\ status r = HTTP_200_OK
    /\ data r =
         route_body
           (Some (u "약 " ++ str_of_Z (time_min ci) ++ u "분"))
           (Some (py_repr_float (distance_km ci) ++ u " km"))
           [ resolved_origin GET ++ u "에서 출발";
             u "Tmap 자동차 경로를 따라 이동 (약 "
               ++ py_repr_float (distance_km ci) ++ u "km)";
             resolved_destination GET ++ u " 도착" ]
           b
    /\ raw_car_info b = Some ci
    /\ raw_car_path b
       = snd (fst (TravelAPIView.car_try (nth_reply (car_index os) w))).
Proof.
  intros Ho Hd Hk Hm G1 G2 Hc.
  rewrite (get_outcome_shaped os GET w Ho Hd Hk G1 G2).
  unfold final_response.
  set (b := final_bundle _ _ _ _ _).
  assert (Em : raw_mode b = u "car") by exact Hm.
  assert (Ec : raw_car_info b = Some ci) by exact Hc.
  rewrite Em, Ec, shape_car.
  exists {| data := route_body
               (Some (u "약 " ++ str_of_Z (time_min ci) ++ u "분"))
               (Some (py_repr_float (distance_km ci) ++ u " km"))
               [ raw_departure b ++ u "에서 출발";
                 u "Tmap 자동차 경로를 따라 이동 (약 "
                   ++ py_repr_float (distance_km ci) ++ u "km)";
                 raw_destination b ++ u " 도착" ] b;
            status := HTTP_200_OK |}, b.
  repeat (split; [reflexivity|]). split; [exact Ec|reflexivity].
Qed.

(** X22.  Past validation, the credential check and geocoding, the error
    list of an answer tells which steps failed, in the order of the steps
    and each at most once: the weather note if a weather key is configured
    and the lookup raised, the driving note if the driving step raised,
    the transit note if the transit step raised, and last the no-route
    note exactly when [duration] is null. *)
Theorem errors_tell_which_steps_failed (os : environ) (GET : querydict)
  (w : world) (r : Response) :
  nonempty (resolved_origin GET) = true ->
  nonempty (resolved_destination GET) = true ->
  nonempty (environ_get (TMAP_APP_KEY os) []) = true ->
  is_some (geocoded (nth_reply 0 w)) = true ->
  is_some (geocoded (nth_reply 1 w)) = true ->
  fst (TravelAPIView.get os GET w) = Ok r ->
  exists (du di : option str) (st : list str) (b : bundle),
    data r = route_body du di st b
    /\ raw_errors b
       = (if nonempty (environ_get (OPENWEATHER_API_KEY os) [])
             && raised (TravelAPIView.weather_try (nth_reply 2 w))
          then [u "날씨 정보 조회 실패"] else [])
         ++ (if is_some (snd (TravelAPIView.car_try (nth_reply (car_index os) w)))
             then [u "자동차 경로 조회 실패"] else [])
         ++ (if is_some
                  (snd (TravelAPIView.transit_try (nth_reply (S (car_index os)) w)))
             then [u "대중교통 경로 조회 실패"] else [])
         ++ (match du with
             | None => [u "적절한 경로를 찾지 못했습니다."]
             | Some _ => []
             end).
Proof.
  intros Ho Hd Hk G1 G2.
  rewrite (get_outcome_shaped os GET w Ho Hd Hk G1 G2).
  unfold final_response.
  set (b := final_bundle _ _ _ _ _).
  destruct (TravelAPIView.shape _ _ _ _ _ _) as [[[[du|] di] st]|e];
    [| |discriminate]; intros [= <-].
  - exists (Some du), di, st, b. split; [reflexivity|].
    subst b. unfold final_bundle. cbn [raw_errors].
    rewrite !app_nil_r. reflexivity.
  - exists None, None, [], (add_error b note_no_route). split; [reflexivity|].
    subst b. unfold final_bundle. cbn [raw_errors add_error].
    rewrite <- !app_assoc. reflexivity.
Qed.

End CarAnswer.

(** The documented example: 40 minutes, 23.5 km. *)
Lemma car_answer_witness :
  exists r : Response,
    fst (TravelAPIView.get sample_environ (sample_query "car")
           (sample_world weather_reply (car_reply 2400 23456) transit_reply))
    = Ok r
    /\ field (u "duration") (data r) = Some (VStr (u "약 40분"))
    /\ field (u "distance") (data r) = Some (VStr (u "23.5 km"))
    /\ field (u "steps") (data r)
       = Some (VList [ VStr (u "한신대에서 출발");
                       VStr (u "Tmap 자동차 경로를 따라 이동 (약 23.5km)");
                       VStr (u "경복궁 도착") ]).
Proof.
  destruct (car_answer sample_environ (sample_query "car")
              (sample_world weather_reply (car_reply 2400 23456) transit_reply)
              {| time_min := 40; distance_km := round_ratio false 235 10 |})
    as (r & b & E & _ & D & _).
  1-7: vm_compute; reflexivity.
  exists r. split; [exact E|]. rewrite D.
  repeat split; vm_compute; reflexivity.
Defined.

(** All three providers failing in a car request: four notes. *)
Lemma errors_tell_which_steps_failed_witness :
  exists (r : Response) (du di : option str) (st : list str) (b : bundle),
    fst (TravelAPIView.get sample_environ (sample_query "car")
           (sample_world (Reply 500 None) (Reply 500 None) NoReply)) = Ok r
    /\ data r = route_body du di st b
    /\ length (raw_errors b) = 4%nat.
Proof.
  assert (E : exists r : Response,
             fst (TravelAPIView.get sample_environ (sample_query "car")
                    (sample_world (Reply 500 None) (Reply 500 None) NoReply))
             = Ok r)
    by (vm_compute; eexists; reflexivity).
  destruct E as [r E].
  destruct (errors_tell_which_steps_failed sample_environ (sample_query "car")
              (sample_world (Reply 500 None) (Reply 500 None) NoReply) r)
    as (du & di & st & b & D & Er); try exact E; try (vm_compute; reflexivity).
  exists r, du, di, st, b. split; [exact E|]. split; [exact D|].
  assert (N : du = None).
  { assert (F : field (u "duration") (data r) = Some VNone).
    { clear D Er. vm_compute in E. injection E as <-. vm_compute. reflexivity. }
    rewrite D in F. destruct du as [d|]; [|reflexivity].
    vm_compute in F. discriminate F. }
  rewrite Er, N. vm_compute. reflexivity.
Defined.
